(** * Website scraping, summarising and brochure scripts

    A shallow embedding of [04_summarizer.py] and [05_brochure_maker.py].

    The two scripts talk to three libraries that are not part of the
    repository: [requests] (HTTP), [bs4] (HTML trees) and [openai] (hosted
    text generation), and use [json] from the Python library.  The network
    and the parsers are taken as a [World] of oracles; the tree operations
    of [bs4] that the scripts call ([find], [find_all], [decompose],
    [get_text], [.string], [.get]) are written out on an inductive tree.
    Effects are threaded through a state and exception monad whose state
    holds the chronological trace of external events and the store of
    [Website] objects. *)

From Stdlib Require Import String Ascii.
From stdpp Require Import base option list numbers pretty.

Set Warnings "-register-all".
Local Open Scope nat_scope.

(** ** Python strings and values *)

Module Py.

(** A Python [str] is a sequence of Unicode code points. *)
Definition str := list N.

(** An ASCII literal of the source, as a [str]. *)
Definition lit (s : string) : str :=
  map N_of_ascii (list_ascii_of_string s).

Definition str_eqb (s t : str) : bool := bool_decide (s = t).

(** [str.isspace] on one code point (the Unicode whitespace set of
    CPython). *)
Definition isspace (c : N) : bool :=
  ((9 <=? c) && (c <=? 13) || (28 <=? c) && (c <=? 32)
   || (c =? 133) || (c =? 160) || (c =? 5760)
   || (8192 <=? c) && (c <=? 8202)
   || (c =? 8232) || (c =? 8233) || (c =? 8239) || (c =? 8287)
   || (c =? 12288))%N.

Fixpoint lstrip (s : str) : str :=
  match s with
  | c :: s' => if isspace c then lstrip s' else s
  | [] => []
  end.

Definition rstrip (s : str) : str := rev (lstrip (rev s)).

(** [s.strip()] *)
Definition strip (s : str) : str := rstrip (lstrip s).

(** [s.startswith(p)] *)
Fixpoint startswith (s p : str) : bool :=
  match p, s with
  | [], _ => true
  | a :: p', b :: s' => (a =? b)%N && startswith s' p'
  | _ :: _, [] => false
  end.

(** [sep.join(l)] *)
Fixpoint join (sep : str) (l : list str) : str :=
  match l with
  | [] => []
  | [s] => s
  | s :: l' => s ++ sep ++ join sep l'
  end.

(** [s[:n]] for a non-negative literal [n]. *)
Definition slice_to (n : nat) (s : str) : str := take n s.

(** [c * n] *)
Definition repeat_str (s : str) (n : nat) : str := concat (replicate n s).

(** [str(i)] for an [int]. *)
Definition str_of_int (z : Z) : str := lit (pretty z).

(** The values the scripts handle dynamically: what [json.loads] can
    return, and so what a link entry, its ["type"] and its ["url"] can
    be.  A [dict] keeps its keys in insertion order; a [float] is kept
    as its bit pattern, which the scripts never inspect. *)
Inductive Value :=
| VNone
| VBool (b : bool)
| VInt (z : Z)
| VFloat (bits : N)
| VStr (s : str)
| VList (l : list Value)
| VDict (d : list (str * Value)).

(** The exceptions that can surface.  Those raised by the scripts carry
    their message; those raised by the interpreter or a library carry
    none. *)
Inductive Exc :=
| ValueError (msg : str)
| Exception (msg : str)
| AttributeError
| TypeError
| KeyError (key : str)
| JSONDecodeError
| LibraryError (name : string).

(** [d[k]] on a [dict]. *)
Fixpoint dict_get (k : str) (d : list (str * Value)) : option Value :=
  match d with
  | [] => None
  | (k', v) :: d' => if str_eqb k' k then Some v else dict_get k d'
  end.

(** [v[k]] for a string key [k]: only a [dict] can be subscripted by a
    string. *)
Definition subscript (v : Value) (k : str) : Exc + Value :=
  match v with
  | VDict d =>
      match dict_get k d with
      | Some x => inr x
      | None => inl (KeyError k)
      end
  | _ => inl TypeError
  end.

(** The items [for x in v] runs over. *)
Definition iterate (v : Value) : Exc + list Value :=
  match v with
  | VList l => inr l
  | VDict d => inr (map (fun kv => VStr (fst kv)) d)
  | VStr s => inr (map (fun c => VStr [c]) s)
  | _ => inl TypeError
  end.

End Py.
Export Py.

(** ** The [bs4] tree *)

Module Bs4.

(** The classes of string nodes. *)
Inductive StringClass :=
| NavigableString | CData | Comment | Declaration | Doctype
| ProcessingInstruction | Script | Stylesheet | TemplateString.

Inductive PageElement :=
| Str (cls : StringClass) (s : str)
| Tag (name : str) (attrs : list (str * str)) (contents : list PageElement).

Definition contents_of (e : PageElement) : list PageElement :=
  match e with
  | Str _ _ => []
  | Tag _ _ cs => cs
  end.

(** [e.descendants]: everything below [e], in document order. *)
Fixpoint descendants (e : PageElement) : list PageElement :=
  match e with
  | Str _ _ => []
  | Tag _ _ cs => flat_map (fun c => c :: descendants c) cs
  end.

Definition name_in (names : list str) (n : str) : bool :=
  existsb (str_eqb n) names.

Definition is_tag_named (names : list str) (e : PageElement) : bool :=
  match e with
  | Str _ _ => false
  | Tag n _ _ => name_in names n
  end.

(** [e.find_all(names)], also written [e(names)]. *)
Definition find_all (names : list str) (e : PageElement) : list PageElement :=
  List.filter (is_tag_named names) (descendants e).

(** [e.find(name)], also written [e.name] as in [soup.title], [soup.body]. *)
Definition find (name : str) (e : PageElement) : option PageElement :=
  head (find_all [name] e).

(** [e.string]: the single string below [e], through single children. *)
Fixpoint string_of (e : PageElement) : option str :=
  match e with
  | Str _ s => Some s
  | Tag _ _ [c] => string_of c
  | Tag _ _ _ => None
  end.

(** [e.get(key)] *)
Fixpoint attrs_get (key : str) (attrs : list (str * str)) : option str :=
  match attrs with
  | [] => None
  | (k, v) :: attrs' => if str_eqb k key then Some v else attrs_get key attrs'
  end.

Definition get (key : str) (e : PageElement) : option str :=
  match e with
  | Str _ _ => None
  | Tag _ a _ => attrs_get key a
  end.

(** The string classes [get_text] keeps by default. *)
Definition interesting (c : StringClass) : bool :=
  match c with
  | NavigableString | CData => true
  | _ => false
  end.

(** The strings [e.get_text(strip=True)] collects: every kept string of
    [e.descendants], stripped, the empty ones dropped. *)
Definition stripped_string (e : PageElement) : list str :=
  match e with
  | Str c s =>
      if interesting c
      then match strip s with [] => [] | s' => [s'] end
      else []
  | Tag _ _ _ => []
  end.

Definition all_strings (e : PageElement) : list str :=
  flat_map stripped_string (descendants e).

(** [e.get_text(separator=sep, strip=True)] *)
Definition get_text (sep : str) (e : PageElement) : str :=
  join sep (all_strings e).

(** [e] after [x.decompose()] for every [x] of [e(names)]: each tag
    below [e] with one of the names is taken out of the tree, with
    everything under it. *)
Fixpoint decompose_all (names : list str) (e : PageElement) : PageElement :=
  match e with
  | Str _ _ => e
  | Tag n a cs =>
      Tag n a (flat_map (fun c => if is_tag_named names c then []
                                  else [decompose_all names c]) cs)
  end.

(** The tree [e] after the first tag called [name] below it (the one
    [find name e] returns) has been changed in place by [f]; [None] when
    there is no such tag. *)
Fixpoint alter_find (name : str) (f : PageElement -> PageElement)
    (e : PageElement) : option PageElement :=
  match e with
  | Str _ _ => None
  | Tag n a cs =>
      option_map (Tag n a)
        ((fix go (l : list PageElement) : option (list PageElement) :=
            match l with
            | [] => None
            | c :: l' =>
                if is_tag_named [name] c then Some (f c :: l')
                else match alter_find name f c with
                     | Some c' => Some (c' :: l')
                     | None => option_map (cons c) (go l')
                     end
            end) cs)
  end.

End Bs4.
Export Bs4.

(** ** The outside world, events and the store *)

Module Env.

(** What [requests.get] returns: [status_code] and the raw [content]. *)
Record Response := { status_code : Z; content : list N }.

(** The keyword arguments of [openai.chat.completions.create]; a message
    is its ["role"] and its ["content"]; [response_format] is the
    ["type"] requested, when one is. *)
Record ChatRequest := {
  model : str;
  messages : list (str * str);
  response_format : option str
}.

(** One interaction with the outside, with what came back. *)
Inductive Event :=
| EvPrint (args : list Value)
| EvGet (url : Value) (headers : list (str * str)) (r : Exc + Response)
| EvChat (req : ChatRequest) (r : Exc + option str).

(** The libraries the scripts rely on.  The network oracles see the
    events so far, so the same request may be answered differently each
    time.  [chat_completions_create] stands for the call together with
    [.choices[0].message.content], which is a string or [None]. *)
Class World := {
  requests_get : list Event -> Value -> list (str * str) -> Exc + Response;
  chat_completions_create : list Event -> ChatRequest -> Exc + option str;
  html_parser : list N -> PageElement;
  json_loads : str -> option Value;
  py_repr : Value -> str
}.

(** The attributes of a [Website] object; [None] is an attribute not set
    (yet).  [title] holds a string or Python's [None]; the summarizer's
    class has no [links]. *)
Record Attrs := {
  url : option Value;
  title : option (option str);
  text : option str;
  links : option (list str)
}.

Definition no_attrs : Attrs :=
  {| url := None; title := None; text := None; links := None |}.

Definition with_url (v : Value) (o : Attrs) : Attrs :=
  {| url := Some v; title := title o; text := text o; links := links o |}.
Definition with_title (t : option str) (o : Attrs) : Attrs :=
  {| url := url o; title := Some t; text := text o; links := links o |}.
Definition with_text (t : str) (o : Attrs) : Attrs :=
  {| url := url o; title := title o; text := Some t; links := links o |}.
Definition with_links (l : list str) (o : Attrs) : Attrs :=
  {| url := url o; title := title o; text := text o; links := Some l |}.

(** The trace of events, oldest first, and the objects allocated so far;
    an object's address is its index. *)
Record State := { events : list Event; heap : list Attrs }.

Definition initial : State := {| events := []; heap := [] |}.

Inductive Outcome (A : Type) :=
| Return (a : A)
| Raise (e : Exc).
Arguments Return {A} a.
Arguments Raise {A} e.

Definition M (A : Type) : Type := State -> Outcome A * State.

#[global] Instance M_ret : MRet M := fun A a st => (Return a, st).
#[global] Instance M_bind : MBind M := fun A B f m st =>
  match m st with
  | (Return a, st') => f a st'
  | (Raise e, st') => (Raise e, st')
  end.

Definition raise {A} (e : Exc) : M A := fun st => (Raise e, st).

Definition lift {A} (r : Exc + A) : M A :=
  match r with
  | inl e => raise e
  | inr a => mret a
  end.

Definition emit (ev : Event) : M unit := fun st =>
  (Return tt, {| events := events st ++ [ev]; heap := heap st |}).

Definition history : M (list Event) := fun st => (Return (events st), st).

(** [print(...)], recorded with its arguments. *)
Definition print (args : list Value) : M unit := emit (EvPrint args).

(** A new object with no attribute. *)
Definition alloc : M nat := fun st =>
  (Return (length (heap st)),
   {| events := events st; heap := heap st ++ [no_attrs] |}).

(** [self.attr = v] *)
Definition setattr (self : nat) (f : Attrs -> Attrs) : M unit := fun st =>
  (Return tt, {| events := events st; heap := alter f self (heap st) |}).

(** [self.attr] *)
Definition getattr {A} (self : nat) (attr : Attrs -> option A) : M A := fun st =>
  (match heap st !! self ≫= attr with
   | Some a => Return a
   | None => Raise AttributeError
   end, st).

(** [for x in l: acc = body(acc, x)] *)
Fixpoint for_each {A B} (l : list A) (body : B -> A -> M B) (acc : B) : M B :=
  match l with
  | [] => mret acc
  | x :: l' => acc' ← body acc x; for_each l' body acc'
  end.

(** The events of a run from [st] to [st']. *)
Definition new_events (st st' : State) : list Event :=
  drop (length (events st)) (events st').

(** The requests of a trace, in order. *)
Definition gets (evs : list Event) : list Value :=
  flat_map (fun ev => match ev with EvGet u _ _ => [u] | _ => [] end) evs.

Definition is_get (ev : Event) : bool :=
  match ev with
  | EvGet _ _ _ => true
  | _ => false
  end.

Section Calls.
Context `{World}.

(** [requests.get(url, headers=headers)] *)
Definition get_ (u : Value) (headers : list (str * str)) : M Response :=
  evs ← history;
  let r := requests_get evs u headers in
  emit (EvGet u headers r);;
  lift r.

(** [openai.chat.completions.create(...).choices[0].message.content] *)
Definition create (req : ChatRequest) : M (option str) :=
  evs ← history;
  let r := chat_completions_create evs req in
  emit (EvChat req r);;
  lift r.

(** [BeautifulSoup(content, "html.parser")] *)
Definition BeautifulSoup (c : list N) : PageElement := html_parser c.

(** What an f-string puts for [{v}]: a string as it is, anything else
    through [repr]. *)
Definition format (v : Value) : str :=
  match v with
  | VStr s => s
  | _ => py_repr v
  end.

(** [{t}] for a title that may be [None]. *)
Definition format_opt (t : option str) : str :=
  match t with
  | Some s => s
  | None => lit "None"
  end.

Definition opt_value (t : option str) : Value :=
  match t with
  | Some s => VStr s
  | None => VNone
  end.

End Calls.

(** Names and strings both scripts use. *)
Definition irrelevant_tags : list str :=
  [lit "script"; lit "style"; lit "img"; lit "input"].

Definition user_agent : list (str * str) :=
  [(lit "User-Agent",
    lit "Mozilla/5.0 (Windows NT 10.0; Win64; x64) "
    ++ lit "AppleWebKit/537.36 (KHTML, like Gecko) "
    ++ lit "Chrome/117.0.0.0 Safari/537.36")].

Definition nl : str := [10%N].
Definition dq : str := [34%N].

(** The tree after [for irrelevant in soup.body([...]): irrelevant.decompose()];
    only called when [soup.body] is there. *)
Definition decompose_in_body (soup : PageElement) : PageElement :=
  default soup (alter_find (lit "body") (decompose_all irrelevant_tags) soup).

End Env.
Export Env.

(** ** [04_summarizer.py] *)

Module Summarizer.
Section Script.
Context `{World}.

(** The top of the module: the key read from the environment
    ([os.getenv] gives [None] when it is absent) is checked, then the
    client is made, which reaches nothing outside. *)
Definition load_api_key (api_key : option str) : M unit :=
  match api_key with
  | None | Some [] =>
      raise (ValueError
        ([10060%N] ++ lit " No API key found. Please create a .env file with "
         ++ lit "OPENAI_API_KEY=your_key_here"))
  | Some k =>
      if negb (startswith k (lit "sk-proj-")) then
        print [VStr ([9888%N; 65039%N] ++ lit " API key found, but it doesn't "
                     ++ lit "look like a project key (sk-proj-...)")]
      else if negb (str_eqb (strip k) k) then
        print [VStr ([9888%N; 65039%N] ++ lit " API key has spaces or tabs "
                     ++ lit "around it. Please remove them.")]
      else
        print [VStr ([9989%N] ++ lit " API key found and looks valid.")]
  end.

(** [Website.__init__(self, url)] *)
Definition Website__init__ (self : nat) (url : str) : M unit :=
  setattr self (with_url (VStr url));;
  response ← get_ (VStr url) user_agent;
  if negb (status_code response =? 200)%Z then
    raise (Exception (lit "Failed to fetch " ++ url ++ lit ". Status code: "
                      ++ str_of_int (status_code response)))
  else
    let soup := BeautifulSoup (content response) in
    title ← match find (lit "title") soup with
            | Some t =>
                match string_of t with
                | Some s => mret (strip s)
                | None => raise AttributeError
                end
            | None => mret (lit "No title found")
            end;
    setattr self (with_title (Some title));;
    match find (lit "body") soup with
    | Some _ =>
        let soup := decompose_in_body soup in
        match find (lit "body") soup with
        | Some body => setattr self (with_text (get_text nl body))
        | None => raise AttributeError
        end
    | None => setattr self (with_text [])
    end.

(** [Website(url)] *)
Definition Website (url : str) : M nat :=
  self ← alloc;
  Website__init__ self url;;
  mret self.

Definition SYSTEM_PROMPT : str :=
  lit "You are an assistant that analyzes the contents of a website "
  ++ lit "and provides a short summary, ignoring text that might be navigation related. "
  ++ lit "Respond in markdown.".

Definition user_prompt_for (website : nat) : M str :=
  website_title ← getattr website title;
  website_text ← getattr website text;
  mret (lit "You are looking at a website titled " ++ format_opt website_title
        ++ nl ++ nl
        ++ lit "The contents of this website are as follows; "
        ++ lit "please provide a short summary of this website in markdown. "
        ++ lit "If it includes news or announcements, then summarize these too."
        ++ nl ++ nl
        ++ website_text).

Definition messages_for (website : nat) : M (list (str * str)) :=
  user ← user_prompt_for website;
  mret [(lit "system", SYSTEM_PROMPT); (lit "user", user)].

Definition summarize (url : str) : M (option str) :=
  website ← Website url;
  msgs ← messages_for website;
  create {| model := lit "gpt-4o-mini"; messages := msgs;
            response_format := None |}.

Definition display_summary (url : str) : M unit :=
  summary ← summarize url;
  print [VStr (nl ++ repeat_str (lit "=") 60)];;
  print [VStr (lit "Summary of " ++ url ++ lit ":")];;
  print [VStr (repeat_str (lit "=") 60)];;
  print [opt_value summary];;
  print [VStr (repeat_str (lit "=") 60 ++ nl)].

Definition test_url : str := lit "https://edwarddonner.com".

(** The script run as a program. *)
Definition main (api_key : option str) : M unit :=
  load_api_key api_key;;
  display_summary test_url.

End Script.
End Summarizer.

(** ** [05_brochure_maker.py] *)

Module BrochureMaker.
Section Script.
Context `{World}.

(** [api_key and api_key.startswith("sk-proj-") and len(api_key) > 10] *)
Definition key_looks_good (api_key : option str) : bool :=
  match api_key with
  | Some ((_ :: _) as k) =>
      startswith k (lit "sk-proj-") && bool_decide (10 < length k)
  | _ => false
  end.

Definition load_api_key (api_key : option str) : M unit :=
  if key_looks_good api_key then
    print [VStr ([9989%N] ++ lit " API key looks good so far")]
  else
    raise (ValueError
      ([10060%N] ++ lit " There might be a problem with your API key. "
       ++ lit "Please check your .env file and make sure it has: "
       ++ lit "OPENAI_API_KEY=sk-proj-xxxx...")).

Definition MODEL : str := lit "gpt-4o-mini".

Definition HEADERS : list (str * str) := user_agent.

(** [[link for link in links if link]]: [None] and the empty string are
    dropped. *)
Definition keep_truthy (links : list (option str)) : list str :=
  flat_map (fun link => match link with
                        | Some (c :: s) => [c :: s]
                        | _ => []
                        end) links.

(** [Website.__init__(self, url)] *)
Definition Website__init__ (self : nat) (url : Value) : M unit :=
  setattr self (with_url url);;
  response ← get_ url HEADERS;
  if negb (status_code response =? 200)%Z then
    raise (Exception ([10060%N] ++ lit " Failed to fetch " ++ format url
                      ++ lit ". Status code: "
                      ++ str_of_int (status_code response)))
  else
    let soup := BeautifulSoup (content response) in
    setattr self (with_title
                    match find (lit "title") soup with
                    | Some t => string_of t
                    | None => Some (lit "No title found")
                    end);;
    soup ← match find (lit "body") soup with
           | Some _ =>
               let soup := decompose_in_body soup in
               match find (lit "body") soup with
               | Some body =>
                   setattr self (with_text (get_text nl body));; mret soup
               | None => raise AttributeError
               end
           | None => setattr self (with_text []);; mret soup
           end;
    let links := map (get (lit "href")) (find_all [lit "a"] soup) in
    setattr self (with_links (keep_truthy links)).

(** [Website(url)] *)
Definition Website (url : Value) : M nat :=
  self ← alloc;
  Website__init__ self url;;
  mret self.

Definition get_contents (self : nat) : M str :=
  self_title ← getattr self title;
  self_text ← getattr self text;
  mret (lit "Webpage Title:" ++ nl ++ format_opt self_title ++ nl
        ++ lit "Webpage Contents:" ++ nl ++ self_text ++ nl ++ nl).

Definition link_system_prompt : str :=
  lit "You are provided with a list of links found on a webpage. "
  ++ lit "You are able to decide which of the links would be most relevant to include "
  ++ lit "in a brochure about the company, such as links to an About page, Company page, or Careers/Jobs pages."
  ++ nl
  ++ lit "You should respond in JSON as in this example:" ++ nl
  ++ lit "{" ++ nl
  ++ lit "    " ++ dq ++ lit "links" ++ dq ++ lit ": [" ++ nl
  ++ lit "        {" ++ dq ++ lit "type" ++ dq ++ lit ": " ++ dq
  ++ lit "about page" ++ dq ++ lit ", " ++ dq ++ lit "url" ++ dq ++ lit ": "
  ++ dq ++ lit "https://full.url/goes/here/about" ++ dq ++ lit "}," ++ nl
  ++ lit "        {" ++ dq ++ lit "type" ++ dq ++ lit ": " ++ dq
  ++ lit "careers page" ++ dq ++ lit ", " ++ dq ++ lit "url" ++ dq ++ lit ": "
  ++ dq ++ lit "https://another.full.url/careers" ++ dq ++ lit "}" ++ nl
  ++ lit "    ]" ++ nl
  ++ lit "}" ++ nl.

Definition get_links_user_prompt (website : nat) : M str :=
  website_url ← getattr website url;
  let user_prompt :=
    lit "Here is the list of links on the website of " ++ format website_url
    ++ lit ". "
    ++ lit "Please decide which of these are relevant web links for a brochure about the company. "
    ++ lit "Respond with the full https URL in JSON format. "
    ++ lit "Do not include Terms of Service, Privacy, or email links."
    ++ nl ++ nl
    ++ lit "Links (some might be relative links):" ++ nl in
  website_links ← getattr website links;
  mret (user_prompt ++ join nl website_links).

Definition get_links (url : str) : M Value :=
  website ← Website (VStr url);
  user ← get_links_user_prompt website;
  result ← create {| model := MODEL;
                     messages := [(lit "system", link_system_prompt);
                                  (lit "user", user)];
                     response_format := Some (lit "json_object") |};
  match result with
  | None => raise TypeError
  | Some s =>
      match json_loads s with
      | Some v => mret v
      | None => raise JSONDecodeError
      end
  end.

(** The body of the loop of [get_all_details], for one [link]. *)
Definition add_link (result : str) (link : Value) : M str :=
  link_type ← lift (subscript link (lit "type"));
  let result := result ++ nl ++ nl ++ format link_type ++ nl in
  link_url ← lift (subscript link (lit "url"));
  page ← Website link_url;
  page_contents ← get_contents page;
  mret (result ++ page_contents).

Definition get_all_details (url : str) : M str :=
  let result := lit "Landing page:" ++ nl in
  landing ← Website (VStr url);
  landing_contents ← get_contents landing;
  let result := result ++ landing_contents in
  links ← get_links url;
  print [VStr ([128279%N] ++ lit " Found relevant links:"); links];;
  selected ← lift (subscript links (lit "links"));
  items ← lift (iterate selected);
  for_each items add_link result.

Definition system_prompt : str :=
  lit "You are an assistant that analyzes the contents of several relevant pages "
  ++ lit "from a company website and creates a short brochure about the company "
  ++ lit "for prospective customers, investors, and recruits. Respond in markdown. "
  ++ lit "Include details of company culture, customers, and careers/jobs if available.".

(** The prompt before [[:5_000]]. *)
Definition brochure_prompt_head (company_name : str) : str :=
  lit "You are looking at a company called: " ++ company_name ++ nl
  ++ lit "Here are the contents of its landing page and other relevant pages; "
  ++ lit "use this information to build a short brochure of the company in markdown."
  ++ nl.

Definition get_brochure_user_prompt (company_name url : str) : M str :=
  let user_prompt := brochure_prompt_head company_name in
  details ← get_all_details url;
  let user_prompt := user_prompt ++ details in
  mret (slice_to 5000 user_prompt).

Definition create_brochure (company_name url : str) : M (option str) :=
  user ← get_brochure_user_prompt company_name url;
  create {| model := MODEL;
            messages := [(lit "system", system_prompt); (lit "user", user)];
            response_format := None |}.

(** The script run as a program. *)
Definition main (api_key : option str) : M unit :=
  load_api_key api_key;;
  let company_name := lit "HuggingFace" in
  let url := lit "https://huggingface.co" in
  print [VStr ([128196%N] ++ lit " Generating brochure for " ++ company_name
               ++ lit " (" ++ url ++ lit ") ..." ++ nl)];;
  brochure ← create_brochure company_name url;
  print [VStr (repeat_str (lit "=") 60)];;
  print [VStr (lit "Brochure for " ++ company_name)];;
  print [VStr (repeat_str (lit "=") 60)];;
  print [opt_value brochure];;
  print [VStr (repeat_str (lit "=") 60)].

End Script.
End BrochureMaker.

(** ** What the specification talks about *)

Module Spec.

(** The strings of a tree that lie outside any script, style, image or
    input element, in document order: what is left to see. *)
Fixpoint visible_strings (e : PageElement) : list str :=
  match e with
  | Str c s => if interesting c then [s] else []
  | Tag n _ cs =>
      if name_in irrelevant_tags n then [] else flat_map visible_strings cs
  end.

(** Each string trimmed of surrounding whitespace, the blank ones left out. *)
Definition trimmed_lines (ss : list str) : list str :=
  List.filter (fun s => negb (str_eqb s [])) (map strip ss).

(** The visible text of a body element, one trimmed string per line. *)
Definition visible_text (body : PageElement) : str :=
  join nl (trimmed_lines (flat_map visible_strings (contents_of body))).

(** Two trees that are the same outside their script, style, image and
    input elements: such an element may hold anything on either side. *)
Inductive agree_outside : PageElement -> PageElement -> Prop :=
| agree_Str c s : agree_outside (Str c s) (Str c s)
| agree_irrelevant n a a' cs cs' :
    name_in irrelevant_tags n = true ->
    agree_outside (Tag n a cs) (Tag n a' cs')
| agree_Tag n a cs cs' :
    Forall2 agree_outside cs cs' ->
    agree_outside (Tag n a cs) (Tag n a cs').

Definition is_string (e : PageElement) : bool :=
  match e with
  | Str _ _ => true
  | Tag _ _ _ => false
  end.

(** A tree as [html.parser] builds it: [img] and [input] are void and the
    inside of [script] and [style] is raw text, so none of them has an
    element below it. *)
Fixpoint parser_shaped (e : PageElement) : bool :=
  match e with
  | Str _ _ => true
  | Tag n _ cs =>
      (if name_in irrelevant_tags n then forallb is_string cs else true)
      && forallb parser_shaped cs
  end.

(** An anchor element with a non-empty target. *)
Definition has_target (e : PageElement) : bool :=
  is_tag_named [lit "a"] e &&
  match get (lit "href") e with
  | Some (_ :: _) => true
  | _ => false
  end.

(** The anchors with a target, anywhere in the document, in document
    order. *)
Definition anchors_with_target (soup : PageElement) : list PageElement :=
  List.filter has_target (descendants soup).

(** The target of an anchor, as written in the document. *)
Definition target_of (e : PageElement) : str :=
  default [] (get (lit "href") e).

(** A fetch that did not bring a page: the transport raised, or the
    status is not 200. *)
Definition fetch_failed (ev : Event) : bool :=
  match ev with
  | EvGet _ _ (inl _) => true
  | EvGet _ _ (inr r) => negb (status_code r =? 200)%Z
  | _ => false
  end.

(** [ev] is the fetch of the page [link] points to, and it brought the
    page. *)
Definition fetch_of (link : Value) (ev : Event) : Prop :=
  exists u r, subscript link (lit "url") = inr u
              /\ ev = EvGet u user_agent r /\ fetch_failed ev = false.

(** The address a link entry gives. *)
Definition url_of (link : Value) (u : Value) : Prop :=
  subscript link (lit "url") = inr u.

(** The sign the warnings about the key start with. *)
Definition warning_sign : str := [9888%N; 65039%N].

(** A key whose prefix or surrounding whitespace looks wrong. *)
Definition looks_wrong (k : str) : bool :=
  negb (startswith k (lit "sk-proj-")) || negb (str_eqb (strip k) k).

(** The request for a summary of the page titled Example that reads
    Hello, World. *)
Definition example_request : ChatRequest :=
  {| model := lit "gpt-4o-mini";
     messages :=
       [(lit "system", Summarizer.SYSTEM_PROMPT);
        (lit "user",
         lit "You are looking at a website titled " ++ lit "Example"
         ++ nl ++ nl
         ++ lit "The contents of this website are as follows; "
         ++ lit "please provide a short summary of this website in markdown. "
         ++ lit "If it includes news or announcements, then summarize these too."
         ++ nl ++ nl
         ++ (lit "Hello" ++ nl ++ lit "World"))];
     response_format := None |}.

(** A [Website] object as it is after a fetch that failed: the address is
    all it has. *)
Definition bare (o : Attrs) : Prop :=
  title o = None /\ text o = None /\ links o = None.

End Spec.
Export Spec.

(** ** Concrete worlds *)

Module Demo.

Definition elem (n : string) (cs : list PageElement) : PageElement :=
  Tag (lit n) [] cs.
Definition txt (s : string) : PageElement := Str NavigableString (lit s).
Definition anchor (href : option string) (cs : list PageElement) : PageElement :=
  Tag (lit "a")
      match href with Some h => [(lit "href", lit h)] | None => [] end cs.

(** A page titled Example whose body reads Hello, World; it has a script
    and an image, and no link. *)
Definition example_page : PageElement :=
  elem "[document]"
    [elem "html"
       [elem "head" [elem "title" [txt "Example"]];
        elem "body"
          [elem "p" [txt "  Hello "];
           elem "script" [Str Script (lit "var Hello = 1;")];
           elem "img" [];
           elem "p" [txt "World"]]]].

(** A landing page with four anchors, two of them with a target. *)
Definition landing_page : PageElement :=
  elem "[document]"
    [elem "html"
       [elem "head" [elem "title" [txt "Acme"]];
        elem "body"
          [anchor (Some "/about") [elem "img" []; txt "About"];
           anchor None [txt "nowhere"];
           anchor (Some "") [txt "empty"];
           elem "style" [Str Stylesheet (lit "a { color: red }")];
           anchor (Some "/about") [txt "About again"]]]].

Definition about_page : PageElement :=
  elem "[document]"
    [elem "html"
       [elem "head" [elem "title" [txt "About Acme"]];
        elem "body" [elem "p" [txt "We make anvils."]]]].

(** An empty title element and no body. *)
Definition untitled_page : PageElement :=
  elem "[document]" [elem "html" [elem "head" [elem "title" []]]].

Definition pages (c : list N) : PageElement :=
  match c with
  | [0%N] => example_page
  | [1%N] => landing_page
  | [2%N] => about_page
  | _ => untitled_page
  end.

Definition ok (c : N) : Exc + Response :=
  inr {| status_code := 200; content := [c] |}.

Definition not_found : Exc + Response :=
  inr {| status_code := 404; content := [] |}.

Definition site (u : Value) : Exc + Response :=
  match u with
  | VStr s =>
      if str_eqb s (lit "https://example.com") then ok 0
      else if str_eqb s (lit "https://acme.test") then ok 1
      else if str_eqb s (lit "https://acme.test/about") then ok 2
      else if str_eqb s (lit "https://untitled.test") then ok 3
      else not_found
  | _ => inl (LibraryError "MissingSchema")
  end.

Definition link_entry (ty u : string) : Value :=
  VDict [(lit "type", VStr (lit ty)); (lit "url", VStr (lit u))].

Definition about_only : Value :=
  VDict [(lit "links", VList [link_entry "about page" "https://acme.test/about"])].

Definition gone_and_about : Value :=
  VDict [(lit "links",
          VList [link_entry "careers page" "https://acme.test/careers";
                 link_entry "about page" "https://acme.test/about"])].

Definition knows (known : str) (v : Value) (s : str) : option Value :=
  if str_eqb s known then Some v else None.

(** The service answers a request for JSON with [reply], anything else
    with [prose]. *)
Definition world (reply : option str) (loads : str -> option Value)
    (prose : option str) : World :=
  {| requests_get := fun _ u _ => site u;
     chat_completions_create := fun _ req =>
       match response_format req with
       | Some _ => inr reply
       | None => inr prose
       end;
     html_parser := pages;
     json_loads := loads;
     py_repr := fun _ => lit "<repr>" |}.

(** The service selects the about page. *)
Definition acme : World :=
  world (Some (lit "{about}")) (knows (lit "{about}") about_only)
        (Some (lit "# Acme")).

(** The service selects a page that is not there, then the about page. *)
Definition acme_broken_link : World :=
  world (Some (lit "{careers, about}"))
        (knows (lit "{careers, about}") gone_and_about)
        (Some (lit "# Acme")).

(** The service has nothing to say. *)
Definition silent : World :=
  world (Some (lit "{about}")) (knows (lit "{about}") about_only) (Some []).

(** The service answers the request for JSON with a list of numbers. *)
Definition off_shape : World :=
  world (Some (lit "[1]")) (knows (lit "[1]") (VList [VInt 1]))
        (Some (lit "# Acme")).

(** The service answers the request for JSON in prose. *)
Definition babbling : World :=
  world (Some (lit "Sure! Here are the links"))
        (knows (lit "{about}") about_only) (Some (lit "# Acme")).

Definition example_body : PageElement :=
  elem "body"
    [elem "p" [txt "  Hello "];
     elem "script" [Str Script (lit "var Hello = 1;")];
     elem "img" [];
     elem "p" [txt "World"]].

Definition example_url : str := lit "https://example.com".
Definition acme_url : str := lit "https://acme.test".
Definition careers_url : str := lit "https://acme.test/careers".
Definition untitled_url : str := lit "https://untitled.test".

(** A company name longer than the cap. *)
Definition long_name : str := repeat_str (lit "Acme ") 1200.

End Demo.

(** ** Trees, states and traces the lemmas are stated with *)

Module Shapes.

(** [alter_find] over the children of a tag. *)
Fixpoint alter_find_list (name : str) (f : PageElement -> PageElement)
    (l : list PageElement) : option (list PageElement) :=
  match l with
  | [] => None
  | c :: l' =>
      if is_tag_named [name] c then Some (f c :: l')
      else match alter_find name f c with
           | Some c' => Some (c' :: l')
           | None => option_map (cons c) (alter_find_list name f l')
           end
  end.

(** Everything in a list of siblings, in document order. *)
Definition below (cs : list PageElement) : list PageElement :=
  flat_map (fun c => c :: descendants c) cs.

(** [decompose_all] over the children of a tag. *)
Definition decompose_list (names : list str) (cs : list PageElement) :
    list PageElement :=
  flat_map (fun c => if is_tag_named names c then []
                     else [decompose_all names c]) cs.

(** The targets [find_all("a")] leads to, set or not. *)
Definition hrefs (es : list PageElement) : list (option str) :=
  map (get (lit "href")) (List.filter (is_tag_named [lit "a"]) es).

(** Two elements with the same name and attributes. *)
Definition same_root (e e' : PageElement) : Prop :=
  match e, e' with
  | Str c s, Str c' s' => c = c' /\ s = s'
  | Tag n a _, Tag n' a' _ => n = n' /\ a = a'
  | _, _ => False
  end.

(** The tree the scripts hold once the body, if there is one, has been
    cleaned. *)
Definition cleaned (soup : PageElement) : PageElement :=
  match find (lit "body") soup with
  | Some _ => decompose_in_body soup
  | None => soup
  end.

(** The text a page is given. *)
Definition page_text (soup : PageElement) : str :=
  match find (lit "body") soup with
  | Some body => visible_text body
  | None => []
  end.

(** The attributes of the brochure maker's object for a page fetched from
    [u] and parsed as [soup]. *)
Definition brochure_page (u : Value) (soup : PageElement) : Attrs :=
  {| url := Some u;
     title := Some match find (lit "title") soup with
                   | Some t => string_of t
                   | None => Some (lit "No title found")
                   end;
     text := Some (page_text soup);
     links := Some (BrochureMaker.keep_truthy
                      (hrefs (descendants (cleaned soup)))) |}.

(** The same for the summarizer, whose title [t] is a string. *)
Definition summarizer_page (u : str) (t : str) (soup : PageElement) : Attrs :=
  {| url := Some (VStr u); title := Some (Some t);
     text := Some (page_text soup); links := None |}.

(** The state after a fetch of [u] answered by [r] that made the object
    [o]. *)
Definition fetched (st : State) (u : Value) (r : Exc + Response) (o : Attrs) :
    State :=
  {| events := events st ++ [EvGet u user_agent r]; heap := heap st ++ [o] |}.

(** The messages of the two [raise Exception] statements. *)
Definition summarizer_failure (url : str) (r : Response) : str :=
  lit "Failed to fetch " ++ url ++ lit ". Status code: "
  ++ str_of_int (status_code r).

Definition brochure_failure `{World} (u : Value) (r : Response) : str :=
  [10060%N] ++ lit " Failed to fetch " ++ format u ++ lit ". Status code: "
  ++ str_of_int (status_code r).

(** The summarizer's title: the stripped string of the title element, the
    marker when there is no such element; [.strip()] fails on [None]. *)
Definition summarizer_title (soup : PageElement) : Exc + str :=
  match find (lit "title") soup with
  | Some t =>
      match string_of t with
      | Some s => inr (strip s)
      | None => inl AttributeError
      end
  | None => inr (lit "No title found")
  end.

(** What [get_contents] makes of a title and a text. *)
Definition page_contents (t : option str) (x : str) : str :=
  lit "Webpage Title:" ++ nl ++ format_opt t ++ nl
  ++ lit "Webpage Contents:" ++ nl ++ x ++ nl ++ nl.

(** The request [get_links] sends for an object with attributes [o]. *)
Definition links_request `{World} (o : Attrs) : ChatRequest :=
  {| model := BrochureMaker.MODEL;
     messages :=
       [(lit "system", BrochureMaker.link_system_prompt);
        (lit "user",
         (lit "Here is the list of links on the website of "
          ++ format (default VNone (url o)) ++ lit ". "
          ++ lit "Please decide which of these are relevant web links for a brochure about the company. "
          ++ lit "Respond with the full https URL in JSON format. "
          ++ lit "Do not include Terms of Service, Privacy, or email links."
          ++ nl ++ nl
          ++ lit "Links (some might be relative links):" ++ nl)
         ++ join nl (default [] (links o)))];
     response_format := Some (lit "json_object") |}.

(** What [get_links] makes of the service's answer. *)
Definition selection `{World} (answer : Exc + option str) : Outcome Value :=
  match answer with
  | inl e => Raise e
  | inr None => Raise TypeError
  | inr (Some s) =>
      match json_loads s with
      | Some v => Return v
      | None => Raise JSONDecodeError
      end
  end.

(** The shapes the trace of [get_all_details] can take, with its outcome:
    it stops at the first fetch of the landing page, or at the second, or
    at the answer of the service, or it prints the selection and goes
    through the selected links. *)
Definition aggregation_trace `{World} (u : Value) (out : Outcome str)
    (evs : list Event) : Prop :=
  (exists r e, evs = [EvGet u user_agent r]
               /\ fetch_failed (EvGet u user_agent r) = true /\ out = Raise e)
  \/ (exists r1 r2 e,
        evs = [EvGet u user_agent r1; EvGet u user_agent r2]
        /\ fetch_failed (EvGet u user_agent r1) = false
        /\ fetch_failed (EvGet u user_agent r2) = true /\ out = Raise e)
  \/ (exists r1 r2 req answer e,
        evs = [EvGet u user_agent r1; EvGet u user_agent r2; EvChat req answer]
        /\ fetch_failed (EvGet u user_agent r1) = false
        /\ fetch_failed (EvGet u user_agent r2) = false
        /\ selection answer = Raise e /\ out = Raise e)
  \/ (exists r1 r2 req answer links line tail,
        evs = [EvGet u user_agent r1; EvGet u user_agent r2; EvChat req answer;
               EvPrint [line; links]] ++ tail
        /\ fetch_failed (EvGet u user_agent r1) = false
        /\ fetch_failed (EvGet u user_agent r2) = false
        /\ selection answer = Return links
        /\ match subscript links (lit "links") with
           | inl e => tail = [] /\ out = Raise e
           | inr selected =>
               match iterate selected with
               | inl e => tail = [] /\ out = Raise e
               | inr items =>
                   forallb is_get tail = true
                   /\ length tail <= length items
                   /\ (forall doc, out = Return doc -> Forall2 fetch_of items tail)
               end
           end).

(** The state after [print(line)]. *)
Definition printed (st : State) (args : list Value) : State :=
  {| events := events st ++ [EvPrint args]; heap := heap st |}.

(** The state after the service answered [answer] to [req]. *)
Definition answered (st : State) (req : ChatRequest) (answer : Exc + option str) :
    State :=
  {| events := events st ++ [EvChat req answer]; heap := heap st |}.

End Shapes.
Import Shapes.

(** ** What the further properties are stated with *)

Module Further.

(** A run of [m] from any state only adds events, each of them
    satisfying [P], and what it returns satisfies [Q]. *)
Definition runs {A} (P : Event -> Prop) (Q : A -> Prop) (m : M A) : Prop :=
  forall st,
    exists evs,
      events (snd (m st)) = events st ++ evs
      /\ Forall P evs
      /\ match fst (m st) with
         | Return a => Q a
         | Raise _ => True
         end.

(** The exception a fetch that did not bring a page ends in: the one the
    transport raised, or the one [Website.__init__] of the brochure maker
    raises for the status. *)
Definition failure_of `{World} (u : Value) (r : Exc + Response) : Exc :=
  match r with
  | inl e => e
  | inr resp => Exception (brochure_failure u resp)
  end.

(** A run of [m] only adds events, and ends in the exception of any fetch
    among them that did not bring its page. *)
Definition blames `{World} {A} (m : M A) : Prop :=
  forall st,
    exists evs,
      events (snd (m st)) = events st ++ evs
      /\ forall u h r,
           In (EvGet u h r) evs -> fetch_failed (EvGet u h r) = true ->
           fst (m st) = Raise (failure_of u r).

(** The items a parsed reply selects: [links["links"]], as the loop of
    [get_all_details] goes through it. *)
Definition selected_items (links : Value) : Exc + list Value :=
  match subscript links (lit "links") with
  | inl e => inl e
  | inr selected => iterate selected
  end.

(** What [get_contents] gives for the page a fetch brought. *)
Definition page_of `{World} (ev : Event) : str :=
  match ev with
  | EvGet u _ (inr resp) =>
      page_contents
        (default None (title (brochure_page u (html_parser (content resp)))))
        (page_text (html_parser (content resp)))
  | _ => []
  end.

(** The part of the aggregated document for one selected link, whose page
    the fetch [ev] brought. *)
Definition section `{World} (link : Value) (ev : Event) : str :=
  nl ++ nl
  ++ match subscript link (lit "type") with
     | inr ty => format ty
     | inl _ => []
     end
  ++ nl ++ page_of ev.

Definition sections `{World} (items : list Value) (evs : list Event) : str :=
  concat (zip_with section items evs).

(** A link entry the loop can use: it has a type and an address, and
    [ev] is the fetch of that address, which brought the page. *)
Definition entry_fetch (link : Value) (ev : Event) : Prop :=
  (exists ty, subscript link (lit "type") = inr ty) /\ fetch_of link ev.

(** A run of [m] leaves the objects there are as they are: it only adds
    objects. *)
Definition keeps {A} (m : M A) : Prop :=
  forall st, exists objs, heap (snd (m st)) = heap st ++ objs.

Definition is_print (ev : Event) : bool :=
  match ev with
  | EvPrint _ => true
  | _ => false
  end.

Definition is_chat (ev : Event) : bool :=
  match ev with
  | EvChat _ _ => true
  | _ => false
  end.

(** What every event of the brochure maker looks like: a fetch carries
    the browser's user agent; a request to the service names the model,
    and is either the selection of links, asked for in JSON, or the
    brochure, whose user message has at most 5000 characters. *)
Definition brochure_event (ev : Event) : Prop :=
  match ev with
  | EvPrint _ => True
  | EvGet _ h _ => h = user_agent
  | EvChat req _ =>
      model req = lit "gpt-4o-mini"
      /\ ((response_format req = Some (lit "json_object")
           /\ exists user,
                messages req
                = [(lit "system", BrochureMaker.link_system_prompt);
                   (lit "user", user)])
          \/ (response_format req = None
              /\ exists user,
                   messages req
                   = [(lit "system", BrochureMaker.system_prompt);
                      (lit "user", user)]
                   /\ length user <= 5000))
  end.

(** The request [summarize] sends for a page with title [t] and text [x]. *)
Definition summary_request (t : option str) (x : str) : ChatRequest :=
  {| model := lit "gpt-4o-mini";
     messages :=
       [(lit "system", Summarizer.SYSTEM_PROMPT);
        (lit "user",
         lit "You are looking at a website titled " ++ format_opt t
         ++ nl ++ nl
         ++ lit "The contents of this website are as follows; "
         ++ lit "please provide a short summary of this website in markdown. "
         ++ lit "If it includes news or announcements, then summarize these too."
         ++ nl ++ nl
         ++ x)];
     response_format := None |}.

(** The five lines [display_summary] prints around a summary. *)
Definition summary_display (url : str) (summary : option str) : list Event :=
  [EvPrint [VStr (nl ++ repeat_str (lit "=") 60)];
   EvPrint [VStr (lit "Summary of " ++ url ++ lit ":")];
   EvPrint [VStr (repeat_str (lit "=") 60)];
   EvPrint [opt_value summary];
   EvPrint [VStr (repeat_str (lit "=") 60 ++ nl)]].

(** A string that starts and ends with something other than whitespace. *)
Definition ends_well (p : str) : Prop :=
  exists c t d t', p = c :: t /\ isspace c = false
                   /\ rev p = d :: t' /\ isspace d = false.

(** A world whose transport gives up on every request. *)
Definition offline : World :=
  {| requests_get := fun _ _ _ => inl (LibraryError "ConnectionError");
     chat_completions_create := fun _ _ => inl (LibraryError "APIConnectionError");
     html_parser := Demo.pages;
     json_loads := fun _ => None;
     py_repr := fun _ => lit "<repr>" |}.

(** The service selects links, but not under the key the loop reads. *)
Definition misnamed : World :=
  Demo.world (Some (lit "{pages}"))
    (Demo.knows (lit "{pages}")
       (VDict [(lit "pages",
                VList [Demo.link_entry "about page" "https://acme.test/about"])]))
    (Some (lit "# Acme")).

(** The service selects a link without saying what it is. *)
Definition untyped : World :=
  Demo.world (Some (lit "{untyped}"))
    (Demo.knows (lit "{untyped}")
       (VDict [(lit "links",
                VList [VDict [(lit "url", VStr (lit "https://acme.test/about"))]])]))
    (Some (lit "# Acme")).

(** A page whose title element holds two strings, and a page whose body
    has an anchor inside a script element, which no parser builds. *)
Definition two_titles : PageElement :=
  Demo.elem "[document]"
    [Demo.elem "html"
       [Demo.elem "head"
          [Demo.elem "title" [Demo.txt "Acme"; Str Comment (lit "draft")]];
        Demo.elem "body" [Demo.elem "p" [Demo.txt "Hi"]]]].

Definition odd_page : PageElement :=
  Demo.elem "[document]"
    [Demo.elem "body"
       [Demo.anchor (Some "/a") [];
        Demo.elem "script" [Demo.anchor (Some "/hidden") []];
        Demo.anchor (Some "/b") []]].

Definition odd_world : World :=
  {| requests_get := fun _ _ _ => inr {| status_code := 200; content := [] |};
     chat_completions_create := fun _ _ => inr (Some []);
     html_parser := fun c => match c with [] => odd_page | _ => two_titles end;
     json_loads := fun _ => None;
     py_repr := fun _ => lit "<repr>" |}.

Definition titles_world : World :=
  {| requests_get := fun _ _ _ => inr {| status_code := 200; content := [] |};
     chat_completions_create := fun _ _ => inr (Some []);
     html_parser := fun _ => two_titles;
     json_loads := fun _ => None;
     py_repr := fun _ => lit "<repr>" |}.

(** [ev] is the fetch of the page [link] points to, whatever came
    back. *)
Definition fetch_attempt (link : Value) (ev : Event) : Prop :=
  exists u r, subscript link (lit "url") = inr u /\ ev = EvGet u user_agent r.

(** [sub in s] *)
Fixpoint contains (s sub : str) : bool :=
  startswith s sub
  || match s with
     | [] => false
     | _ :: s' => contains s' sub
     end.

(** The lines of a text: what lies between its line breaks. *)
Fixpoint lines_of (s : str) : list str :=
  match s with
  | [] => [[]]
  | c :: s' =>
      if (c =? 10)%N then [] :: lines_of s'
      else match lines_of s' with
           | l :: ls => (c :: l) :: ls
           | [] => [[c]]
           end
  end.

(** A page whose hundred paragraphs add up to more than the cap, and a
    world that serves it at every address, where the service selects no
    link. *)
Definition long_page : PageElement :=
  Demo.elem "[document]"
    [Demo.elem "html"
       [Demo.elem "head" [Demo.elem "title" [Demo.txt "Acme"]];
        Demo.elem "body"
          (replicate 100
             (Demo.elem "p"
                [Str NavigableString (repeat_str (lit "anvil ") 10)]))]].

Definition wordy : World :=
  {| requests_get := fun _ _ _ => inr {| status_code := 200; content := [] |};
     chat_completions_create := fun _ req =>
       match response_format req with
       | Some _ => inr (Some (lit "{}"))
       | None => inr (Some (lit "# Acme"))
       end;
     html_parser := fun _ => long_page;
     json_loads := Demo.knows (lit "{}") (VDict [(lit "links", VList [])]);
     py_repr := fun _ => lit "<repr>" |}.

(** A page, as the parser builds it, whose script says what a paragraph
    says too, and whose last paragraph runs over two lines. *)
Definition scripted_page : PageElement :=
  Demo.elem "[document]"
    [Demo.elem "html"
       [Demo.elem "body"
          [Demo.elem "script" [Str Script (lit "var Hello")];
           Demo.elem "p" [Demo.txt "var Hello"];
           Demo.elem "p" [Str NavigableString (lit "one" ++ nl ++ lit "  two")]]]].

Definition scripted : World :=
  {| requests_get := fun _ _ _ => inr {| status_code := 200; content := [] |};
     chat_completions_create := fun _ _ => inr (Some []);
     html_parser := fun _ => scripted_page;
     json_loads := fun _ => None;
     py_repr := fun _ => lit "<repr>" |}.

(** The service answers the request for JSON with no text at all. *)
Definition mute : World :=
  Demo.world None (Demo.knows (lit "{about}") Demo.about_only)
    (Some (lit "# Acme")).

End Further.
Import Further.

(** Brings [new_events] of a state built by the run lemmas to the list
    of its events. *)
Ltac new_trace H :=
  unfold new_events, answered, printed, fetched in H; cbn [events] in H;
  rewrite <- ?app_assoc, drop_app_length in H.

Section Trees.

Lemma PageElement_forest_ind (P : PageElement -> Prop) :
  (forall c s, P (Str c s)) ->
  (forall n a cs, Forall P cs -> P (Tag n a cs)) ->
  forall e, P e.
Proof.
  intros HStr HTag. fix IH 1. intros [c s | n a cs].
  - apply HStr.
  - apply HTag. induction cs as [| c cs IHcs]; constructor; [apply IH | exact IHcs].
Qed.

Lemma descendants_Tag n a cs : descendants (Tag n a cs) = below cs.
Proof. reflexivity. Qed.

Lemma below_cons c cs : below (c :: cs) = c :: descendants c ++ below cs.
Proof. reflexivity. Qed.

Lemma below_app cs1 cs2 : below (cs1 ++ cs2) = below cs1 ++ below cs2.
Proof. unfold below. apply flat_map_app. Qed.

Lemma alter_find_Tag name f n a cs :
  alter_find name f (Tag n a cs) = option_map (Tag n a) (alter_find_list name f cs).
Proof.
  simpl. f_equal. induction cs as [| c cs IH]; simpl; [reflexivity |].
  destruct (is_tag_named [name] c); [reflexivity |].
  destruct (alter_find name f c); [reflexivity |]. now rewrite IH.
Qed.

Lemma decompose_all_Tag names n a cs :
  decompose_all names (Tag n a cs) = Tag n a (decompose_list names cs).
Proof. reflexivity. Qed.

Lemma alter_find_named name f e e' :
  alter_find name f e = Some e' ->
  is_tag_named [name] e' = is_tag_named [name] e.
Proof.
  destruct e as [c s | n a cs]; [discriminate |].
  rewrite alter_find_Tag. destruct (alter_find_list name f cs); [| discriminate].
  now intros [= <-].
Qed.

Lemma decompose_all_named names names' e :
  is_tag_named names' (decompose_all names e) = is_tag_named names' e.
Proof. now destruct e. Qed.

Lemma head_filter_app {A} (p : A -> bool) (l1 l2 : list A) :
  head (List.filter p (l1 ++ l2)) =
  match head (List.filter p l1) with
  | Some x => Some x
  | None => head (List.filter p l2)
  end.
Proof.
  rewrite List.filter_app. now destruct (List.filter p l1).
Qed.

(** [find] goes through the children in order, each before what is under
    it. *)
Lemma find_step name (c : PageElement) (cs : list PageElement) :
  head (List.filter (is_tag_named [name]) (below (c :: cs))) =
  if is_tag_named [name] c then Some c
  else match find name c with
       | Some x => Some x
       | None => head (List.filter (is_tag_named [name]) (below cs))
       end.
Proof.
  rewrite below_cons. simpl. destruct (is_tag_named [name] c); [reflexivity |].
  apply head_filter_app.
Qed.

(** The tag [find] returns is the one [alter_find] changes, and it is
    found again afterwards. *)
Lemma find_alter_find name f :
  (forall x, is_tag_named [name] (f x) = is_tag_named [name] x) ->
  forall e,
    match find name e with
    | Some b => exists e', alter_find name f e = Some e' /\ find name e' = Some (f b)
    | None => alter_find name f e = None
    end.
Proof.
  intros Hf. induction e as [c s | n a cs IH] using PageElement_forest_ind.
  - reflexivity.
  - unfold find, find_all. rewrite alter_find_Tag, descendants_Tag.
    induction IH as [| c cs Hc _ IHcs].
    + reflexivity.
    + rewrite find_step. simpl alter_find_list.
      destruct (is_tag_named [name] c) eqn:Hn.
      * eexists; split; [reflexivity |].
        unfold find, find_all. rewrite descendants_Tag, find_step.
        now rewrite Hf, Hn.
      * destruct (find name c) as [b |] eqn:Hfind.
        -- destruct Hc as (c' & Hc & Hc'). rewrite Hc.
           eexists; split; [reflexivity |].
           unfold find, find_all. rewrite descendants_Tag, find_step.
           now rewrite (alter_find_named name f c c' Hc), Hn, Hc'.
        -- rewrite Hc.
           destruct (head (List.filter (is_tag_named [name]) (below cs))) as [b |].
           ++ destruct IHcs as (e' & He' & Hb).
              destruct (alter_find_list name f cs) as [cs' |]; [| discriminate].
              injection He' as <-.
              eexists; split; [reflexivity |].
              unfold find, find_all in Hb |- *. rewrite descendants_Tag in Hb |- *.
              now rewrite find_step, Hn, Hfind.
           ++ now destruct (alter_find_list name f cs).
Qed.

Lemma trimmed_lines_app ss1 ss2 :
  trimmed_lines (ss1 ++ ss2) = trimmed_lines ss1 ++ trimmed_lines ss2.
Proof. unfold trimmed_lines. now rewrite map_app, List.filter_app. Qed.

Lemma stripped_string_Str c s :
  stripped_string (Str c s) = trimmed_lines (if interesting c then [s] else []).
Proof.
  unfold stripped_string, trimmed_lines. destruct (interesting c); [| reflexivity].
  simpl. now destruct (strip s).
Qed.

Lemma decompose_list_cons names c cs :
  decompose_list names (c :: cs) =
  (if is_tag_named names c then [] else [decompose_all names c])
  ++ decompose_list names cs.
Proof. reflexivity. Qed.

Lemma below_one c : below [c] = c :: descendants c.
Proof. unfold below. simpl. now rewrite app_nil_r. Qed.

Lemma strings_decompose_lift cs :
  Forall (fun c =>
    flat_map stripped_string
      (below (if is_tag_named irrelevant_tags c then []
              else [decompose_all irrelevant_tags c])) =
    trimmed_lines (visible_strings c)) cs ->
  flat_map stripped_string (below (decompose_list irrelevant_tags cs)) =
  trimmed_lines (flat_map visible_strings cs).
Proof.
  induction 1 as [| c cs Hc _ IHcs]; [reflexivity |].
  rewrite decompose_list_cons, below_app, flat_map_app, Hc, IHcs.
  simpl. now rewrite trimmed_lines_app.
Qed.

(** Once the irrelevant tags are taken out, the strings [get_text]
    collects are the visible ones. *)
Lemma strings_decompose_list cs :
  flat_map stripped_string (below (decompose_list irrelevant_tags cs)) =
  trimmed_lines (flat_map visible_strings cs).
Proof.
  apply strings_decompose_lift. apply Forall_forall. intros c _. clear cs.
  induction c as [k s | n a cs IH] using PageElement_forest_ind.
  - cbn [is_tag_named visible_strings]. rewrite below_one.
    cbn [decompose_all descendants flat_map]. rewrite app_nil_r.
    apply (stripped_string_Str k s).
  - cbn [is_tag_named visible_strings].
    destruct (name_in irrelevant_tags n); [reflexivity |].
    rewrite below_one, decompose_all_Tag, descendants_Tag.
    cbn [flat_map stripped_string app]. now apply strings_decompose_lift.
Qed.

Lemma get_text_decompose_all n a cs :
  get_text nl (decompose_all irrelevant_tags (Tag n a cs)) =
  visible_text (Tag n a cs).
Proof.
  unfold get_text, all_strings, visible_text.
  now rewrite decompose_all_Tag, descendants_Tag, strings_decompose_list.
Qed.

Lemma same_root_decompose_all names e : same_root (decompose_all names e) e.
Proof. now destruct e. Qed.

Lemma same_root_alter_find name f e e' :
  alter_find name f e = Some e' -> same_root e' e.
Proof.
  destruct e as [c s | n a cs]; [discriminate |].
  rewrite alter_find_Tag. destruct (alter_find_list name f cs); [| discriminate].
  now intros [= <-].
Qed.

Lemma hrefs_app es1 es2 : hrefs (es1 ++ es2) = hrefs es1 ++ hrefs es2.
Proof. unfold hrefs. now rewrite List.filter_app, map_app. Qed.

Lemma hrefs_cons e es : hrefs (e :: es) = hrefs [e] ++ hrefs es.
Proof. apply (hrefs_app [e] es). Qed.

Lemma hrefs_same_root e e' : same_root e' e -> hrefs [e'] = hrefs [e].
Proof.
  destruct e, e'; simpl; try tauto; intros [-> ->]; try reflexivity.
  unfold hrefs. cbn [List.filter is_tag_named]. now destruct (name_in _ _).
Qed.

Lemma irrelevant_not_anchor n :
  name_in irrelevant_tags n = true -> name_in [lit "a"] n = false.
Proof.
  intros Hn. destruct (name_in [lit "a"] n) eqn:Ha; [| reflexivity].
  unfold name_in in Ha. simpl in Ha. rewrite orb_false_r in Ha.
  apply bool_decide_eq_true in Ha. subst n. discriminate Hn.
Qed.

Lemma hrefs_strings cs : forallb is_string cs = true -> hrefs (below cs) = [].
Proof.
  induction cs as [| [k s | n a cs'] cs IH]; cbn [forallb is_string andb];
    [reflexivity | | discriminate].
  intros Hcs. rewrite below_cons, hrefs_cons.
  change (hrefs [Str k s]) with (@nil (option str)). now apply IH.
Qed.

(** In a tree shaped as the parser builds it, an irrelevant tag leads to
    no target. *)
Lemma hrefs_irrelevant c :
  parser_shaped c = true -> is_tag_named irrelevant_tags c = true ->
  hrefs (c :: descendants c) = [].
Proof.
  destruct c as [k s | n a cs]; [discriminate |].
  cbn [parser_shaped is_tag_named]. intros Hshape Hn. rewrite Hn in Hshape.
  apply andb_true_iff in Hshape as [Hstr _].
  rewrite hrefs_cons, descendants_Tag, (hrefs_strings cs Hstr), app_nil_r.
  unfold hrefs. cbn [List.filter is_tag_named].
  now rewrite (irrelevant_not_anchor n Hn).
Qed.

Lemma hrefs_decompose_lift cs :
  Forall (fun c => parser_shaped c = true ->
                   hrefs (descendants (decompose_all irrelevant_tags c)) =
                   hrefs (descendants c)) cs ->
  forallb parser_shaped cs = true ->
  hrefs (below (decompose_list irrelevant_tags cs)) = hrefs (below cs).
Proof.
  induction 1 as [| c cs Hc _ IHcs]; [reflexivity |].
  cbn [forallb]. intros [Hshape Hcs]%andb_true_iff.
  rewrite decompose_list_cons, below_app, below_cons, hrefs_app, (IHcs Hcs).
  change (c :: descendants c ++ below cs) with ((c :: descendants c) ++ below cs).
  rewrite hrefs_app. f_equal. destruct (is_tag_named irrelevant_tags c) eqn:Hn.
  - now rewrite hrefs_irrelevant.
  - rewrite below_one, hrefs_cons, (Hc Hshape), (hrefs_cons c).
    now rewrite (hrefs_same_root c _ (same_root_decompose_all _ c)).
Qed.

(** Taking the irrelevant tags out of such a tree loses no target. *)
Lemma hrefs_decompose_all e :
  parser_shaped e = true ->
  hrefs (descendants (decompose_all irrelevant_tags e)) = hrefs (descendants e).
Proof.
  induction e as [k s | n a cs IH] using PageElement_forest_ind; [reflexivity |].
  cbn [parser_shaped]. intros [_ Hcs]%andb_true_iff.
  rewrite decompose_all_Tag, !descendants_Tag. now apply hrefs_decompose_lift.
Qed.

(** Nor does doing so inside the first tag of a given name. *)
Lemma hrefs_alter_find name e e' :
  parser_shaped e = true ->
  alter_find name (decompose_all irrelevant_tags) e = Some e' ->
  hrefs (descendants e') = hrefs (descendants e).
Proof.
  revert e'.
  induction e as [k s | n a cs IH] using PageElement_forest_ind; [discriminate |].
  intros e'. cbn [parser_shaped]. intros [_ Hcs]%andb_true_iff.
  rewrite alter_find_Tag.
  destruct (alter_find_list name _ cs) as [cs' |] eqn:Hcs'; [| discriminate].
  intros [= <-]. rewrite !descendants_Tag. revert cs' Hcs' Hcs.
  induction IH as [| c cs Hc _ IHcs]; [discriminate |].
  intros cs'. cbn [alter_find_list forallb]. intros Hcs' [Hshape Hcs]%andb_true_iff.
  destruct (is_tag_named [name] c).
  - injection Hcs' as <-.
    rewrite !below_cons, (hrefs_cons c), (hrefs_cons (decompose_all _ c)), !hrefs_app.
    rewrite (hrefs_decompose_all c Hshape).
    now rewrite (hrefs_same_root c _ (same_root_decompose_all _ c)).
  - destruct (alter_find name _ c) as [c' |] eqn:Hc'.
    + injection Hcs' as <-.
      rewrite !below_cons, (hrefs_cons c), (hrefs_cons c'), !hrefs_app.
      rewrite (Hc c' Hshape eq_refl).
      now rewrite (hrefs_same_root c c' (same_root_alter_find _ _ _ _ Hc')).
    + destruct (alter_find_list name _ cs) as [cs0 |]; [| discriminate].
      injection Hcs' as <-.
      rewrite !below_cons, (hrefs_cons c (_ ++ below cs)),
        (hrefs_cons c (_ ++ below cs0)), !hrefs_app.
      now rewrite (IHcs cs0 eq_refl Hcs).
Qed.

(** What is inside the irrelevant elements does not show. *)
Lemma visible_strings_agree :
  forall e e', agree_outside e e' -> visible_strings e = visible_strings e'.
Proof.
  fix IH 3. intros e e' [c s | n a a' cs cs' Hn | n a cs cs' Hcs].
  - reflexivity.
  - cbn [visible_strings]. now rewrite Hn.
  - cbn [visible_strings]. destruct (name_in irrelevant_tags n); [reflexivity |].
    induction Hcs as [| c c' cs cs' Hc _ IHcs]; [reflexivity |].
    cbn [flat_map]. f_equal; [apply IH; exact Hc | exact IHcs].
Qed.

Lemma visible_text_agree body body' :
  is_tag_named [lit "body"] body = true ->
  agree_outside body body' ->
  flat_map visible_strings (contents_of body)
  = flat_map visible_strings (contents_of body').
Proof.
  intros Hbody Hagree.
  destruct Hagree as [c s | n a a' cs cs' Hn | n a cs cs' Hcs]; [reflexivity | |].
  - unfold is_tag_named, name_in in Hbody. cbn [existsb] in Hbody.
    apply orb_true_iff in Hbody as [Hbody | [=]].
    apply bool_decide_eq_true in Hbody. subst n. discriminate Hn.
  - cbn [contents_of]. clear Hbody.
    induction Hcs as [| c c' cs cs' Hc _ IHcs]; [reflexivity |].
    cbn [flat_map]. f_equal; [now apply visible_strings_agree | exact IHcs].
Qed.

End Trees.

(** ** Running the scripts *)

Section Runs.
Context `{World}.

Lemma alter_fresh {A} (f : A -> A) (l : list A) (x : A) :
  alter f (length l) (l ++ [x]) = l ++ [f x].
Proof. induction l as [| y l IH]; [reflexivity |]. simpl. f_equal. exact IH. Qed.

Lemma lookup_fresh {A} (l : list A) (x : A) : (l ++ [x]) !! length l = Some x.
Proof. now apply list_lookup_middle. Qed.

Lemma new_events_app st st' evs :
  events st' = events st ++ evs -> new_events st st' = evs.
Proof. unfold new_events. intros ->. apply drop_app_length. Qed.

Lemma find_named name e b : find name e = Some b -> is_tag_named [name] b = true.
Proof.
  unfold find, find_all. intros Hb.
  assert (Hin : In b (List.filter (is_tag_named [name]) (descendants e))).
  { destruct (List.filter _ _); [discriminate |]. injection Hb as ->. now left. }
  now apply List.filter_In in Hin.
Qed.

(** The body is still there after its cleaning, and reads as its visible
    text. *)
Lemma find_body_cleaned soup body :
  find (lit "body") soup = Some body ->
  exists body', find (lit "body") (decompose_in_body soup) = Some body'
                /\ get_text nl body' = visible_text body.
Proof.
  intros Hbody. pose proof (find_named _ _ _ Hbody) as Hn.
  pose proof (find_alter_find (lit "body") (decompose_all irrelevant_tags)
                (decompose_all_named irrelevant_tags [lit "body"]) soup) as Hfa.
  rewrite Hbody in Hfa. destruct Hfa as (soup' & Hsoup' & Hfind).
  unfold decompose_in_body. rewrite Hsoup'. simpl default.
  eexists; split; [exact Hfind |].
  destruct body as [k s | n a cs]; [discriminate |]. apply get_text_decompose_all.
Qed.

Lemma brochure_Website_run u st :
  BrochureMaker.Website u st =
  let r := requests_get (events st) u user_agent in
  match r with
  | inl e => (Raise e, fetched st u r (with_url u no_attrs))
  | inr resp =>
      if (status_code resp =? 200)%Z then
        (Return (length (heap st)),
         fetched st u r (brochure_page u (html_parser (content resp))))
      else
        (Raise (Exception (brochure_failure u resp)),
         fetched st u r (with_url u no_attrs))
  end.
Proof.
  unfold BrochureMaker.Website, BrochureMaker.Website__init__, get_, alloc,
    setattr, history, emit, lift, raise, fetched, BrochureMaker.HEADERS,
    BeautifulSoup.
  unfold mbind, M_bind, mret, M_ret. cbn [events heap].
  rewrite alter_fresh.
  destruct (requests_get (events st) u user_agent) as [e | resp]; [reflexivity |].
  destruct (status_code resp =? 200)%Z; cbn [negb]; [| reflexivity].
  cbn [events heap]. rewrite alter_fresh.
  unfold brochure_page, page_text, cleaned.
  destruct (find (lit "body") (html_parser (content resp))) as [body |] eqn:Hbody.
  - destruct (find_body_cleaned _ _ Hbody) as (body' & -> & ->).
    cbn [events heap]. now rewrite !alter_fresh.
  - cbn [events heap]. now rewrite !alter_fresh.
Qed.

Lemma summarizer_Website_run url st :
  Summarizer.Website url st =
  let u := VStr url in
  let r := requests_get (events st) u user_agent in
  match r with
  | inl e => (Raise e, fetched st u r (with_url u no_attrs))
  | inr resp =>
      if (status_code resp =? 200)%Z then
        let soup := html_parser (content resp) in
        match summarizer_title soup with
        | inr t =>
            (Return (length (heap st)),
             fetched st u r (summarizer_page url t soup))
        | inl e => (Raise e, fetched st u r (with_url u no_attrs))
        end
      else
        (Raise (Exception (summarizer_failure url resp)),
         fetched st u r (with_url u no_attrs))
  end.
Proof.
  unfold Summarizer.Website, Summarizer.Website__init__, get_, alloc,
    setattr, history, emit, lift, raise, fetched, BeautifulSoup.
  unfold mbind, M_bind, mret, M_ret. cbn [events heap].
  rewrite alter_fresh.
  destruct (requests_get (events st) (VStr url) user_agent) as [e | resp];
    [reflexivity |].
  destruct (status_code resp =? 200)%Z; cbn [negb]; [| reflexivity].
  cbv zeta. unfold summarizer_title, summarizer_page, page_text.
  destruct (find (lit "title") (html_parser (content resp))) as [t |].
  - destruct (string_of t) as [s |]; [| reflexivity].
    cbn [events heap]. rewrite alter_fresh.
    destruct (find (lit "body") (html_parser (content resp))) as [body |] eqn:Hbody.
    + destruct (find_body_cleaned _ _ Hbody) as (body' & -> & ->).
      cbn [events heap]. now rewrite !alter_fresh.
    + cbn [events heap]. now rewrite !alter_fresh.
  - cbn [events heap]. rewrite alter_fresh.
    destruct (find (lit "body") (html_parser (content resp))) as [body |] eqn:Hbody.
    + destruct (find_body_cleaned _ _ Hbody) as (body' & -> & ->).
      cbn [events heap]. now rewrite !alter_fresh.
    + cbn [events heap]. now rewrite !alter_fresh.
Qed.

Lemma getattr_fresh {A} (attr : Attrs -> option A) st u r o :
  getattr (length (heap st)) attr (fetched st u r o) =
  (match attr o with Some a => Return a | None => Raise AttributeError end,
   fetched st u r o).
Proof.
  unfold getattr, fetched. cbn [heap]. now rewrite lookup_fresh.
Qed.

Lemma brochure_get_contents_run st u r soup :
  BrochureMaker.get_contents (length (heap st)) (fetched st u r (brochure_page u soup)) =
  (Return (page_contents (default None (title (brochure_page u soup)))
                         (page_text soup)),
   fetched st u r (brochure_page u soup)).
Proof.
  unfold BrochureMaker.get_contents. unfold mbind, M_bind, mret, M_ret.
  now rewrite !getattr_fresh.
Qed.

Lemma get_links_run url st :
  BrochureMaker.get_links url st =
  let u := VStr url in
  let r := requests_get (events st) u user_agent in
  match r with
  | inl e => (Raise e, fetched st u r (with_url u no_attrs))
  | inr resp =>
      if (status_code resp =? 200)%Z then
        let o := brochure_page u (html_parser (content resp)) in
        let st1 := fetched st u r o in
        let answer := chat_completions_create (events st1) (links_request o) in
        (selection answer, answered st1 (links_request o) answer)
      else
        (Raise (Exception (brochure_failure u resp)),
         fetched st u r (with_url u no_attrs))
  end.
Proof.
  unfold BrochureMaker.get_links. unfold mbind at 1, M_bind at 1.
  rewrite brochure_Website_run. cbv zeta.
  destruct (requests_get (events st) (VStr url) user_agent) as [e | resp];
    [reflexivity |].
  destruct (status_code resp =? 200)%Z; [| reflexivity].
  unfold BrochureMaker.get_links_user_prompt, create, history, emit, lift, raise.
  unfold mbind, M_bind, mret, M_ret. rewrite !getattr_fresh.
  cbn [Env.url Env.links brochure_page].
  unfold selection, answered, links_request.
  cbn [Env.url Env.links brochure_page default].
  destruct (chat_completions_create _ _) as [e | [s |]]; try reflexivity.
  now destruct (json_loads s).
Qed.

Lemma keep_truthy_hrefs es :
  BrochureMaker.keep_truthy (hrefs es) = map target_of (List.filter has_target es).
Proof.
  induction es as [| e es IH]; [reflexivity |].
  unfold hrefs in *. cbn [List.filter]. unfold has_target at 1.
  destruct (is_tag_named [lit "a"] e); cbn [andb map]; [| exact IH].
  unfold BrochureMaker.keep_truthy in *. cbn [flat_map]. rewrite IH.
  unfold target_of.
  destruct (get (lit "href") e) as [[| c h] |] eqn:Hh; cbn [map];
    rewrite ?Hh; reflexivity.
Qed.

Lemma hrefs_cleaned soup :
  parser_shaped soup = true ->
  hrefs (descendants (cleaned soup)) = hrefs (descendants soup).
Proof.
  intros Hshape. unfold cleaned, decompose_in_body.
  destruct (find (lit "body") soup); [| reflexivity].
  destruct (alter_find _ _ soup) as [soup' |] eqn:Hsoup'; [| reflexivity].
  now apply (hrefs_alter_find (lit "body")).
Qed.

Lemma cleaned_no_body soup : find (lit "body") soup = None -> cleaned soup = soup.
Proof. unfold cleaned. now intros ->. Qed.

(** One turn of the loop: no event and an exception, or one fetch, which
    is that of the link's page when the turn returns. *)
Lemma add_link_trace result link st out st' :
  BrochureMaker.add_link result link st = (out, st') ->
  (events st' = events st /\ exists e, out = Raise e)
  \/ (exists ev, events st' = events st ++ [ev] /\ is_get ev = true
                 /\ ((exists e, out = Raise e) \/ fetch_of link ev)).
Proof.
  unfold BrochureMaker.add_link, lift, raise.
  unfold mbind at 1, M_bind at 1.
  destruct (subscript link (lit "type")) as [e | ty].
  { intros [= <- <-]. left. eauto. }
  unfold mret at 1, M_ret at 1. unfold mbind at 1, M_bind at 1.
  destruct (subscript link (lit "url")) as [e | u] eqn:Hu.
  { intros [= <- <-]. left. eauto. }
  unfold mret at 1, M_ret at 1. unfold mbind at 1, M_bind at 1.
  rewrite brochure_Website_run. cbv zeta.
  destruct (requests_get (events st) u user_agent) as [e | resp] eqn:Hget.
  { intros [= <- <-]. right. eexists. split; [reflexivity |]. eauto. }
  destruct (status_code resp =? 200)%Z eqn:Hstatus.
  - unfold mbind at 1, M_bind at 1. rewrite brochure_get_contents_run.
    intros [= <- <-]. right. eexists. split; [reflexivity |].
    split; [reflexivity |]. right. exists u, (inr resp).
    split; [exact Hu |]. split; [reflexivity |].
    cbn [fetch_failed]. now rewrite Hstatus.
  - intros [= <- <-]. right. eexists. split; [reflexivity |]. eauto.
Qed.

(** The loop: at most one fetch per link and nothing else; when it
    returns, one fetch per link, in order, each having brought its page. *)
Lemma for_each_add_link_trace items :
  forall result st out st',
    for_each items BrochureMaker.add_link result st = (out, st') ->
    exists evs,
      events st' = events st ++ evs
      /\ forallb is_get evs = true
      /\ length evs <= length items
      /\ (forall doc, out = Return doc -> Forall2 fetch_of items evs).
Proof.
  induction items as [| link items IH]; intros result st out st'.
  - intros [= <- <-]. exists []. rewrite app_nil_r.
    repeat split; auto.
  - cbn [for_each]. unfold mbind at 1, M_bind at 1.
    destruct (BrochureMaker.add_link result link st) as [[result' | e] st1] eqn:Hturn;
      apply add_link_trace in Hturn.
    + destruct Hturn as [[_ [e [=]]] | (ev & Hev & Hget & [[e [=]] | Hfetch])].
      intros Hrest. apply IH in Hrest as (evs & Hevs & Hgets & Hlen & Hret).
      exists (ev :: evs). rewrite Hevs, Hev, <- app_assoc.
      split; [reflexivity |]. cbn [forallb length]. rewrite Hget, Hgets.
      split; [reflexivity |]. split; [lia |].
      intros doc Hdoc. constructor; eauto.
    + intros [= <- <-].
      destruct Hturn as [[Hev _] | (ev & Hev & Hget & _)].
      * exists []. rewrite app_nil_r. repeat split; auto.
        -- cbn [length]. lia.
        -- intros doc [=].
      * exists [ev]. split; [exact Hev |]. cbn [forallb length]. rewrite Hget.
        repeat split; auto.
        -- lia.
        -- intros doc [=].
Qed.

Lemma get_all_details_trace url st out st' :
  BrochureMaker.get_all_details url st = (out, st') ->
  exists evs, events st' = events st ++ evs /\ aggregation_trace (VStr url) out evs.
Proof.
  unfold BrochureMaker.get_all_details, aggregation_trace. cbv zeta.
  unfold mbind at 1, M_bind at 1. rewrite brochure_Website_run. cbv zeta.
  destruct (requests_get (events st) (VStr url) user_agent) as [e | resp1] eqn:Hget1.
  { intros [= <- <-]. eexists. split; [reflexivity |]. left. eauto. }
  destruct (status_code resp1 =? 200)%Z eqn:Hstatus1.
  2: { intros [= <- <-]. eexists. split; [reflexivity |]. left.
       do 2 eexists. split; [reflexivity |]. split; [| reflexivity].
       cbn [fetch_failed]. now rewrite Hstatus1. }
  unfold mbind at 1, M_bind at 1. rewrite brochure_get_contents_run.
  unfold mbind at 1, M_bind at 1. rewrite get_links_run. cbv zeta.
  set (st1 := fetched st (VStr url) (inr resp1) _).
  destruct (requests_get (events st1) (VStr url) user_agent) as [e | resp2] eqn:Hget2.
  { intros [= <- <-]. eexists. split; [cbn [fetched events st1]; now rewrite <- app_assoc |].
    right. left. do 3 eexists. split; [reflexivity |]. cbn [fetch_failed].
    rewrite Hstatus1. eauto 10. }
  destruct (status_code resp2 =? 200)%Z eqn:Hstatus2.
  2: { intros [= <- <-]. eexists.
       split; [cbn [fetched events st1]; now rewrite <- app_assoc |].
       right. left. do 3 eexists. split; [reflexivity |]. cbn [fetch_failed].
       rewrite Hstatus1, Hstatus2. eauto 10. }
  set (o2 := brochure_page _ (html_parser (content resp2))).
  set (st2 := fetched st1 (VStr url) (inr resp2) o2).
  set (answer := chat_completions_create (events st2) (links_request o2)).
  destruct (selection answer) as [links | e] eqn:Hsel.
  2: { intros [= <- <-]. eexists.
       split; [cbn [answered fetched events st1 st2]; now rewrite <- !app_assoc |].
       right. right. left. do 5 eexists. split; [reflexivity |].
       cbn [fetch_failed]. rewrite Hstatus1, Hstatus2. eauto 10. }
  unfold print, emit. unfold mbind at 1, M_bind at 1. cbn [events heap].
  unfold lift, raise. unfold mbind at 1, M_bind at 1.
  assert (Hfront : forall tail,
    (((events st ++ [EvGet (VStr url) user_agent (inr resp1)])
      ++ [EvGet (VStr url) user_agent (inr resp2)])
     ++ [EvChat (links_request o2) answer])
    ++ [EvPrint [VStr ([128279%N] ++ lit " Found relevant links:"); links]] ++ tail
    = events st ++
      [EvGet (VStr url) user_agent (inr resp1);
       EvGet (VStr url) user_agent (inr resp2);
       EvChat (links_request o2) answer;
       EvPrint [VStr ([128279%N] ++ lit " Found relevant links:"); links]] ++ tail).
  { intros tail. now rewrite <- !app_assoc. }
  destruct (subscript links (lit "links")) as [e | selected] eqn:Hselected.
  { intros [= <- <-]. eexists. split; [apply (Hfront []) |].
    right. right. right. do 7 eexists. split; [reflexivity |].
    cbn [fetch_failed]. rewrite Hstatus1, Hstatus2, Hselected. eauto 10. }
  unfold mret at 1, M_ret at 1. unfold mbind at 1, M_bind at 1.
  destruct (iterate selected) as [e | items] eqn:Hitems.
  { intros [= <- <-]. eexists. split; [apply (Hfront []) |].
    right. right. right. do 7 eexists. split; [reflexivity |].
    cbn [fetch_failed]. rewrite Hstatus1, Hstatus2, Hselected, Hitems. eauto 10. }
  unfold mret at 1, M_ret at 1.
  intros Hloop. apply for_each_add_link_trace in Hloop as (tail & Htail & Hloop).
  eexists. split.
  { rewrite Htail. cbn [answered fetched events st1 st2].
    rewrite <- !app_assoc. reflexivity. }
  right. right. right. do 7 eexists. split; [reflexivity |].
  cbn [fetch_failed]. rewrite Hstatus1, Hstatus2, Hselected, Hitems. eauto 10.
Qed.

Lemma gets_app evs1 evs2 : gets (evs1 ++ evs2) = gets evs1 ++ gets evs2.
Proof. unfold gets. apply flat_map_app. Qed.

Lemma gets_length evs : length (gets evs) <= length evs.
Proof.
  induction evs as [| ev evs IH]; [reflexivity |].
  change (ev :: evs) with ([ev] ++ evs) at 1.
  rewrite gets_app, length_app. destruct ev; cbn [gets flat_map length app]; lia.
Qed.

Lemma fetches_brought_pages items evs :
  Forall2 fetch_of items evs ->
  existsb fetch_failed evs = false
  /\ exists urls, Forall2 url_of items urls /\ gets evs = urls.
Proof.
  induction 1 as [| link ev items evs (u & r & Hu & -> & Hok) _ (IHok & urls & IHurls & IHgets)].
  - split; [reflexivity |]. exists []. split; [constructor | reflexivity].
  - split.
    + cbn [existsb]. now rewrite Hok, IHok.
    + exists (u :: urls). split; [now constructor |].
      cbn [gets flat_map app]. fold (gets evs). now rewrite IHgets.
Qed.

Lemma not_get_in evs ev : forallb is_get evs = true -> is_get ev = false -> ~ In ev evs.
Proof.
  intros Hall Hev Hin. rewrite forallb_forall in Hall.
  apply Hall in Hin. congruence.
Qed.

(** One turn of the loop, by its request: no event and an exception, or
    the fetch of the link's page, and the turn fails exactly when that
    fetch did. *)
Lemma add_link_request result link st out st' :
  BrochureMaker.add_link result link st = (out, st') ->
  (events st' = events st /\ exists e, out = Raise e)
  \/ (exists ev, events st' = events st ++ [ev] /\ fetch_attempt link ev
                 /\ (fetch_failed ev = true -> exists e, out = Raise e)
                 /\ (fetch_failed ev = false -> exists doc, out = Return doc)).
Proof.
  unfold BrochureMaker.add_link, lift, raise.
  unfold mbind at 1, M_bind at 1.
  destruct (subscript link (lit "type")) as [e | ty].
  { intros [= <- <-]. left. eauto. }
  unfold mret at 1, M_ret at 1. unfold mbind at 1, M_bind at 1.
  destruct (subscript link (lit "url")) as [e | u] eqn:Hu.
  { intros [= <- <-]. left. eauto. }
  unfold mret at 1, M_ret at 1. unfold mbind at 1, M_bind at 1.
  rewrite brochure_Website_run. cbv zeta.
  destruct (requests_get (events st) u user_agent) as [e | resp] eqn:Hget.
  { intros [= <- <-]. right. eexists. split; [reflexivity |].
    split; [now exists u, (inl e) |]. cbn [fetch_failed]. split; [eauto | discriminate]. }
  destruct (status_code resp =? 200)%Z eqn:Hstatus.
  - unfold mbind at 1, M_bind at 1. rewrite brochure_get_contents_run.
    intros [= <- <-]. right. eexists. split; [reflexivity |].
    split; [now exists u, (inr resp) |]. cbn [fetch_failed]. rewrite Hstatus.
    split; [discriminate | eauto].
  - intros [= <- <-]. right. eexists. split; [reflexivity |].
    split; [now exists u, (inr resp) |]. cbn [fetch_failed]. rewrite Hstatus.
    split; [eauto | discriminate].
Qed.

(** The loop, by its requests: they go to the first links of the list,
    in order; none but the last one can have failed, and a failed one ends
    the loop with an exception; a loop that returns has fetched every
    link. *)
Lemma for_each_add_link_requests items :
  forall result st out st',
    for_each items BrochureMaker.add_link result st = (out, st') ->
    exists evs,
      events st' = events st ++ evs
      /\ Forall2 fetch_attempt (take (length evs) items) evs
      /\ existsb fetch_failed (removelast evs) = false
      /\ (existsb fetch_failed evs = true -> exists e, out = Raise e)
      /\ (forall doc, out = Return doc -> length evs = length items).
Proof.
  induction items as [| link items IH]; intros result st out st'.
  - intros [= <- <-]. exists []. rewrite app_nil_r. split; [reflexivity |].
    split; [constructor |]. split; [reflexivity |].
    split; [discriminate | reflexivity].
  - cbn [for_each]. unfold mbind at 1, M_bind at 1.
    destruct (BrochureMaker.add_link result link st) as [[result' | e] st1] eqn:Hturn;
      apply add_link_request in Hturn.
    + destruct Hturn as [[_ [e [=]]] | (ev & Hev & Hattempt & Hfailed & _)].
      assert (Hok : fetch_failed ev = false).
      { destruct (fetch_failed ev); [| reflexivity].
        now destruct (Hfailed eq_refl) as [e [=]]. }
      intros Hrest.
      apply IH in Hrest as (evs & Hevs & Hattempts & Hlast & Hraise & Hret).
      exists (ev :: evs). rewrite Hevs, Hev, <- app_assoc.
      split; [reflexivity |]. cbn [length take].
      split; [now constructor |].
      split; [| split].
      * destruct evs as [| ev' evs]; [reflexivity |].
        change (removelast (ev :: ev' :: evs)) with (ev :: removelast (ev' :: evs)).
        cbn [existsb]. now rewrite Hok, Hlast.
      * cbn [existsb]. now rewrite Hok.
      * intros doc Hdoc. now rewrite (Hret doc Hdoc).
    + intros [= <- <-].
      destruct Hturn as [[Hev _] | (ev & Hev & Hattempt & _)].
      * exists []. rewrite app_nil_r. split; [exact Hev |].
        split; [constructor |]. split; [reflexivity |].
        split; discriminate.
      * exists [ev]. split; [exact Hev |]. cbn [length take].
        rewrite take_0.
        split; [repeat constructor; exact Hattempt |].
        split; [reflexivity |]. split; [eauto | discriminate].
Qed.

(** The requests of a run of attempts are the addresses of the links. *)
Lemma attempts_requests items evs :
  Forall2 fetch_attempt items evs ->
  exists urls, gets evs = urls /\ Forall2 url_of items urls.
Proof.
  induction 1 as [| link ev items evs (u & r & Hu & ->) _ (urls & IHgets & IHurls)].
  - exists []. split; [reflexivity | constructor].
  - exists (u :: urls). split; [| now constructor].
    cbn [gets flat_map app]. fold (gets evs). now rewrite IHgets.
Qed.

(** In a trace where only the last event can be a failed fetch, nothing
    comes after a failed fetch. *)
Lemma failed_is_last pre ev post :
  existsb fetch_failed (removelast (pre ++ ev :: post)) = false ->
  fetch_failed ev = true -> post = [].
Proof.
  destruct post as [| ev' post]; [reflexivity |]. intros Hlast Hev.
  rewrite removelast_app in Hlast by discriminate.
  change (removelast (ev :: ev' :: post)) with (ev :: removelast (ev' :: post))
    in Hlast.
  rewrite existsb_app in Hlast. cbn [existsb] in Hlast. rewrite Hev in Hlast.
  now rewrite orb_true_r in Hlast.
Qed.

(** A run of [get_all_details] in which the service's reply [reply] was
    parsed into [links], offering [items]: two fetches of the landing page
    that brought it, the request to the service, the print of the
    selection, and then the loop over [items]. *)
Lemma get_all_details_loop url st out st' req reply links items :
  BrochureMaker.get_all_details url st = (out, st') ->
  In (EvChat req (inr (Some reply))) (new_events st st') ->
  json_loads reply = Some links ->
  selected_items links = inr items ->
  exists r1 r2 line st4 result,
    fetch_failed (EvGet (VStr url) user_agent r1) = false
    /\ fetch_failed (EvGet (VStr url) user_agent r2) = false
    /\ events st4 = events st ++
         [EvGet (VStr url) user_agent r1; EvGet (VStr url) user_agent r2;
          EvChat req (inr (Some reply)); EvPrint [line; links]]
    /\ for_each items BrochureMaker.add_link result st4 = (out, st').
Proof.
  intros Hrun Hin Hloads Hitems. revert Hrun Hin.
  unfold BrochureMaker.get_all_details. cbv zeta.
  unfold mbind at 1, M_bind at 1. rewrite brochure_Website_run. cbv zeta.
  destruct (requests_get (events st) (VStr url) user_agent) as [e | resp1] eqn:Hget1.
  { intros [= <- <-] Hin. new_trace Hin. destruct Hin as [[=] | []]. }
  destruct (status_code resp1 =? 200)%Z eqn:Hstatus1.
  2: { intros [= <- <-] Hin. new_trace Hin. destruct Hin as [[=] | []]. }
  unfold mbind at 1, M_bind at 1. rewrite brochure_get_contents_run.
  unfold mbind at 1, M_bind at 1. rewrite get_links_run. cbv zeta.
  destruct (requests_get (events (fetched st (VStr url) (inr resp1) _)) (VStr url)
              user_agent) as [e | resp2] eqn:Hget2.
  { intros [= <- <-] Hin. new_trace Hin. destruct Hin as [[=] | [[=] | []]]. }
  destruct (status_code resp2 =? 200)%Z eqn:Hstatus2.
  2: { intros [= <- <-] Hin. new_trace Hin. destruct Hin as [[=] | [[=] | []]]. }
  match goal with
  | |- context [selection ?a] => set (answer := a)
  end.
  destruct (selection answer) as [links' | e] eqn:Hsel.
  2: { intros [= <- <-] Hin. new_trace Hin.
       destruct Hin as [[=] | [[=] | [[= _ Hanswer] | []]]].
       rewrite Hanswer in Hsel. cbn [selection] in Hsel.
       now rewrite Hloads in Hsel. }
  unfold print, emit. unfold mbind at 1, M_bind at 1. cbn [events heap].
  unfold lift, raise. unfold mbind at 1, M_bind at 1.
  unfold selected_items in Hitems.
  assert (Hfront : forall ev, In ev
            [EvGet (VStr url) user_agent (inr resp1);
             EvGet (VStr url) user_agent (inr resp2);
             EvChat (links_request
                       (brochure_page (VStr url) (html_parser (content resp2))))
                    answer;
             EvPrint [VStr ([128279%N] ++ lit " Found relevant links:"); links']] ->
            ev = EvChat req (inr (Some reply)) ->
            links' = links
            /\ links_request (brochure_page (VStr url) (html_parser (content resp2)))
               = req
            /\ answer = inr (Some reply)).
  { intros ev [<- | [<- | [<- | [<- | []]]]]; try discriminate.
    intros [= Hreq Hanswer]. rewrite Hanswer in Hsel. cbn [selection] in Hsel.
    rewrite Hloads in Hsel. split; [congruence |]. now split. }
  destruct (subscript links' (lit "links")) as [e | selected] eqn:Hselected.
  { intros [= <- <-] Hin. new_trace Hin.
    destruct (Hfront _ Hin eq_refl) as (-> & _). now rewrite Hselected in Hitems. }
  unfold mret at 1, M_ret at 1. unfold mbind at 1, M_bind at 1.
  destruct (iterate selected) as [e | items'] eqn:Hitems'.
  { intros [= <- <-] Hin. new_trace Hin.
    destruct (Hfront _ Hin eq_refl) as (-> & _).
    rewrite Hselected in Hitems. congruence. }
  unfold mret at 1, M_ret at 1.
  intros Hloop Hin.
  pose proof (for_each_add_link_trace _ _ _ _ _ Hloop) as (tail & Htail & Hgets & _).
  unfold new_events in Hin. rewrite Htail in Hin.
  cbn [answered fetched events] in Hin.
  rewrite <- !app_assoc, drop_app_length in Hin. cbn [app] in Hin.
  assert (Hin' : In (EvChat req (inr (Some reply)))
            ([EvGet (VStr url) user_agent (inr resp1);
              EvGet (VStr url) user_agent (inr resp2);
              EvChat (links_request
                        (brochure_page (VStr url) (html_parser (content resp2))))
                     answer;
              EvPrint [VStr ([128279%N] ++ lit " Found relevant links:"); links']]
             ++ tail)) by exact Hin.
  apply in_app_or in Hin' as [Hin' | Hin'];
    [| now apply (not_get_in tail _ Hgets) in Hin'].
  destruct (Hfront _ Hin' eq_refl) as (-> & <- & Hanswer).
  rewrite Hselected in Hitems. assert (items' = items) as -> by congruence.
  rewrite <- Hanswer.
  exists (inr resp1), (inr resp2). do 3 eexists.
  split; [| split; [| split; [| exact Hloop]]].
  - cbn [fetch_failed]. now rewrite Hstatus1.
  - cbn [fetch_failed]. now rewrite Hstatus2.
  - cbn [answered fetched events]. now rewrite <- !app_assoc.
Qed.

End Runs.

(** ** The claims *)

Section Claims.
Context `{World}.

(** C1.  When the response to a fetch has a status other than 200 (so, in
    particular, for every status that is not a success), constructing the
    [Website] raises [Exception] in both scripts.  No object is handed
    back: the outcome is the exception, the trace holds the one request,
    and the object that was being built has its address only, neither
    title, nor text, nor links. *)
Theorem Website_fetch_failure (st : State) (u : Value) (resp : Response) :
  requests_get (events st) u user_agent = inr resp ->
  status_code resp <> 200%Z ->
  (exists msg st',
     BrochureMaker.Website u st = (Raise (Exception msg), st')
     /\ new_events st st' = [EvGet u user_agent (inr resp)]
     /\ exists o, heap st' = heap st ++ [o] /\ bare o)
  /\ (forall url, u = VStr url ->
      exists msg st',
        Summarizer.Website url st = (Raise (Exception msg), st')
        /\ new_events st st' = [EvGet u user_agent (inr resp)]
        /\ exists o, heap st' = heap st ++ [o] /\ bare o).
Proof.
  intros Hget Hstatus. apply Z.eqb_neq in Hstatus. split.
  - rewrite brochure_Website_run. cbv zeta. rewrite Hget, Hstatus.
    do 2 eexists. split; [reflexivity |]. split.
    + now apply new_events_app.
    + eexists. split; [reflexivity |]. now repeat split.
  - intros url ->. rewrite summarizer_Website_run. cbv zeta. rewrite Hget, Hstatus.
    do 2 eexists. split; [reflexivity |]. split.
    + now apply new_events_app.
    + eexists. split; [reflexivity |]. now repeat split.
Qed.

(** C3, as amended.  For a page fetched with status 200 whose document
    has a body, the text of the [Website] is made of the strings of the
    body that lie outside every script, style, image and input element,
    and of nothing else: each string is trimmed of surrounding whitespace
    as a whole (the line breaks and the indentation inside it stay), the
    blank ones are left out, and they are joined with newlines.  What is
    inside those elements takes no part in it: a body that differs only
    there gives the same text (which can still show the same characters,
    when a string outside has them).  This holds in both scripts (in the
    summarizer whenever the construction succeeds). *)
Theorem body_text_is_visible_text (st : State) (u : Value) (resp : Response)
    (body : PageElement) :
  requests_get (events st) u user_agent = inr resp ->
  status_code resp = 200%Z ->
  find (lit "body") (html_parser (content resp)) = Some body ->
  let lines := trimmed_lines (flat_map visible_strings (contents_of body)) in
  (exists a st' o,
     BrochureMaker.Website u st = (Return a, st')
     /\ heap st' !! a = Some o /\ text o = Some (join nl lines))
  /\ (forall url a st',
      u = VStr url -> Summarizer.Website url st = (Return a, st') ->
      exists o, heap st' !! a = Some o /\ text o = Some (join nl lines))
  /\ (forall body',
      agree_outside body body' ->
      trimmed_lines (flat_map visible_strings (contents_of body')) = lines).
Proof.
  intros Hget Hstatus Hbody lines. apply Z.eqb_eq in Hstatus.
  split; [| split];
    [| | intros body' Hagree; unfold lines;
         now rewrite (visible_text_agree body body' (find_named _ _ _ Hbody) Hagree)].
  - rewrite brochure_Website_run. cbv zeta. rewrite Hget, Hstatus.
    do 3 eexists. split; [reflexivity |]. split; [apply lookup_fresh |].
    cbn [text brochure_page]. unfold page_text. now rewrite Hbody.
  - intros url a st' ->. rewrite summarizer_Website_run. cbv zeta.
    rewrite Hget, Hstatus.
    destruct (summarizer_title _) as [e | t]; [discriminate |].
    intros [= <- <-]. eexists. split; [apply lookup_fresh |].
    cbn [text summarizer_page]. unfold page_text. now rewrite Hbody.
Qed.

(** C4.  For a document fetched with status 200 and shaped as the parser
    builds it, the links of the brochure maker's [Website] are the targets
    of the anchor elements of the whole document that have a non-empty
    target, as written (not resolved), in document order, duplicates
    kept; so there are as many links as such anchors. *)
Theorem links_are_anchor_targets (st : State) (u : Value) (resp : Response) :
  requests_get (events st) u user_agent = inr resp ->
  status_code resp = 200%Z ->
  parser_shaped (html_parser (content resp)) = true ->
  exists a st' o ls,
    BrochureMaker.Website u st = (Return a, st')
    /\ heap st' !! a = Some o /\ links o = Some ls
    /\ ls = map target_of (anchors_with_target (html_parser (content resp)))
    /\ length ls = length (anchors_with_target (html_parser (content resp))).
Proof.
  intros Hget Hstatus Hshape. apply Z.eqb_eq in Hstatus.
  rewrite brochure_Website_run. cbv zeta. rewrite Hget, Hstatus.
  do 4 eexists. split; [reflexivity |]. split; [apply lookup_fresh |].
  cbn [links brochure_page]. split; [reflexivity |].
  rewrite (hrefs_cleaned _ Hshape), keep_truthy_hrefs.
  split; [reflexivity |]. apply length_map.
Qed.

(** C7.  In a run of [get_all_details], when any fetch fails (the
    transport raises or the status is not 200), be it of a page the
    classifier selected or of the landing page, the run ends with an
    exception: no document comes out, neither the landing page alone nor
    the pages fetched so far. *)
Theorem aggregation_fails_with_any_fetch (url : str) (st st' : State)
    (out : Outcome str) :
  BrochureMaker.get_all_details url st = (out, st') ->
  existsb fetch_failed (new_events st st') = true ->
  exists e, out = Raise e.
Proof.
  intros Hrun. apply get_all_details_trace in Hrun as (evs & Hevs & Hshape).
  rewrite (new_events_app _ _ _ Hevs). clear Hevs.
  destruct Hshape as [(r & e & _ & _ & ->) | [(r1 & r2 & e & _ & _ & _ & ->)
    | [(r1 & r2 & req & answer & e & _ & _ & _ & _ & ->)
    | (r1 & r2 & req & answer & links & line & tail & -> & Hok1 & Hok2 & _ & Hloop)]]];
    eauto.
  destruct (subscript links (lit "links")) as [e | selected];
    [destruct Hloop as [_ ->]; eauto |].
  destruct (iterate selected) as [e | items]; [destruct Hloop as [_ ->]; eauto |].
  destruct out as [doc | e]; [| eauto].
  destruct Hloop as (_ & _ & Hret).
  destruct (fetches_brought_pages _ _ (Hret doc eq_refl)) as [Hok _].
  rewrite existsb_app. cbn [existsb]. rewrite Hok1, Hok2, Hok. discriminate.
Qed.

(** C10, as amended.  In a run of [get_all_details] in which the
    classifier selects [n] links, at most [2 + n] requests are issued; when
    the run returns a document they are exactly [2 + n], and they go to the
    landing page, to the landing page again, then to each selected link in
    order.  In every such run, returning or not, the requests go to the
    landing page twice and then to the first selected links, in order; and
    a run that a failed fetch aborts issues only the requests up to and
    including the failing one: the failed fetch is the last event of the
    run, which ends with an exception. *)
Theorem aggregation_fetch_count (url : str) (st st' : State) (out : Outcome str)
    (req : ChatRequest) (reply : str) (links selected : Value)
    (items : list Value) :
  BrochureMaker.get_all_details url st = (out, st') ->
  In (EvChat req (inr (Some reply))) (new_events st st') ->
  json_loads reply = Some links ->
  subscript links (lit "links") = inr selected ->
  iterate selected = inr items ->
  length (gets (new_events st st')) <= 2 + length items
  /\ (forall doc, out = Return doc ->
      length (gets (new_events st st')) = 2 + length items
      /\ exists urls, Forall2 url_of items urls
         /\ gets (new_events st st') = VStr url :: VStr url :: urls)
  /\ (exists urls,
        gets (new_events st st') = VStr url :: VStr url :: urls
        /\ Forall2 url_of (take (length urls) items) urls)
  /\ (forall pre ev post,
        new_events st st' = pre ++ ev :: post ->
        fetch_failed ev = true ->
        post = [] /\ exists e, out = Raise e).
Proof.
  intros Hrun Hin Hloads Hselected Hitems.
  assert (Hoffer : selected_items links = inr items)
    by (unfold selected_items; now rewrite Hselected).
  destruct (get_all_details_loop _ _ _ _ _ _ _ _ Hrun Hin Hloads Hoffer)
    as (r1 & r2 & line & st4 & result & Hok1 & Hok2 & Hfront & Hloop).
  apply for_each_add_link_requests in Hloop
    as (tail & Htail & Hattempts & Hlast & Hraise & Hret).
  rewrite Hfront, <- app_assoc in Htail.
  rewrite (new_events_app _ _ _ Htail). clear Htail Hfront Hin Hrun.
  destruct (attempts_requests _ _ Hattempts) as (urls & Hgets & Hurls).
  assert (Hlen : length urls = length tail)
    by (apply Forall2_length in Hattempts, Hurls; congruence).
  assert (Hrequests : gets ([EvGet (VStr url) user_agent r1;
                             EvGet (VStr url) user_agent r2;
                             EvChat req (inr (Some reply));
                             EvPrint [line; links]] ++ tail)
                      = VStr url :: VStr url :: urls).
  { rewrite gets_app, Hgets. reflexivity. }
  rewrite Hrequests. cbn [length].
  assert (Hbound : length tail <= length items).
  { apply Forall2_length in Hattempts. rewrite length_take in Hattempts. lia. }
  split; [lia |]. split; [| split].
  - intros doc Hdoc. specialize (Hret doc Hdoc). split; [lia |].
    exists urls. split; [| reflexivity].
    rewrite Hret, take_ge in Hurls by lia. exact Hurls.
  - exists urls. split; [reflexivity |]. now rewrite Hlen.
  - intros pre ev post Hsplit Hev.
    assert (Htail : exists pre', tail = pre' ++ ev :: post).
    { destruct pre as [| e1 [| e2 [| e3 [| e4 pre]]]]; cbn [app] in Hsplit;
        injection Hsplit as; subst; try congruence; try discriminate.
      now exists pre. }
    destruct Htail as [pre' ->].
    split; [exact (failed_is_last _ _ _ Hlast Hev) |].
    apply Hraise. rewrite existsb_app. cbn [existsb].
    now rewrite Hev, orb_true_r.
Qed.

(** C6, as amended.  Whatever the service answered to the request of
    [get_links], the call ends as follows.  When the answer is a text, the
    call fails exactly when [json.loads] rejects the text, and then with
    its decoding error; when the text is accepted, the call returns the
    parsed value as it is, whatever its shape: a dictionary or not, with
    the links or without.  When the answer carries no text, the call fails
    with [TypeError]; when the service raised, with that exception. *)
Theorem get_links_parses_reply (url : str) (st st' : State) (out : Outcome Value)
    (req : ChatRequest) (answer : Exc + option str) :
  BrochureMaker.get_links url st = (out, st') ->
  In (EvChat req answer) (new_events st st') ->
  match answer with
  | inr (Some reply) =>
      ((exists e, out = Raise e) <-> json_loads reply = None)
      /\ (json_loads reply = None -> out = Raise JSONDecodeError)
      /\ (forall v, json_loads reply = Some v -> out = Return v)
  | inr None => out = Raise TypeError
  | inl e => out = Raise e
  end.
Proof.
  rewrite get_links_run. cbv zeta.
  destruct (requests_get (events st) (VStr url) user_agent) as [e | resp].
  { intros [= <- <-] Hin. new_trace Hin. destruct Hin as [[=] | []]. }
  destruct (status_code resp =? 200)%Z.
  2: { intros [= <- <-] Hin. new_trace Hin. destruct Hin as [[=] | []]. }
  intros [= <- <-] Hin. new_trace Hin.
  destruct Hin as [[=] | [[= _ ->] | []]].
  destruct answer as [e | [reply |]]; cbn [selection]; [reflexivity | | reflexivity].
  destruct (json_loads reply) as [v |].
  - split; [split; [intros [e [=]] | discriminate] |].
    split; [discriminate | now intros v' [= <-]].
  - split; [split; eauto |]. split; [reflexivity | discriminate].
Qed.

(** C2, as amended.  The cap of 5000 characters is on the prompt that
    [get_brochure_user_prompt] returns, not on the aggregated document:
    the prompt is the first 5000 characters of the preamble followed by
    the document of [get_all_details], so it is never longer than 5000
    characters, and has exactly 5000 of them when the whole is longer.  Of
    the document, the prompt keeps the first [5000 - len(preamble)]
    characters after a preamble that fits, and nothing after a preamble
    that reaches the cap. *)
Theorem brochure_prompt_is_cut (company_name url : str) (st st' : State)
    (prompt : str) :
  BrochureMaker.get_brochure_user_prompt company_name url st = (Return prompt, st') ->
  exists details,
    BrochureMaker.get_all_details url st = (Return details, st')
    /\ let head := BrochureMaker.brochure_prompt_head company_name in
       prompt = take 5000 (head ++ details)
       /\ length prompt <= 5000
       /\ (5000 < length (head ++ details) -> length prompt = 5000)
       /\ (length head <= 5000 ->
           prompt = head ++ take (5000 - length head) details)
       /\ (5000 <= length head -> prompt = take 5000 head).
Proof.
  unfold BrochureMaker.get_brochure_user_prompt. cbv zeta.
  unfold mbind, M_bind, mret, M_ret.
  destruct (BrochureMaker.get_all_details url st) as [[details | e] st1];
    [| discriminate].
  set (head := BrochureMaker.brochure_prompt_head company_name).
  intros Hrun.
  assert (prompt = slice_to 5000 (head ++ details) /\ st' = st1) as [-> ->]
    by (split; congruence).
  exists details. split; [reflexivity |]. unfold slice_to.
  split; [reflexivity |]. split; [rewrite length_take; lia |].
  split; [rewrite length_take; lia |]. split; intros Hhead.
  - rewrite take_app. rewrite (take_ge head) by exact Hhead. reflexivity.
  - rewrite take_app. replace (5000 - length head) with 0 by lia.
    now rewrite take_0, app_nil_r.
Qed.

(** C5, as amended.  With no key or an empty one, both scripts stop with
    [ValueError] before anything else happens, so before any network call.
    With a key, the summarizer prints one line and goes on to the summary;
    the line is a warning exactly when the prefix or the surrounding
    whitespace of the key looks wrong.  The brochure maker has no warning:
    a key that does not start with the prefix or has at most 10
    characters stops it with [ValueError] too, and any other key is
    accepted. *)
Theorem credential_check (api_key : option str) (st : State) :
  match api_key with
  | None | Some [] =>
      (exists msg, Summarizer.main api_key st = (Raise (ValueError msg), st))
      /\ (exists msg, BrochureMaker.main api_key st = (Raise (ValueError msg), st))
  | Some k =>
      (exists line,
         Summarizer.load_api_key api_key st = (Return tt, printed st [VStr line])
         /\ Summarizer.main api_key st =
            Summarizer.display_summary Summarizer.test_url (printed st [VStr line])
         /\ startswith line warning_sign = looks_wrong k)
      /\ (if startswith k (lit "sk-proj-") && bool_decide (10 < length k)
          then exists line,
                 BrochureMaker.load_api_key api_key st
                 = (Return tt, printed st [VStr line])
                 /\ startswith line warning_sign = false
          else exists msg,
                 BrochureMaker.main api_key st = (Raise (ValueError msg), st))
  end.
Proof.
  destruct api_key as [[| c k] |].
  - split; eexists; reflexivity.
  - split.
    + unfold Summarizer.main, Summarizer.load_api_key, looks_wrong.
      unfold mbind, M_bind.
      destruct (startswith (c :: k) (lit "sk-proj-")); cbn [negb orb].
      * destruct (str_eqb (strip (c :: k)) (c :: k)); cbn [negb];
          eexists; (split; [reflexivity |]); split; reflexivity.
      * eexists. split; [reflexivity |]. split; reflexivity.
    + unfold BrochureMaker.main, BrochureMaker.load_api_key,
        BrochureMaker.key_looks_good.
      cbv beta iota zeta.
      destruct (startswith _ _ && _).
      * eexists. split; reflexivity.
      * eexists. reflexivity.
  - split; eexists; reflexivity.
Qed.

(** C8, as amended.  When the summarizer has fetched a page whose title is
    Example and whose text is Hello, World on two lines, [summarize]
    issues one request in all, to the given address, then asks the
    service once, for the summary of that page and not for a selection in
    JSON, and hands back the answer of the service as it is: an exception
    if the service raised, otherwise its text, be it empty. *)
Theorem summarize_example (url : str) (st st1 : State) (a : nat) (o : Attrs) :
  Summarizer.Website url st = (Return a, st1) ->
  heap st1 !! a = Some o ->
  title o = Some (Some (lit "Example")) ->
  text o = Some (lit "Hello" ++ nl ++ lit "World") ->
  exists r answer,
    answer = chat_completions_create (events st1) example_request
    /\ Summarizer.summarize url st =
       (match answer with inl e => Raise e | inr s => Return s end,
        answered st1 example_request answer)
    /\ new_events st (answered st1 example_request answer) =
       [EvGet (VStr url) user_agent r; EvChat example_request answer]
    /\ gets (new_events st (answered st1 example_request answer)) = [VStr url].
Proof.
  intros HWebsite Ho Htitle Htext.
  assert (exists r, events st1 = events st ++ [EvGet (VStr url) user_agent r])
    as [r Hr].
  { rewrite summarizer_Website_run in HWebsite. cbv zeta in HWebsite.
    destruct (requests_get (events st) (VStr url) user_agent) as [e | resp];
      [discriminate |].
    destruct (status_code resp =? 200)%Z; [| discriminate].
    destruct (summarizer_title _); [discriminate |].
    injection HWebsite as _ <-. eexists. reflexivity. }
  exists r, (chat_completions_create (events st1) example_request).
  split; [reflexivity |].
  assert (Hnew : new_events st (answered st1 example_request
                   (chat_completions_create (events st1) example_request))
                 = [EvGet (VStr url) user_agent r;
                    EvChat example_request
                      (chat_completions_create (events st1) example_request)]).
  { apply new_events_app. cbn [answered events]. rewrite Hr.
    now rewrite <- app_assoc. }
  split; [| split; [exact Hnew | rewrite Hnew; reflexivity]].
  unfold Summarizer.summarize. unfold mbind at 1, M_bind at 1. rewrite HWebsite.
  unfold Summarizer.messages_for, Summarizer.user_prompt_for, getattr.
  unfold mbind, M_bind, mret, M_ret. rewrite Ho. cbn [mbind option_bind].
  rewrite Htitle, Htext.
  unfold create, history, emit, lift, raise, answered.
  unfold mbind, M_bind, mret, M_ret. cbn [events heap format_opt].
  unfold example_request.
  destruct (chat_completions_create _ _); reflexivity.
Qed.

(** A document with no body, in the brochure maker: the text is empty,
    the title and the links are taken from the whole document, and the
    construction returns. *)
Lemma brochure_page_without_body (st : State) (u : Value) (resp : Response) :
  requests_get (events st) u user_agent = inr resp ->
  status_code resp = 200%Z ->
  find (lit "body") (html_parser (content resp)) = None ->
  let soup := html_parser (content resp) in
  exists a st' o,
    BrochureMaker.Website u st = (Return a, st')
    /\ heap st' !! a = Some o
    /\ text o = Some []
    /\ title o = Some match find (lit "title") soup with
                      | Some t => string_of t
                      | None => Some (lit "No title found")
                      end
    /\ links o = Some (map target_of (anchors_with_target soup)).
Proof.
  intros Hget Hstatus Hbody soup. apply Z.eqb_eq in Hstatus.
  rewrite brochure_Website_run. cbv zeta. rewrite Hget, Hstatus.
  do 3 eexists. split; [reflexivity |]. split; [apply lookup_fresh |].
  cbn [text title links brochure_page]. unfold page_text. rewrite Hbody.
  split; [reflexivity |]. split; [reflexivity |].
  now rewrite (cleaned_no_body _ Hbody), keep_truthy_hrefs.
Qed.

(** The same in the summarizer, as long as the title can be stripped. *)
Lemma summarizer_page_without_body (st : State) (url : str) (resp : Response)
    (t : str) :
  requests_get (events st) (VStr url) user_agent = inr resp ->
  status_code resp = 200%Z ->
  find (lit "body") (html_parser (content resp)) = None ->
  summarizer_title (html_parser (content resp)) = inr t ->
  exists a st' o,
    Summarizer.Website url st = (Return a, st')
    /\ heap st' !! a = Some o /\ text o = Some [] /\ title o = Some (Some t).
Proof.
  intros Hget Hstatus Hbody Htitle. apply Z.eqb_eq in Hstatus.
  rewrite summarizer_Website_run. cbv zeta. rewrite Hget, Hstatus, Htitle.
  do 3 eexists. split; [reflexivity |]. split; [apply lookup_fresh |].
  cbn [text title summarizer_page]. unfold page_text. now rewrite Hbody.
Qed.

End Claims.

(** ** The claims at concrete inputs *)

Import Demo.

Lemma Website_fetch_failure_witness :
  requests_get (World := acme) (events initial) (VStr careers_url) user_agent
  = not_found
  /\ (exists msg st',
        BrochureMaker.Website (H := acme) (VStr careers_url) initial
        = (Raise (Exception msg), st')
        /\ new_events initial st' = [EvGet (VStr careers_url) user_agent not_found]
        /\ exists o, heap st' = heap initial ++ [o] /\ bare o)
  /\ (exists msg st',
        Summarizer.Website (H := acme) careers_url initial
        = (Raise (Exception msg), st')
        /\ new_events initial st' = [EvGet (VStr careers_url) user_agent not_found]
        /\ exists o, heap st' = heap initial ++ [o] /\ bare o).
Proof.
  split; [vm_compute; reflexivity |].
  destruct (Website_fetch_failure (H := acme) initial (VStr careers_url)
              {| status_code := 404; content := [] |})
    as [Hbrochure Hsummarizer]; [vm_compute; reflexivity | discriminate |].
  split; [exact Hbrochure | exact (Hsummarizer careers_url eq_refl)].
Defined.

Lemma body_text_is_visible_text_witness :
  find (lit "body") (html_parser (World := acme) [0%N]) = Some example_body
  /\ trimmed_lines (flat_map visible_strings (contents_of example_body))
     = [lit "Hello"; lit "World"]
  /\ exists a st' o,
       BrochureMaker.Website (H := acme) (VStr example_url) initial = (Return a, st')
       /\ heap st' !! a = Some o
       /\ text o = Some (join nl (trimmed_lines
                     (flat_map visible_strings (contents_of example_body)))).
Proof.
  split; [vm_compute; reflexivity |]. split; [vm_compute; reflexivity |].
  apply (body_text_is_visible_text (H := acme) initial (VStr example_url)
           {| status_code := 200; content := [0%N] |} example_body);
    vm_compute; reflexivity.
Defined.

Lemma links_are_anchor_targets_witness :
  parser_shaped landing_page = true
  /\ map target_of (anchors_with_target landing_page) = [lit "/about"; lit "/about"]
  /\ exists a st' o ls,
       BrochureMaker.Website (H := acme) (VStr acme_url) initial = (Return a, st')
       /\ heap st' !! a = Some o /\ links o = Some ls
       /\ ls = map target_of (anchors_with_target landing_page)
       /\ length ls = length (anchors_with_target landing_page).
Proof.
  split; [vm_compute; reflexivity |]. split; [vm_compute; reflexivity |].
  apply (links_are_anchor_targets (H := acme) initial (VStr acme_url)
           {| status_code := 200; content := [1%N] |}); vm_compute; reflexivity.
Defined.

Lemma brochure_prompt_is_cut_witness :
  exists prompt st' details,
    BrochureMaker.get_brochure_user_prompt (H := wordy) (lit "Acme") acme_url initial
    = (Return prompt, st')
    /\ BrochureMaker.get_all_details (H := wordy) acme_url initial
       = (Return details, st')
    /\ prompt = take 5000 (BrochureMaker.brochure_prompt_head (lit "Acme") ++ details)
    /\ length prompt <= 5000
    /\ prompt = BrochureMaker.brochure_prompt_head (lit "Acme")
                ++ take (5000 - length (BrochureMaker.brochure_prompt_head (lit "Acme")))
                     details.
Proof.
  pose (run := BrochureMaker.get_brochure_user_prompt (H := wordy) (lit "Acme")
                 acme_url initial).
  pose (prompt := match fst run with Return prompt => prompt | Raise _ => [] end).
  assert (Hrun : BrochureMaker.get_brochure_user_prompt (H := wordy) (lit "Acme")
                   acme_url initial = (Return prompt, snd run))
    by (vm_compute; reflexivity).
  assert (Hhead : length (BrochureMaker.brochure_prompt_head (lit "Acme")) <= 5000)
    by (apply Nat.leb_le; vm_compute; reflexivity).
  destruct (brochure_prompt_is_cut (H := wordy) (lit "Acme") acme_url initial
              (snd run) prompt Hrun)
    as (details & Hdetails & Hcut & Hle & _ & Hfits & _).
  exists prompt, (snd run), details.
  split; [exact Hrun |]. split; [exact Hdetails |]. split; [exact Hcut |].
  split; [exact Hle |]. exact (Hfits Hhead).
Defined.

Lemma get_links_parses_reply_witness :
  exists out st',
    BrochureMaker.get_links (H := off_shape) acme_url initial = (out, st')
    /\ In (EvChat (links_request (H := off_shape)
                     (brochure_page (VStr acme_url) landing_page))
                  (inr (Some (lit "[1]"))))
          (new_events initial st')
    /\ json_loads (World := off_shape) (lit "[1]") = Some (VList [VInt 1])
    /\ out = Return (VList [VInt 1]).
Proof.
  pose (run := BrochureMaker.get_links (H := off_shape) acme_url initial).
  exists (fst run), (snd run).
  assert (Hrun : BrochureMaker.get_links (H := off_shape) acme_url initial
                 = (fst run, snd run)) by apply surjective_pairing.
  assert (Hin : In (EvChat (links_request (H := off_shape)
                              (brochure_page (VStr acme_url) landing_page))
                           (inr (Some (lit "[1]"))))
                   (new_events initial (snd run)))
    by (vm_compute; right; left; reflexivity).
  assert (Hloads : json_loads (World := off_shape) (lit "[1]") = Some (VList [VInt 1]))
    by (vm_compute; reflexivity).
  split; [exact Hrun |]. split; [exact Hin |]. split; [exact Hloads |].
  exact (proj2 (proj2 (get_links_parses_reply (H := off_shape) acme_url initial
                         (snd run) (fst run) _ (inr (Some (lit "[1]"))) Hrun Hin))
           _ Hloads).
Defined.

Lemma aggregation_fails_with_any_fetch_witness :
  exists out st',
    BrochureMaker.get_all_details (H := acme_broken_link) acme_url initial = (out, st')
    /\ gets (new_events initial st')
       = [VStr acme_url; VStr acme_url; VStr careers_url]
    /\ existsb fetch_failed (new_events initial st') = true
    /\ exists e, out = Raise e.
Proof.
  pose (run := BrochureMaker.get_all_details (H := acme_broken_link) acme_url initial).
  exists (fst run), (snd run).
  assert (Hrun : BrochureMaker.get_all_details (H := acme_broken_link) acme_url initial
                 = (fst run, snd run)) by apply surjective_pairing.
  assert (Hfailed : existsb fetch_failed (new_events initial (snd run)) = true)
    by (vm_compute; reflexivity).
  split; [exact Hrun |]. split; [vm_compute; reflexivity |]. split; [exact Hfailed |].
  exact (aggregation_fails_with_any_fetch (H := acme_broken_link) acme_url initial
           (snd run) (fst run) Hrun Hfailed).
Defined.

Lemma aggregation_fetch_count_witness :
  exists out st' doc urls,
    BrochureMaker.get_all_details (H := acme) acme_url initial = (out, st')
    /\ out = Return doc
    /\ length (gets (new_events initial st'))
       = 2 + length [link_entry "about page" "https://acme.test/about"]
    /\ Forall2 url_of [link_entry "about page" "https://acme.test/about"] urls
    /\ gets (new_events initial st') = VStr acme_url :: VStr acme_url :: urls.
Proof.
  pose (run := BrochureMaker.get_all_details (H := acme) acme_url initial).
  destruct (fst run) as [doc | e] eqn:Hdoc; [| vm_compute in Hdoc; discriminate].
  assert (Hrun : BrochureMaker.get_all_details (H := acme) acme_url initial
                 = (fst run, snd run)) by apply surjective_pairing.
  assert (Hin : In (EvChat (links_request (H := acme)
                              (brochure_page (VStr acme_url) landing_page))
                           (inr (Some (lit "{about}"))))
                   (new_events initial (snd run)))
    by (vm_compute; right; right; left; reflexivity).
  assert (Hloads : json_loads (World := acme) (lit "{about}") = Some about_only)
    by (vm_compute; reflexivity).
  assert (Hselected : subscript about_only (lit "links")
            = inr (VList [link_entry "about page" "https://acme.test/about"]))
    by (vm_compute; reflexivity).
  assert (Hitems : iterate (VList [link_entry "about page" "https://acme.test/about"])
            = inr [link_entry "about page" "https://acme.test/about"])
    by reflexivity.
  destruct (aggregation_fetch_count (H := acme) acme_url initial (snd run) (fst run)
              _ _ _ _ _ Hrun Hin Hloads Hselected Hitems) as [_ [Hret _]].
  destruct (Hret doc Hdoc) as (Hlen & urls & Hurls & Hgets).
  exists (fst run), (snd run), doc, urls. rewrite Hdoc in Hrun.
  rewrite Hdoc. repeat split; assumption.
Defined.

Lemma summarize_example_witness :
  exists st1 o,
    Summarizer.Website (H := acme) example_url initial = (Return 0, st1)
    /\ heap st1 !! 0 = Some o
    /\ title o = Some (Some (lit "Example"))
    /\ text o = Some (lit "Hello" ++ nl ++ lit "World")
    /\ Summarizer.summarize (H := acme) example_url initial
       = (Return (Some (lit "# Acme")),
          answered st1 example_request (inr (Some (lit "# Acme"))))
    /\ gets (new_events initial
               (answered st1 example_request (inr (Some (lit "# Acme")))))
       = [VStr example_url].
Proof.
  pose (built := Summarizer.Website (H := acme) example_url initial).
  pose (o := summarizer_page example_url (lit "Example") example_page).
  exists (snd built), o.
  assert (HWebsite : Summarizer.Website (H := acme) example_url initial
                     = (Return 0, snd built)) by (vm_compute; reflexivity).
  assert (Ho : heap (snd built) !! 0 = Some o) by (vm_compute; reflexivity).
  assert (Htitle : title o = Some (Some (lit "Example"))) by reflexivity.
  assert (Htext : text o = Some (lit "Hello" ++ nl ++ lit "World"))
    by (vm_compute; reflexivity).
  destruct (summarize_example (H := acme) example_url initial (snd built) 0 o
              HWebsite Ho Htitle Htext) as (r & answer & Hanswer & Hrun & _ & Hgets).
  assert (answer = inr (Some (lit "# Acme"))) as ->
    by (rewrite Hanswer; vm_compute; reflexivity).
  repeat split; assumption.
Defined.

(** C2, as stated, fails on a page longer than the cap: the aggregated
    document that [get_all_details] produces is longer than 5000
    characters, and what [get_brochure_user_prompt] cuts at 5000 is the
    preamble followed by that document, which is not the first 5000
    characters of the document. *)
Lemma aggregated_document_cap_counterexample :
  exists details prompt st',
    BrochureMaker.get_all_details (H := wordy) acme_url initial
    = (Return details, st')
    /\ BrochureMaker.get_brochure_user_prompt (H := wordy) (lit "Acme") acme_url initial
       = (Return prompt, st')
    /\ 5000 < length details
    /\ prompt <> take 5000 details
    /\ length (drop (length (BrochureMaker.brochure_prompt_head (lit "Acme"))) prompt)
       < 5000.
Proof.
  exists (match fst (BrochureMaker.get_all_details (H := wordy) acme_url initial) with
          | Return details => details
          | Raise _ => []
          end),
         (match fst (BrochureMaker.get_brochure_user_prompt (H := wordy) (lit "Acme")
                       acme_url initial) with
          | Return prompt => prompt
          | Raise _ => []
          end),
         (snd (BrochureMaker.get_all_details (H := wordy) acme_url initial)).
  split; [vm_compute; reflexivity |]. split; [vm_compute; reflexivity |].
  split; [apply Nat.ltb_lt; vm_compute; reflexivity |].
  split; [| apply Nat.ltb_lt; vm_compute; reflexivity].
  match goal with
  | |- ?prompt <> take 5000 ?details =>
      assert (Hprompt : hd 0%N prompt = 89%N) by (vm_compute; reflexivity);
      assert (Hdetails : hd 0%N (take 5000 details) = 76%N)
        by (vm_compute; reflexivity);
      intros Heq; rewrite Heq, Hdetails in Hprompt; discriminate Hprompt
  end.
Qed.

(** C3, as stated, fails on a page whose script says what a paragraph
    says too and whose last paragraph runs over two lines: the text holds
    the literal content of the script, and its last line starts with
    whitespace. *)
Lemma body_text_counterexample :
  parser_shaped scripted_page = true
  /\ In (Tag (lit "script") [] [Str Script (lit "var Hello")])
        (descendants scripted_page)
  /\ exists st' o st2 o2 t,
       BrochureMaker.Website (H := scripted) (VStr example_url) initial
       = (Return 0, st')
       /\ heap st' !! 0 = Some o /\ text o = Some t
       /\ Summarizer.Website (H := scripted) example_url initial = (Return 0, st2)
       /\ heap st2 !! 0 = Some o2 /\ text o2 = Some t
       /\ t = lit "var Hello" ++ nl ++ lit "one" ++ nl ++ lit "  two"
       /\ contains t (lit "var Hello") = true
       /\ In (lit "  two") (lines_of t)
       /\ strip (lit "  two") <> lit "  two".
Proof.
  split; [vm_compute; reflexivity |].
  split; [vm_compute; right; right; left; reflexivity |].
  exists (snd (BrochureMaker.Website (H := scripted) (VStr example_url) initial)),
         (brochure_page (VStr example_url) scripted_page),
         (snd (Summarizer.Website (H := scripted) example_url initial)),
         (summarizer_page example_url (lit "No title found") scripted_page),
         (lit "var Hello" ++ nl ++ lit "one" ++ nl ++ lit "  two").
  split; [vm_compute; reflexivity |]. split; [vm_compute; reflexivity |].
  split; [vm_compute; reflexivity |]. split; [vm_compute; reflexivity |].
  split; [vm_compute; reflexivity |]. split; [vm_compute; reflexivity |].
  split; [reflexivity |]. split; [vm_compute; reflexivity |].
  split; [vm_compute; right; right; left; reflexivity |].
  vm_compute. discriminate.
Qed.

(** C6, as stated, fails on a reply that is valid JSON and no dictionary:
    [get_links] returns the list the reply parses to.  It fails too when
    the service answers with no text: the call fails then, and with
    [TypeError], not with the decoding error. *)
Lemma get_links_reply_counterexample :
  (exists st',
     BrochureMaker.get_links (H := off_shape) acme_url initial
     = (Return (VList [VInt 1]), st')
     /\ In (EvChat (links_request (H := off_shape)
                      (brochure_page (VStr acme_url) landing_page))
                   (inr (Some (lit "[1]"))))
           (new_events initial st')
     /\ json_loads (World := off_shape) (lit "[1]") = Some (VList [VInt 1])
     /\ forall d, VList [VInt 1] <> VDict d)
  /\ (exists st',
        BrochureMaker.get_links (H := mute) acme_url initial = (Raise TypeError, st')
        /\ In (EvChat (links_request (H := mute)
                         (brochure_page (VStr acme_url) landing_page))
                      (inr None))
              (new_events initial st')
        /\ TypeError <> JSONDecodeError).
Proof.
  split.
  - exists (snd (BrochureMaker.get_links (H := off_shape) acme_url initial)).
    split; [vm_compute; reflexivity |].
    split; [vm_compute; right; left; reflexivity |].
    split; [vm_compute; reflexivity |]. discriminate.
  - exists (snd (BrochureMaker.get_links (H := mute) acme_url initial)).
    split; [vm_compute; reflexivity |].
    split; [vm_compute; right; left; reflexivity |]. discriminate.
Qed.

(** C5, as stated, fails in the brochure maker: a key that is there but
    does not look right stops the script with [ValueError], and nothing
    is printed, where the claim has a warning and a run that goes on. *)
Lemma credential_warning_counterexample :
  looks_wrong (lit "my-api-key") = true
  /\ exists msg,
       BrochureMaker.main (H := acme) (Some (lit "my-api-key")) initial
       = (Raise (ValueError msg), initial).
Proof.
  split; [vm_compute; reflexivity |]. eexists. vm_compute. reflexivity.
Qed.

(** C8, as stated, fails when the service answers with the empty text:
    the page is the one of the claim, and the summary returned is empty. *)
Lemma summary_nonempty_counterexample :
  exists st1 o st',
    Summarizer.Website (H := silent) example_url initial = (Return 0, st1)
    /\ heap st1 !! 0 = Some o
    /\ title o = Some (Some (lit "Example"))
    /\ text o = Some (lit "Hello" ++ nl ++ lit "World")
    /\ links o = None
    /\ Summarizer.summarize (H := silent) example_url initial
       = (Return (Some []), st').
Proof.
  exists (snd (Summarizer.Website (H := silent) example_url initial)),
         (summarizer_page example_url (lit "Example") example_page),
         (snd (Summarizer.summarize (H := silent) example_url initial)).
  repeat split; vm_compute; reflexivity.
Qed.

(** C10, as stated, fails when a selected page cannot be fetched: the
    classifier selects two links, the first fetch of a selected page
    comes back with status 404, and three requests are issued, not four. *)
Lemma fetch_count_counterexample :
  exists out st' req,
    BrochureMaker.get_all_details (H := acme_broken_link) acme_url initial
    = (out, st')
    /\ In (EvChat req (inr (Some (lit "{careers, about}"))))
          (new_events initial st')
    /\ json_loads (World := acme_broken_link) (lit "{careers, about}")
       = Some gone_and_about
    /\ subscript gone_and_about (lit "links")
       = inr (VList [link_entry "careers page" "https://acme.test/careers";
                     link_entry "about page" "https://acme.test/about"])
    /\ length (gets (new_events initial st')) = 3
    /\ length (gets (new_events initial st'))
       <> 2 + length [link_entry "careers page" "https://acme.test/careers";
                      link_entry "about page" "https://acme.test/about"].
Proof.
  exists (fst (BrochureMaker.get_all_details (H := acme_broken_link) acme_url initial)),
         (snd (BrochureMaker.get_all_details (H := acme_broken_link) acme_url initial)),
         (links_request (H := acme_broken_link)
            (brochure_page (VStr acme_url) landing_page)).
  split; [apply surjective_pairing |].
  split; [vm_compute; right; right; left; reflexivity |].
  split; [vm_compute; reflexivity |]. split; [vm_compute; reflexivity |].
  split; [vm_compute; reflexivity |]. vm_compute. discriminate.
Qed.

(** C9.  A document fetched with status 200 that has no body and an empty
    title element: the summarizer's construction fails with
    [AttributeError], on [.strip()] of the [None] that [.string] gives,
    and the object is left with its address only.  The brochure maker,
    which does not strip, builds the page: no title, empty text. *)
Theorem summarizer_fails_on_empty_title :
  requests_get (World := acme) (events initial) (VStr untitled_url) user_agent
  = ok 3
  /\ html_parser (World := acme) [3%N] = untitled_page
  /\ find (lit "body") untitled_page = None
  /\ find (lit "title") untitled_page = Some (elem "title" [])
  /\ Summarizer.Website (H := acme) untitled_url initial
     = (Raise AttributeError,
        fetched initial (VStr untitled_url) (ok 3)
          (with_url (VStr untitled_url) no_attrs))
  /\ BrochureMaker.Website (H := acme) (VStr untitled_url) initial
     = (Return 0,
        fetched initial (VStr untitled_url) (ok 3)
          {| url := Some (VStr untitled_url); title := Some None;
             text := Some []; links := Some [] |}).
Proof. repeat split; vm_compute; reflexivity. Qed.

(** The key checks at the edges. *)
Example brochure_key_of_ten_characters :
  BrochureMaker.key_looks_good (Some (lit "sk-proj-ab")) = false
  /\ BrochureMaker.key_looks_good (Some (lit "sk-proj-abc")) = true
  /\ BrochureMaker.key_looks_good (Some (lit "sk-proj-abc ")) = true
  /\ BrochureMaker.key_looks_good (Some []) = false
  /\ BrochureMaker.key_looks_good None = false.
Proof. repeat split; vm_compute; reflexivity. Qed.

Example summarizer_key_with_a_trailing_space :
  Summarizer.load_api_key (Some (lit "sk-proj-abc ")) initial
  = (Return tt,
     printed initial
       [VStr (warning_sign ++ lit " API key has spaces or tabs around it. "
              ++ lit "Please remove them.")]).
Proof. vm_compute. reflexivity. Qed.

(** A reply that is not JSON stops [get_links] with the decoding error. *)
Example get_links_on_prose :
  fst (BrochureMaker.get_links (H := babbling) acme_url initial)
  = Raise JSONDecodeError.
Proof. vm_compute. reflexivity. Qed.

(** The text of a page keeps the line breaks inside a string: only the
    ends of each string are trimmed. *)
Example get_text_keeps_inner_line_breaks :
  get_text nl (elem "body" [elem "p" [Str NavigableString
                                        (lit " one" ++ nl ++ lit "  two ")];
                            elem "style" [Str Stylesheet (lit "p {}")];
                            Str Comment (lit "hidden");
                            elem "p" [txt "three"]])
  = lit "one" ++ nl ++ lit "  two" ++ nl ++ lit "three".
Proof. vm_compute. reflexivity. Qed.

(** ** Further properties: strings *)

Section Strings.

Lemma lstrip_head s c t : lstrip s = c :: t -> isspace c = false.
Proof.
  induction s as [| a s IH]; cbn [lstrip]; [discriminate |].
  destruct (isspace a) eqn:Ha; [exact IH |]. now intros [= <- _].
Qed.

Lemma lstrip_fixed c t : isspace c = false -> lstrip (c :: t) = c :: t.
Proof. intros Hc. cbn [lstrip]. now rewrite Hc. Qed.

Lemma lstrip_suffix s : exists pre, s = pre ++ lstrip s.
Proof.
  induction s as [| a s [pre IH]]; [now exists [] |]. cbn [lstrip].
  destruct (isspace a); [| now exists []].
  exists (a :: pre). cbn [app]. now rewrite <- IH.
Qed.

Lemma lstrip_idempotent s : lstrip (lstrip s) = lstrip s.
Proof.
  destruct (lstrip s) as [| c t] eqn:Hs; [reflexivity |].
  apply lstrip_fixed. exact (lstrip_head _ _ _ Hs).
Qed.

Lemma ends_well_stripped p : ends_well p -> strip p = p.
Proof.
  intros (c & t & d & t' & -> & Hc & Hrev & Hd). unfold strip, rstrip.
  now rewrite (lstrip_fixed c t Hc), Hrev, (lstrip_fixed d t' Hd), <- Hrev, rev_involutive.
Qed.

Lemma strip_ends_well s : strip s <> [] -> ends_well (strip s).
Proof.
  unfold strip, rstrip. intros Hne.
  destruct (lstrip (rev (lstrip s))) as [| d t'] eqn:Hrev; [now destruct Hne |].
  destruct (lstrip_suffix (rev (lstrip s))) as [pre Hpre]. rewrite Hrev in Hpre.
  apply (f_equal (@rev N)) in Hpre. rewrite rev_involutive, rev_app_distr in Hpre.
  destruct (rev (d :: t')) as [| c t] eqn:Hq.
  { apply (f_equal (@length N)) in Hq. rewrite length_rev in Hq. discriminate. }
  exists c, t, d, t'. split; [reflexivity |]. split.
  - cbn [app] in Hpre. exact (lstrip_head _ _ _ Hpre).
  - split; [| exact (lstrip_head _ _ _ Hrev)].
    now rewrite <- Hq, rev_involutive.
Qed.

Lemma ends_well_join a mid b : ends_well a -> ends_well b -> ends_well (a ++ mid ++ b).
Proof.
  intros (c & t & _ & _ & -> & Hc & _ & _) (_ & _ & d & t' & _ & _ & Hrev & Hd).
  exists c, (t ++ mid ++ b), d, (t' ++ rev mid ++ rev (c :: t)).
  split; [reflexivity |]. split; [exact Hc |]. split; [| exact Hd].
  change (c :: t ++ mid ++ b) with ((c :: t) ++ mid ++ b).
  now rewrite !rev_app_distr, Hrev, <- app_assoc.
Qed.

Lemma trimmed_lines_end_well ss : Forall ends_well (trimmed_lines ss).
Proof.
  unfold trimmed_lines. induction ss as [| s ss IH]; [constructor |].
  cbn [map List.filter]. unfold str_eqb at 1. case_bool_decide as Hs; cbn [negb].
  - exact IH.
  - constructor; [now apply strip_ends_well | exact IH].
Qed.

Lemma join_ends_well ps : Forall ends_well ps -> ps <> [] -> ends_well (join nl ps).
Proof.
  induction 1 as [| p ps Hp Hps IH]; [congruence |]. intros _.
  destruct ps as [| q ps]; [exact Hp |].
  change (join nl (p :: q :: ps)) with (p ++ nl ++ join nl (q :: ps)).
  apply ends_well_join; [exact Hp | now apply IH].
Qed.

(** The text of a page has no whitespace at either end. *)
Lemma page_text_stripped soup : strip (page_text soup) = page_text soup.
Proof.
  unfold page_text. destruct (find (lit "body") soup) as [body |]; [| reflexivity].
  unfold visible_text.
  destruct (trimmed_lines (flat_map visible_strings (contents_of body)))
    as [| p ps] eqn:Hlines; [reflexivity |].
  apply ends_well_stripped, join_ends_well; [| discriminate].
  rewrite <- Hlines. apply trimmed_lines_end_well.
Qed.

Lemma strip_idempotent s : strip (strip s) = strip s.
Proof.
  destruct (strip s) as [| c t] eqn:Hs; [reflexivity |].
  rewrite <- Hs. apply ends_well_stripped, strip_ends_well. now rewrite Hs.
Qed.

End Strings.

(** ** Further properties: pages *)

Section Pages.
Context `{World}.

Lemma sublist_flat_map {A B} (f : A -> list B) (l1 l2 : list A) :
  sublist l1 l2 -> sublist (flat_map f l1) (flat_map f l2).
Proof.
  induction 1 as [| x l1 l2 _ IH | x l1 l2 _ IH]; cbn [flat_map].
  - constructor.
  - now apply sublist_app.
  - now apply sublist_inserts_l.
Qed.

Lemma hrefs_sublist es1 es2 : sublist es1 es2 -> sublist (hrefs es1) (hrefs es2).
Proof.
  unfold hrefs. induction 1 as [| x l1 l2 _ IH | x l1 l2 _ IH]; cbn [List.filter].
  - constructor.
  - destruct (is_tag_named [lit "a"] x); [now constructor | exact IH].
  - destruct (is_tag_named [lit "a"] x); [now constructor | exact IH].
Qed.

Lemma hrefs_decompose_sublist_lift names cs :
  Forall (fun c => sublist (hrefs (descendants (decompose_all names c)))
                           (hrefs (descendants c))) cs ->
  sublist (hrefs (below (decompose_list names cs))) (hrefs (below cs)).
Proof.
  induction 1 as [| c cs Hc _ IHcs]; [constructor |].
  rewrite decompose_list_cons, below_app, below_cons, hrefs_app.
  change (c :: descendants c ++ below cs) with ((c :: descendants c) ++ below cs).
  rewrite hrefs_app. apply sublist_app; [| exact IHcs].
  destruct (is_tag_named names c).
  - apply sublist_nil_l.
  - rewrite below_one, hrefs_cons, (hrefs_cons c).
    rewrite (hrefs_same_root c _ (same_root_decompose_all _ c)).
    now apply sublist_app.
Qed.

(** Taking tags out of any tree leaves the targets that remain in their
    order. *)
Lemma hrefs_decompose_sublist names e :
  sublist (hrefs (descendants (decompose_all names e))) (hrefs (descendants e)).
Proof.
  induction e as [k s | n a cs IH] using PageElement_forest_ind; [constructor |].
  rewrite decompose_all_Tag, !descendants_Tag.
  now apply hrefs_decompose_sublist_lift.
Qed.

Lemma hrefs_alter_find_sublist name names e e' :
  alter_find name (decompose_all names) e = Some e' ->
  sublist (hrefs (descendants e')) (hrefs (descendants e)).
Proof.
  revert e'.
  induction e as [k s | n a cs IH] using PageElement_forest_ind; [discriminate |].
  intros e'. rewrite alter_find_Tag.
  destruct (alter_find_list name _ cs) as [cs' |] eqn:Hcs'; [| discriminate].
  intros [= <-]. rewrite !descendants_Tag. revert cs' Hcs'.
  induction IH as [| c cs Hc _ IHcs]; [discriminate |].
  intros cs'. cbn [alter_find_list]. intros Hcs'.
  destruct (is_tag_named [name] c).
  - injection Hcs' as <-.
    rewrite !below_cons, (hrefs_cons c), (hrefs_cons (decompose_all _ c)), !hrefs_app.
    rewrite (hrefs_same_root c _ (same_root_decompose_all _ c)).
    apply sublist_app; [reflexivity |].
    apply sublist_app; [apply hrefs_decompose_sublist | reflexivity].
  - destruct (alter_find name _ c) as [c' |] eqn:Hc'.
    + injection Hcs' as <-.
      rewrite !below_cons, (hrefs_cons c), (hrefs_cons c'), !hrefs_app.
      rewrite (hrefs_same_root c c' (same_root_alter_find _ _ _ _ Hc')).
      apply sublist_app; [reflexivity |].
      apply sublist_app; [now apply Hc | reflexivity].
    + destruct (alter_find_list name _ cs) as [cs0 |]; [| discriminate].
      injection Hcs' as <-.
      rewrite !below_cons, (hrefs_cons c (_ ++ below cs)),
        (hrefs_cons c (_ ++ below cs0)), !hrefs_app.
      apply sublist_app; [reflexivity |].
      apply sublist_app; [reflexivity | now apply IHcs].
Qed.

Lemma hrefs_cleaned_sublist soup :
  sublist (hrefs (descendants (cleaned soup))) (hrefs (descendants soup)).
Proof.
  unfold cleaned, decompose_in_body.
  destruct (find (lit "body") soup); [| reflexivity].
  destruct (alter_find _ _ soup) as [soup' |] eqn:Hsoup'; [| reflexivity].
  now apply (hrefs_alter_find_sublist (lit "body") irrelevant_tags).
Qed.

Lemma keep_truthy_nonempty ls : Forall (fun l => l <> []) (BrochureMaker.keep_truthy ls).
Proof.
  unfold BrochureMaker.keep_truthy.
  induction ls as [| [[| c l] |] ls IH]; cbn [flat_map app];
    first [exact IH | constructor; [discriminate | exact IH] | constructor].
Qed.

(** X1.  When the transport raises instead of answering, both [Website]
    classes let that very exception through: the request is in the trace,
    no object is handed back, and the object that was being built has its
    address only. *)
Theorem Website_transport_error (st : State) (u : Value) (e : Exc) :
  requests_get (events st) u user_agent = inl e ->
  BrochureMaker.Website u st
  = (Raise e, fetched st u (inl e) (with_url u no_attrs))
  /\ (forall url, u = VStr url ->
      Summarizer.Website url st
      = (Raise e, fetched st u (inl e) (with_url u no_attrs)))
  /\ bare (with_url u no_attrs).
Proof.
  intros Hget. split; [| split].
  - rewrite brochure_Website_run. cbv zeta. now rewrite Hget.
  - intros url ->. rewrite summarizer_Website_run. cbv zeta. now rewrite Hget.
  - now repeat split.
Qed.

(** X2.  Whatever the document, the links of the brochure maker's
    [Website] hold no empty string, and they are targets of anchors of the
    document that have one, in document order: a sub-sequence of them
    (all of them when the tree is shaped as the parser builds it). *)
Theorem links_are_a_subsequence (st : State) (u : Value) (resp : Response) :
  requests_get (events st) u user_agent = inr resp ->
  status_code resp = 200%Z ->
  exists a st' o ls,
    BrochureMaker.Website u st = (Return a, st')
    /\ heap st' !! a = Some o /\ links o = Some ls
    /\ Forall (fun l => l <> []) ls
    /\ sublist ls (map target_of (anchors_with_target (html_parser (content resp)))).
Proof.
  intros Hget Hstatus. apply Z.eqb_eq in Hstatus.
  rewrite brochure_Website_run. cbv zeta. rewrite Hget, Hstatus.
  do 4 eexists. split; [reflexivity |]. split; [apply lookup_fresh |].
  cbn [links brochure_page]. split; [reflexivity |].
  split; [apply keep_truthy_nonempty |].
  unfold anchors_with_target. rewrite <- keep_truthy_hrefs.
  unfold BrochureMaker.keep_truthy. apply sublist_flat_map, hrefs_cleaned_sublist.
Qed.

(** X3.  The text of a [Website], in either script, has no whitespace at
    its start or at its end: stripping it changes nothing. *)
Theorem Website_text_is_stripped (st st' : State) (u : Value) (a : nat)
    (o : Attrs) (t : str) :
  BrochureMaker.Website u st = (Return a, st')
  \/ (exists url, u = VStr url /\ Summarizer.Website url st = (Return a, st')) ->
  heap st' !! a = Some o ->
  text o = Some t ->
  strip t = t.
Proof.
  intros [Hrun | (url & -> & Hrun)].
  - rewrite brochure_Website_run in Hrun. cbv zeta in Hrun.
    destruct (requests_get (events st) u user_agent) as [e | resp]; [discriminate |].
    destruct (status_code resp =? 200)%Z; [| discriminate].
    injection Hrun as <- <-. unfold fetched. cbn [heap]. rewrite lookup_fresh.
    intros [= <-] [= <-]. apply page_text_stripped.
  - rewrite summarizer_Website_run in Hrun. cbv zeta in Hrun.
    destruct (requests_get (events st) (VStr url) user_agent) as [e | resp];
      [discriminate |].
    destruct (status_code resp =? 200)%Z; [| discriminate].
    destruct (summarizer_title _) as [e | title]; [discriminate |].
    injection Hrun as <- <-. unfold fetched. cbn [heap]. rewrite lookup_fresh.
    intros [= <-] [= <-]. apply page_text_stripped.
Qed.

(** X4.  The two [Website] classes agree.  Whenever the summarizer builds
    a page, the brochure maker builds one from the same answer, at the
    same address and with the same trace; the two have the same text, and
    the summarizer's title is the brochure maker's, stripped. *)
Theorem Websites_agree (st st2 : State) (location : str) (a : nat) :
  Summarizer.Website location st = (Return a, st2) ->
  exists st1 o1 o2 t,
    BrochureMaker.Website (VStr location) st = (Return a, st1)
    /\ events st1 = events st2
    /\ heap st1 !! a = Some o1 /\ heap st2 !! a = Some o2
    /\ Env.url o1 = Env.url o2
    /\ text o1 = text o2
    /\ title o1 = Some (Some t) /\ title o2 = Some (Some (strip t)).
Proof.
  rewrite summarizer_Website_run, brochure_Website_run. cbv zeta.
  destruct (requests_get (events st) (VStr location) user_agent) as [e | resp];
    [discriminate |].
  destruct (status_code resp =? 200)%Z; [| discriminate].
  unfold summarizer_title.
  destruct (find (lit "title") (html_parser (content resp))) as [t |] eqn:Htitle.
  - destruct (string_of t) as [s |] eqn:Hs; [| discriminate].
    intros [= <- <-]. do 3 eexists. exists s.
    split; [reflexivity |]. split; [reflexivity |].
    split; [apply lookup_fresh |]. split; [apply lookup_fresh |].
    cbn [Env.url text title brochure_page summarizer_page]. rewrite Htitle, Hs.
    now repeat split.
  - intros [= <- <-]. do 3 eexists. exists (lit "No title found").
    split; [reflexivity |]. split; [reflexivity |].
    split; [apply lookup_fresh |]. split; [apply lookup_fresh |].
    cbn [Env.url text title brochure_page summarizer_page]. rewrite Htitle.
    now repeat split.
Qed.

(** X5.  In the brochure maker, a title element that does not hold one
    single string (it is empty, or holds several nodes) gives the page
    the title [None], and [get_contents] writes it as the word None under
    the title heading. *)
Theorem untitled_page_reads_None (st : State) (u : Value) (resp : Response)
    (t : PageElement) :
  requests_get (events st) u user_agent = inr resp ->
  status_code resp = 200%Z ->
  find (lit "title") (html_parser (content resp)) = Some t ->
  string_of t = None ->
  exists a st' o x,
    BrochureMaker.Website u st = (Return a, st')
    /\ heap st' !! a = Some o
    /\ title o = Some None /\ text o = Some x
    /\ BrochureMaker.get_contents a st'
       = (Return (lit "Webpage Title:" ++ nl ++ lit "None" ++ nl
                  ++ lit "Webpage Contents:" ++ nl ++ x ++ nl ++ nl), st').
Proof.
  intros Hget Hstatus Htitle Hstring. apply Z.eqb_eq in Hstatus.
  rewrite brochure_Website_run. cbv zeta. rewrite Hget, Hstatus.
  do 4 eexists. split; [reflexivity |]. split; [apply lookup_fresh |].
  cbn [title text brochure_page]. rewrite Htitle, Hstring.
  split; [reflexivity |]. split; [reflexivity |].
  rewrite brochure_get_contents_run. cbn [title brochure_page].
  now rewrite Htitle, Hstring.
Qed.

End Pages.

(** ** Further properties: what every event of a run looks like *)

Section Events.
Context `{World}.
Context {P : Event -> Prop}.

Lemma runs_ret {A} (Q : A -> Prop) (a : A) : Q a -> runs P Q (mret a).
Proof.
  intros HQ st. exists []. unfold mret, M_ret. cbn [fst snd].
  rewrite app_nil_r. split; [reflexivity |]. split; [constructor | exact HQ].
Qed.

Lemma runs_raise {A} (Q : A -> Prop) (e : Exc) : runs P Q (raise e).
Proof.
  intros st. exists []. unfold raise. cbn [fst snd]. rewrite app_nil_r.
  split; [reflexivity |]. split; [constructor | exact I].
Qed.

Lemma runs_lift {A} (Q : A -> Prop) (r : Exc + A) :
  (forall a, r = inr a -> Q a) -> runs P Q (lift r).
Proof.
  intros HQ. destruct r as [e | a]; [apply runs_raise | apply runs_ret; now apply HQ].
Qed.

Lemma runs_bind {A B} (Q : A -> Prop) (R : B -> Prop) (m : M A) (f : A -> M B) :
  runs P Q m -> (forall a, Q a -> runs P R (f a)) -> runs P R (m ≫= f).
Proof.
  intros Hm Hf st. destruct (Hm st) as (evs1 & Hevs1 & HP1 & HQ).
  unfold mbind, M_bind. destruct (m st) as [[a | e] st1]; cbn [fst snd] in *.
  - destruct (Hf a HQ st1) as (evs2 & Hevs2 & HP2 & HR).
    exists (evs1 ++ evs2). rewrite Hevs2, Hevs1, app_assoc.
    split; [reflexivity |]. split; [now apply Forall_app | exact HR].
  - exists evs1. split; [exact Hevs1 |]. split; [exact HP1 | exact I].
Qed.

Lemma runs_weaken {A} (Q Q' : A -> Prop) (m : M A) :
  runs P Q m -> (forall a, Q a -> Q' a) -> runs P Q' m.
Proof.
  intros Hm HQ st. destruct (Hm st) as (evs & Hevs & HP & Hout).
  exists evs. split; [exact Hevs |]. split; [exact HP |].
  destruct (fst (m st)); [now apply HQ | exact I].
Qed.

Lemma runs_print (Q : unit -> Prop) (args : list Value) :
  P (EvPrint args) -> Q tt -> runs P Q (print args).
Proof.
  intros HP HQ st. exists [EvPrint args]. unfold print, emit. cbn [fst snd events].
  split; [reflexivity |]. split; [now constructor | exact HQ].
Qed.

Lemma runs_getattr {A} (self : nat) (attr : Attrs -> option A) :
  runs P (fun _ => True) (getattr self attr).
Proof.
  intros st. exists []. unfold getattr. cbn [fst snd]. rewrite app_nil_r.
  split; [reflexivity |]. split; [constructor |]. now destruct (_ ≫= attr).
Qed.

Lemma runs_create (req : ChatRequest) :
  (forall r, P (EvChat req r)) -> runs P (fun _ => True) (create req).
Proof.
  intros HP st. exists [EvChat req (chat_completions_create (events st) req)].
  unfold create, history, emit, lift, raise. unfold mbind, M_bind, mret, M_ret.
  cbn [fst snd events].
  destruct (chat_completions_create (events st) req); cbn [fst snd events];
    (split; [reflexivity |]); (split; [constructor; [apply HP | constructor] | exact I]).
Qed.

Lemma runs_brochure_Website (u : Value) :
  (forall r, P (EvGet u user_agent r)) ->
  runs P (fun _ => True) (BrochureMaker.Website u).
Proof.
  intros HP st. exists [EvGet u user_agent (requests_get (events st) u user_agent)].
  rewrite brochure_Website_run. cbv zeta.
  destruct (requests_get (events st) u user_agent) as [e | resp];
    [| destruct (status_code resp =? 200)%Z]; cbn [fst snd fetched events];
    (split; [reflexivity |]); (split; [constructor; [apply HP | constructor] | exact I]).
Qed.

Lemma runs_summarizer_Website (url : str) :
  (forall r, P (EvGet (VStr url) user_agent r)) ->
  runs P (fun _ => True) (Summarizer.Website url).
Proof.
  intros HP st.
  exists [EvGet (VStr url) user_agent (requests_get (events st) (VStr url) user_agent)].
  rewrite summarizer_Website_run. cbv zeta.
  destruct (requests_get (events st) (VStr url) user_agent) as [e | resp];
    [| destruct (status_code resp =? 200)%Z;
       [destruct (summarizer_title _) |]]; cbn [fst snd fetched events];
    (split; [reflexivity |]); (split; [constructor; [apply HP | constructor] | exact I]).
Qed.

Lemma runs_for_each {A B} (body : B -> A -> M B) (l : list A) :
  (forall acc x, runs P (fun _ => True) (body acc x)) ->
  forall acc, runs P (fun _ => True) (for_each l body acc).
Proof.
  intros Hbody. induction l as [| x l IH]; intros acc; cbn [for_each].
  - now apply runs_ret.
  - apply (runs_bind (fun _ => True)); [apply Hbody | intros acc' _; apply IH].
Qed.

(** A run that satisfies [runs] from the state it is observed in. *)
Lemma runs_new_events {A} (Q : A -> Prop) (m : M A) (st : State) :
  runs P Q m -> Forall P (new_events st (snd (m st))).
Proof.
  intros Hm. destruct (Hm st) as (evs & Hevs & HP & _).
  now rewrite (new_events_app _ _ _ Hevs).
Qed.

End Events.

Section BrochureEvents.
Context `{World}.

Lemma runs_get_contents (P : Event -> Prop) (self : nat) :
  runs P (fun _ => True) (BrochureMaker.get_contents self).
Proof.
  unfold BrochureMaker.get_contents.
  apply (runs_bind (fun _ => True)); [apply runs_getattr | intros t _].
  apply (runs_bind (fun _ => True)); [apply runs_getattr | intros x _].
  now apply runs_ret.
Qed.

Lemma brochure_event_get (u : Value) (r : Exc + Response) :
  brochure_event (EvGet u user_agent r).
Proof. reflexivity. Qed.

Lemma runs_get_links (url : str) :
  runs brochure_event (fun _ => True) (BrochureMaker.get_links url).
Proof.
  unfold BrochureMaker.get_links.
  apply (runs_bind (fun _ => True));
    [apply runs_brochure_Website, brochure_event_get | intros website _].
  apply (runs_bind (fun _ => True)).
  { unfold BrochureMaker.get_links_user_prompt.
    apply (runs_bind (fun _ => True)); [apply runs_getattr | intros u _].
    apply (runs_bind (fun _ => True)); [apply runs_getattr | intros ls _].
    now apply runs_ret. }
  intros user _. apply (runs_bind (fun _ => True)).
  { apply runs_create. intros r. split; [reflexivity |]. left.
    split; [reflexivity |]. now exists user. }
  intros [s |] _; [| apply runs_raise].
  destruct (json_loads s); [now apply runs_ret | apply runs_raise].
Qed.

Lemma runs_add_link (result : str) (link : Value) :
  runs brochure_event (fun _ => True) (BrochureMaker.add_link result link).
Proof.
  unfold BrochureMaker.add_link.
  apply (runs_bind (fun _ => True)); [now apply runs_lift | intros ty _].
  apply (runs_bind (fun _ => True)); [now apply runs_lift | intros u _].
  apply (runs_bind (fun _ => True));
    [apply runs_brochure_Website, brochure_event_get | intros page _].
  apply (runs_bind (fun _ => True)); [apply runs_get_contents | intros c _].
  now apply runs_ret.
Qed.

Lemma runs_get_all_details (url : str) :
  runs brochure_event (fun _ => True) (BrochureMaker.get_all_details url).
Proof.
  unfold BrochureMaker.get_all_details. cbv zeta.
  apply (runs_bind (fun _ => True));
    [apply runs_brochure_Website, brochure_event_get | intros landing _].
  apply (runs_bind (fun _ => True)); [apply runs_get_contents | intros c _].
  apply (runs_bind (fun _ => True)); [apply runs_get_links | intros links _].
  apply (runs_bind (fun _ => True)); [now apply runs_print | intros [] _].
  apply (runs_bind (fun _ => True)); [now apply runs_lift | intros selected _].
  apply (runs_bind (fun _ => True)); [now apply runs_lift | intros items _].
  apply runs_for_each. intros acc link. apply runs_add_link.
Qed.

Lemma runs_get_brochure_user_prompt (company_name url : str) :
  runs brochure_event (fun prompt => length prompt <= 5000)
       (BrochureMaker.get_brochure_user_prompt company_name url).
Proof.
  unfold BrochureMaker.get_brochure_user_prompt. cbv zeta.
  apply (runs_bind (fun _ => True)); [apply runs_get_all_details | intros details _].
  apply runs_ret. unfold slice_to. rewrite length_take. lia.
Qed.

Lemma runs_create_brochure (company_name url : str) :
  runs brochure_event (fun _ => True) (BrochureMaker.create_brochure company_name url).
Proof.
  unfold BrochureMaker.create_brochure.
  apply (runs_bind (fun prompt => length prompt <= 5000));
    [apply runs_get_brochure_user_prompt | intros user Huser].
  apply runs_create. intros r. split; [reflexivity |]. right.
  split; [reflexivity |]. now exists user.
Qed.

Lemma runs_brochure_main (api_key : option str) :
  runs brochure_event (fun _ => True) (BrochureMaker.main api_key).
Proof.
  unfold BrochureMaker.main. cbv zeta.
  apply (runs_bind (fun _ => True)).
  { unfold BrochureMaker.load_api_key.
    destruct (BrochureMaker.key_looks_good api_key);
      [now apply runs_print | apply runs_raise]. }
  intros [] _. apply (runs_bind (fun _ => True)); [now apply runs_print | intros [] _].
  apply (runs_bind (fun _ => True)); [apply runs_create_brochure | intros brochure _].
  apply (runs_bind (fun _ => True)); [now apply runs_print | intros [] _].
  apply (runs_bind (fun _ => True)); [now apply runs_print | intros [] _].
  apply (runs_bind (fun _ => True)); [now apply runs_print | intros [] _].
  apply (runs_bind (fun _ => True)); [now apply runs_print | intros [] _].
  now apply runs_print.
Qed.

(** X6.  In any run of the brochure maker, be it of [create_brochure] or
    of the whole script, every fetch carries the browser's user agent,
    every request to the service names the model gpt-4o-mini, and each is
    either the selection of links, asked for in JSON under the link
    system prompt, or the brochure under the brochure system prompt, with
    a user message of at most 5000 characters. *)
Theorem brochure_maker_events (company_name url : str) (api_key : option str)
    (st : State) :
  Forall brochure_event
    (new_events st (snd (BrochureMaker.create_brochure company_name url st)))
  /\ Forall brochure_event (new_events st (snd (BrochureMaker.main api_key st))).
Proof.
  split.
  - exact (runs_new_events _ _ st (runs_create_brochure company_name url)).
  - exact (runs_new_events _ _ st (runs_brochure_main api_key)).
Qed.

End BrochureEvents.

(** ** Further properties: the exception of a failed fetch *)

Section Blame.
Context `{World}.

Lemma blames_quiet {A} (m : M A) :
  (forall st, events (snd (m st)) = events st) -> blames m.
Proof.
  intros Hm st. exists []. rewrite app_nil_r. split; [apply Hm |]. intros u h r [].
Qed.

Lemma blames_ret {A} (a : A) : blames (mret a).
Proof. now apply blames_quiet. Qed.

Lemma blames_raise {A} (e : Exc) : blames (@raise A e).
Proof. now apply blames_quiet. Qed.

Lemma blames_lift {A} (r : Exc + A) : blames (lift r).
Proof. destruct r; [apply blames_raise | apply blames_ret]. Qed.

Lemma blames_getattr {A} (self : nat) (attr : Attrs -> option A) :
  blames (getattr self attr).
Proof. now apply blames_quiet. Qed.

Lemma blames_print (args : list Value) : blames (print args).
Proof.
  intros st. exists [EvPrint args]. split; [reflexivity |].
  intros u h r [[=] | []].
Qed.

Lemma blames_create (req : ChatRequest) : blames (create req).
Proof.
  intros st. exists [EvChat req (chat_completions_create (events st) req)].
  unfold create, history, emit, lift, raise. unfold mbind, M_bind, mret, M_ret.
  cbn [fst snd events].
  destruct (chat_completions_create (events st) req); cbn [fst snd events];
    (split; [reflexivity |]); intros u h r [[=] | []].
Qed.

Lemma blames_bind {A B} (m : M A) (f : A -> M B) :
  blames m -> (forall a, blames (f a)) -> blames (m ≫= f).
Proof.
  intros Hm Hf st. destruct (Hm st) as (evs1 & Hevs1 & Hfail1).
  unfold mbind, M_bind. destruct (m st) as [[a | e] st1]; cbn [fst snd] in *.
  - destruct (Hf a st1) as (evs2 & Hevs2 & Hfail2).
    exists (evs1 ++ evs2). rewrite Hevs2, Hevs1, app_assoc.
    split; [reflexivity |]. intros u h r [Hin | Hin]%in_app_or Hfailed.
    + now specialize (Hfail1 u h r Hin Hfailed).
    + now apply Hfail2 with h.
  - exists evs1. split; [exact Hevs1 |]. intros u h r Hin Hfailed.
    specialize (Hfail1 u h r Hin Hfailed). congruence.
Qed.

Lemma blames_Website (u : Value) : blames (BrochureMaker.Website u).
Proof.
  intros st. exists [EvGet u user_agent (requests_get (events st) u user_agent)].
  rewrite brochure_Website_run. cbv zeta.
  destruct (requests_get (events st) u user_agent) as [e | resp] eqn:Hget;
    [| destruct (status_code resp =? 200)%Z eqn:Hstatus]; cbn [fst snd fetched events];
    (split; [reflexivity |]); intros u' h r [[= <- <- <-] | []]; cbn [fetch_failed];
    rewrite ?Hstatus; try discriminate; reflexivity.
Qed.

Lemma blames_get_contents (self : nat) : blames (BrochureMaker.get_contents self).
Proof.
  unfold BrochureMaker.get_contents.
  apply blames_bind; [apply blames_getattr | intros t].
  apply blames_bind; [apply blames_getattr | intros x]. apply blames_ret.
Qed.

Lemma blames_for_each {A B} (body : B -> A -> M B) (l : list A) :
  (forall acc x, blames (body acc x)) -> forall acc, blames (for_each l body acc).
Proof.
  intros Hbody. induction l as [| x l IH]; intros acc; cbn [for_each].
  - apply blames_ret.
  - apply blames_bind; [apply Hbody | apply IH].
Qed.

Lemma blames_get_links (url : str) : blames (BrochureMaker.get_links url).
Proof.
  unfold BrochureMaker.get_links.
  apply blames_bind; [apply blames_Website | intros website].
  apply blames_bind.
  { unfold BrochureMaker.get_links_user_prompt.
    apply blames_bind; [apply blames_getattr | intros u].
    apply blames_bind; [apply blames_getattr | intros ls]. apply blames_ret. }
  intros user. apply blames_bind; [apply blames_create |].
  intros [s |]; [| apply blames_raise].
  destruct (json_loads s); [apply blames_ret | apply blames_raise].
Qed.

Lemma blames_get_all_details (url : str) : blames (BrochureMaker.get_all_details url).
Proof.
  unfold BrochureMaker.get_all_details. cbv zeta.
  apply blames_bind; [apply blames_Website | intros landing].
  apply blames_bind; [apply blames_get_contents | intros c].
  apply blames_bind; [apply blames_get_links | intros links].
  apply blames_bind; [apply blames_print | intros []].
  apply blames_bind; [apply blames_lift | intros selected].
  apply blames_bind; [apply blames_lift | intros items].
  apply blames_for_each. intros acc link. unfold BrochureMaker.add_link.
  apply blames_bind; [apply blames_lift | intros ty].
  apply blames_bind; [apply blames_lift | intros u].
  apply blames_bind; [apply blames_Website | intros page].
  apply blames_bind; [apply blames_get_contents | intros pc]. apply blames_ret.
Qed.

Lemma blames_create_brochure (company_name url : str) :
  blames (BrochureMaker.create_brochure company_name url).
Proof.
  unfold BrochureMaker.create_brochure, BrochureMaker.get_brochure_user_prompt.
  cbv zeta.
  apply blames_bind; [| intros user; apply blames_create].
  apply blames_bind; [apply blames_get_all_details | intros details; apply blames_ret].
Qed.

(** X7.  When a fetch of [get_all_details] or of [create_brochure] does not
    bring its page, the call ends in the exception of that very fetch:
    the one the transport raised, or the [Exception] whose message names
    the address fetched and the status received. *)
Theorem failed_fetch_is_the_error (company_name url : str) (st : State)
    (u : Value) (h : list (str * str)) (r : Exc + Response) :
  fetch_failed (EvGet u h r) = true ->
  (In (EvGet u h r) (new_events st (snd (BrochureMaker.get_all_details url st))) ->
   fst (BrochureMaker.get_all_details url st) = Raise (failure_of u r))
  /\ (In (EvGet u h r)
         (new_events st (snd (BrochureMaker.create_brochure company_name url st))) ->
      fst (BrochureMaker.create_brochure company_name url st)
      = Raise (failure_of u r)).
Proof.
  intros Hfailed. split.
  - destruct (blames_get_all_details url st) as (evs & Hevs & Hfail).
    rewrite (new_events_app _ _ _ Hevs). intros Hin. now apply Hfail with h.
  - destruct (blames_create_brochure company_name url st) as (evs & Hevs & Hfail).
    rewrite (new_events_app _ _ _ Hevs). intros Hin. now apply Hfail with h.
Qed.

End Blame.

(** ** Further properties: the aggregated document *)

Section Document.
Context `{World}.

Lemma add_link_returns result link st result' st1 :
  BrochureMaker.add_link result link st = (Return result', st1) ->
  exists ev,
    events st1 = events st ++ [ev]
    /\ entry_fetch link ev
    /\ result' = result ++ section link ev.
Proof.
  unfold BrochureMaker.add_link, lift, raise, section, entry_fetch, fetch_of.
  unfold mbind at 1, M_bind at 1.
  destruct (subscript link (lit "type")) as [e | ty]; [discriminate |].
  unfold mret at 1, M_ret at 1. unfold mbind at 1, M_bind at 1.
  destruct (subscript link (lit "url")) as [e | u] eqn:Hu; [discriminate |].
  unfold mret at 1, M_ret at 1. unfold mbind at 1, M_bind at 1.
  rewrite brochure_Website_run. cbv zeta.
  destruct (requests_get (events st) u user_agent) as [e | resp]; [discriminate |].
  destruct (status_code resp =? 200)%Z eqn:Hstatus; [| discriminate].
  unfold mbind at 1, M_bind at 1. rewrite brochure_get_contents_run.
  unfold mret, M_ret. intros [= <- <-].
  exists (EvGet u user_agent (inr resp)). split; [reflexivity |]. split.
  - split; [now exists ty |]. exists u, (inr resp).
    split; [reflexivity |]. split; [reflexivity |]. cbn [fetch_failed].
    now rewrite Hstatus.
  - cbn [page_of]. rewrite <- !app_assoc. f_equal. unfold nl. cbn [app].
    do 2 f_equal. now rewrite <- app_assoc.
Qed.

Lemma for_each_add_link_returns items :
  forall result st doc st',
    for_each items BrochureMaker.add_link result st = (Return doc, st') ->
    exists evs,
      events st' = events st ++ evs
      /\ Forall2 entry_fetch items evs
      /\ doc = result ++ sections items evs.
Proof.
  induction items as [| link items IH]; intros result st doc st'.
  - intros [= <- <-]. exists []. rewrite !app_nil_r. repeat split. constructor.
  - cbn [for_each]. unfold mbind at 1, M_bind at 1.
    destruct (BrochureMaker.add_link result link st) as [[result' | e] st1] eqn:Hturn;
      [| discriminate].
    apply add_link_returns in Hturn as (ev & Hev & Hentry & ->).
    intros Hrest. apply IH in Hrest as (evs & Hevs & Hentries & ->).
    exists (ev :: evs). rewrite Hevs, Hev, <- app_assoc.
    split; [reflexivity |]. split; [now constructor |].
    unfold sections. cbn [zip_with concat]. now rewrite <- app_assoc.
Qed.

Lemma selection_returns answer links :
  selection answer = Return links ->
  exists reply, answer = inr (Some reply) /\ json_loads reply = Some links.
Proof.
  destruct answer as [e | [reply |]]; cbn [selection]; try discriminate.
  destruct (json_loads reply) as [v |] eqn:Hv; [| discriminate].
  intros [= <-]. now exists reply.
Qed.

(** X8.  A document that [get_all_details] returns is made of the heading
    of the landing page, the contents of the page its first fetch
    brought, and one part for each selected link, in the order of the
    selection: two line breaks, the type of the link, a line break and
    the contents of the page fetched for it.  Every selected entry has a
    type and an address, and the trace is the two fetches of the landing
    page, the request to the service, the print of the selection and one
    fetch for each entry. *)
Theorem aggregated_document (url : str) (st st' : State) (doc : str) :
  BrochureMaker.get_all_details url st = (Return doc, st') ->
  exists r1 r2 req reply links line items tail,
    new_events st st'
    = [EvGet (VStr url) user_agent r1; EvGet (VStr url) user_agent r2;
       EvChat req (inr (Some reply)); EvPrint [line; links]] ++ tail
    /\ json_loads reply = Some links
    /\ selected_items links = inr items
    /\ Forall2 entry_fetch items tail
    /\ doc = lit "Landing page:" ++ nl
             ++ page_of (EvGet (VStr url) user_agent r1)
             ++ sections items tail.
Proof.
  unfold BrochureMaker.get_all_details. cbv zeta.
  unfold mbind at 1, M_bind at 1. rewrite brochure_Website_run. cbv zeta.
  destruct (requests_get (events st) (VStr url) user_agent) as [e | resp1];
    [discriminate |].
  destruct (status_code resp1 =? 200)%Z; [| discriminate].
  unfold mbind at 1, M_bind at 1. rewrite brochure_get_contents_run.
  unfold mbind at 1, M_bind at 1. rewrite get_links_run. cbv zeta.
  set (st1 := fetched st (VStr url) (inr resp1) _).
  destruct (requests_get (events st1) (VStr url) user_agent) as [e | resp2];
    [discriminate |].
  destruct (status_code resp2 =? 200)%Z; [| discriminate].
  set (o2 := brochure_page _ (html_parser (content resp2))).
  set (st2 := fetched st1 (VStr url) (inr resp2) o2).
  set (answer := chat_completions_create (events st2) (links_request o2)).
  destruct (selection answer) as [links | e] eqn:Hsel; [| discriminate].
  apply selection_returns in Hsel as (reply & Hanswer & Hloads).
  unfold print, emit. unfold mbind at 1, M_bind at 1. cbn [events heap].
  unfold lift, raise. unfold mbind at 1, M_bind at 1.
  destruct (subscript links (lit "links")) as [e | selected] eqn:Hselected;
    [discriminate |].
  unfold mret at 1, M_ret at 1. unfold mbind at 1, M_bind at 1.
  destruct (iterate selected) as [e | items] eqn:Hitems; [discriminate |].
  unfold mret at 1, M_ret at 1.
  intros Hloop. apply for_each_add_link_returns in Hloop as (tail & Htail & Hentries & ->).
  exists (inr resp1), (inr resp2), (links_request o2), reply, links.
  eexists. exists items, tail. split.
  { apply new_events_app. rewrite Htail.
    cbn [answered fetched events st1 st2]. rewrite Hanswer.
    now rewrite <- !app_assoc. }
  split; [exact Hloads |].
  split; [unfold selected_items; now rewrite Hselected |].
  split; [exact Hentries |].
  cbn [page_of]. now rewrite <- !app_assoc.
Qed.

End Document.

(** ** Further properties: a selection that cannot be used *)

Section Selection.
Context `{World}.

(** X9.  When the parsed reply of the service has nothing to go through
    under the key links (it is not a dictionary, it has no such key, or
    what is there cannot be iterated), [get_all_details] prints the
    reply and ends in the exception of that lookup: no selected page is
    fetched, and the landing page fetched twice is lost. *)
Theorem unusable_selection (url : str) (st st' : State) (out : Outcome str)
    (req : ChatRequest) (reply : str) (links : Value) (e : Exc) :
  BrochureMaker.get_all_details url st = (out, st') ->
  In (EvChat req (inr (Some reply))) (new_events st st') ->
  json_loads reply = Some links ->
  selected_items links = inl e ->
  out = Raise e
  /\ exists r1 r2 line,
       new_events st st'
       = [EvGet (VStr url) user_agent r1; EvGet (VStr url) user_agent r2;
          EvChat req (inr (Some reply)); EvPrint [line; links]].
Proof.
  intros Hrun. apply get_all_details_trace in Hrun as (evs & Hevs & Hshape).
  rewrite (new_events_app _ _ _ Hevs). clear Hevs.
  intros Hin Hloads Hitems. unfold selected_items in Hitems.
  destruct Hshape as [(r & e' & -> & _) | [(r1 & r2 & e' & -> & _)
    | [(r1 & r2 & req' & answer & e' & -> & _ & _ & Hsel & _)
    | (r1 & r2 & req' & answer & links' & line & tail & -> & _ & _ & Hsel & Hloop)]]].
  - destruct Hin as [[=] | []].
  - destruct Hin as [[=] | [[=] | []]].
  - destruct Hin as [[=] | [[=] | [[= _ ->] | []]]].
    cbn [selection] in Hsel. now rewrite Hloads in Hsel.
  - assert (req' = req /\ answer = inr (Some reply)) as [-> ->].
    { apply in_app_or in Hin as [[[=] | [[=] | [[= -> ->] | [[=] | []]]]] | Hin];
        [now split |]. exfalso.
      destruct (subscript links' _) as [e' | selected'];
        [destruct Hloop as [-> _]; destruct Hin |].
      destruct (iterate selected') as [e' | items'];
        [destruct Hloop as [-> _]; destruct Hin |].
      destruct Hloop as (Hgets & _).
      now apply (not_get_in tail (EvChat req (inr (Some reply))) Hgets). }
    cbn [selection] in Hsel. rewrite Hloads in Hsel. injection Hsel as <-.
    destruct (subscript links (lit "links")) as [e' | selected].
    + injection Hitems as ->. destruct Hloop as [-> ->]. split; [reflexivity |].
      now exists r1, r2, line.
    + rewrite Hitems in Hloop. destruct Hloop as [-> ->]. split; [reflexivity |].
      now exists r1, r2, line.
Qed.

(** What cannot be gone through: anything but a dictionary, and a
    dictionary without the key. *)
Lemma selected_items_errors (links : Value) :
  match links with
  | VDict d =>
      dict_get (lit "links") d = None ->
      selected_items links = inl (KeyError (lit "links"))
  | _ => selected_items links = inl TypeError
  end.
Proof.
  destruct links as [| b | z | f | s | l | d]; try reflexivity.
  intros Hd. unfold selected_items. cbn [subscript]. now rewrite Hd.
Qed.

End Selection.

(** ** Further properties: the summarizer *)

Section Summary.
Context `{World}.

(** X10.  For any page it has fetched, [summarize] asks the service once,
    with the model gpt-4o-mini, the system prompt and a user message that
    ends with the whole text of the page, uncut, and hands back the answer
    as it is; the fetch and this request are all that happens. *)
Theorem summarize_sends_the_page (url : str) (st st1 : State) (a : nat)
    (o : Attrs) (t : option str) (x : str) :
  Summarizer.Website url st = (Return a, st1) ->
  heap st1 !! a = Some o ->
  title o = Some t ->
  text o = Some x ->
  let req := summary_request t x in
  let answer := chat_completions_create (events st1) req in
  Summarizer.summarize url st
  = (match answer with inl e => Raise e | inr s => Return s end,
     answered st1 req answer)
  /\ (exists r,
        new_events st (answered st1 req answer)
        = [EvGet (VStr url) user_agent r; EvChat req answer])
  /\ (exists head, messages req
                   = [(lit "system", Summarizer.SYSTEM_PROMPT);
                      (lit "user", head ++ x)]).
Proof.
  intros HWebsite Ho Htitle Htext req answer.
  assert (exists r, events st1 = events st ++ [EvGet (VStr url) user_agent r])
    as [r Hr].
  { rewrite summarizer_Website_run in HWebsite. cbv zeta in HWebsite.
    destruct (requests_get (events st) (VStr url) user_agent) as [e | resp];
      [discriminate |].
    destruct (status_code resp =? 200)%Z; [| discriminate].
    destruct (summarizer_title _); [discriminate |].
    injection HWebsite as _ <-. eexists. reflexivity. }
  split; [| split].
  - unfold Summarizer.summarize. unfold mbind at 1, M_bind at 1. rewrite HWebsite.
    unfold Summarizer.messages_for, Summarizer.user_prompt_for, getattr.
    unfold mbind, M_bind, mret, M_ret. rewrite Ho. cbn [mbind option_bind].
    rewrite Htitle, Htext.
    unfold create, history, emit, lift, raise, answered.
    unfold mbind, M_bind, mret, M_ret. cbn [events heap].
    subst answer req. unfold summary_request.
    destruct (chat_completions_create _ _); reflexivity.
  - exists r. apply new_events_app. cbn [answered events]. rewrite Hr.
    now rewrite <- app_assoc.
  - eexists. unfold req, summary_request. cbn [messages].
    do 2 f_equal. f_equal. rewrite !app_assoc. reflexivity.
Qed.

Lemma runs_summarize (url : str) :
  runs (fun ev => is_print ev = false) (fun _ => True) (Summarizer.summarize url).
Proof.
  unfold Summarizer.summarize.
  apply (runs_bind (fun _ => True)); [now apply runs_summarizer_Website | intros w _].
  apply (runs_bind (fun _ => True)).
  { unfold Summarizer.messages_for, Summarizer.user_prompt_for.
    apply (runs_bind (fun _ => True)); [| intros user _; now apply runs_ret].
    apply (runs_bind (fun _ => True)); [apply runs_getattr | intros t _].
    apply (runs_bind (fun _ => True)); [apply runs_getattr | intros x _].
    now apply runs_ret. }
  intros msgs _. now apply runs_create.
Qed.

Lemma no_print_filter evs :
  Forall (fun ev => is_print ev = false) evs -> List.filter is_print evs = [].
Proof.
  induction 1 as [| ev evs Hev _ IH]; [reflexivity |].
  cbn [List.filter]. now rewrite Hev.
Qed.

(** X11.  [display_summary] prints nothing before the summary is there:
    when [summarize] fails, so does it, with the same exception, having
    printed nothing; otherwise it prints its five lines after everything
    else, the fourth being the summary as the service gave it. *)
Theorem display_summary_prints_last (url : str) (st st' : State)
    (out : Outcome unit) :
  Summarizer.display_summary url st = (out, st') ->
  (exists e,
     Summarizer.summarize url st = (Raise e, st')
     /\ out = Raise e
     /\ List.filter is_print (new_events st st') = [])
  \/ (exists summary st1,
        Summarizer.summarize url st = (Return summary, st1)
        /\ out = Return tt
        /\ new_events st st' = new_events st st1 ++ summary_display url summary
        /\ List.filter is_print (new_events st st1) = []).
Proof.
  unfold Summarizer.display_summary. unfold mbind at 1, M_bind at 1.
  pose proof (runs_summarize url st) as (evs & Hevs & Hquiet & _).
  destruct (Summarizer.summarize url st) as [[summary | e] st1]; cbn [snd] in Hevs.
  - unfold print, emit. unfold mbind, M_bind. cbn [events heap].
    intros [= <- <-]. right. exists summary, st1.
    split; [reflexivity |]. split; [reflexivity |].
    rewrite (new_events_app st st1 evs Hevs). split; [| now apply no_print_filter].
    apply new_events_app. cbn [events]. rewrite Hevs, <- !app_assoc. reflexivity.
  - intros [= <- <-]. left. exists e. split; [reflexivity |]. split; [reflexivity |].
    rewrite (new_events_app st st1 evs Hevs). now apply no_print_filter.
Qed.

End Summary.

(** ** Further properties: requests, budget and objects *)

Section Requests.
Context `{World}.

(** X12.  When its fetch brings a page, [get_links] always asks the
    service, once, in JSON mode, even for a page without links; for a
    document shaped as the parser builds it, the user message ends with
    the targets of the anchors of that page that have one, one per line,
    in document order. *)
Theorem get_links_shows_the_links (url : str) (st : State) (resp : Response) :
  requests_get (events st) (VStr url) user_agent = inr resp ->
  status_code resp = 200%Z ->
  parser_shaped (html_parser (content resp)) = true ->
  exists req answer st' head,
    BrochureMaker.get_links url st = (selection answer, st')
    /\ new_events st st' = [EvGet (VStr url) user_agent (inr resp); EvChat req answer]
    /\ response_format req = Some (lit "json_object")
    /\ messages req
       = [(lit "system", BrochureMaker.link_system_prompt);
          (lit "user",
           head ++ join nl (map target_of
                              (anchors_with_target (html_parser (content resp)))))].
Proof.
  intros Hget Hstatus Hshape. apply Z.eqb_eq in Hstatus.
  rewrite get_links_run. cbv zeta. rewrite Hget, Hstatus.
  do 4 eexists. split; [reflexivity |]. split.
  { apply new_events_app. cbn [answered fetched events]. now rewrite <- app_assoc. }
  split; [reflexivity |].
  unfold links_request. cbn [messages links brochure_page default].
  now rewrite (hrefs_cleaned _ Hshape), keep_truthy_hrefs.
Qed.

(** X13.  The cap of [get_brochure_user_prompt] is on the whole prompt:
    a head of at most 5000 characters is kept whole and the aggregated
    pages get what is left of the 5000; a longer head is cut itself and
    nothing of the pages is kept. *)
Theorem brochure_prompt_budget (company_name url : str) (st st' : State)
    (prompt : str) :
  BrochureMaker.get_brochure_user_prompt company_name url st = (Return prompt, st') ->
  exists details,
    BrochureMaker.get_all_details url st = (Return details, st')
    /\ let head := BrochureMaker.brochure_prompt_head company_name in
       (length head <= 5000 ->
        prompt = head ++ take (5000 - length head) details)
       /\ (5000 <= length head -> prompt = take 5000 head).
Proof.
  unfold BrochureMaker.get_brochure_user_prompt. cbv zeta.
  unfold mbind, M_bind, mret, M_ret.
  destruct (BrochureMaker.get_all_details url st) as [[details | e] st1];
    [| discriminate].
  set (head := BrochureMaker.brochure_prompt_head company_name).
  intros Hrun.
  assert (prompt = slice_to 5000 (head ++ details) /\ st' = st1) as [-> ->]
    by (split; congruence).
  exists details. split; [reflexivity |]. unfold slice_to. split; intros Hhead.
  - rewrite take_app. rewrite (take_ge head) by exact Hhead. reflexivity.
  - rewrite take_app. replace (5000 - length head) with 0 by lia.
    now rewrite take_0, app_nil_r.
Qed.

End Requests.

Section Objects.
Context `{World}.

Lemma keeps_quiet {A} (m : M A) :
  (forall st, heap (snd (m st)) = heap st) -> keeps m.
Proof. intros Hm st. exists []. now rewrite app_nil_r. Qed.

Lemma keeps_bind {A B} (m : M A) (f : A -> M B) :
  keeps m -> (forall a, keeps (f a)) -> keeps (m ≫= f).
Proof.
  intros Hm Hf st. destruct (Hm st) as (objs1 & Hobjs1).
  unfold mbind, M_bind. destruct (m st) as [[a | e] st1]; cbn [fst snd] in *.
  - destruct (Hf a st1) as (objs2 & Hobjs2). exists (objs1 ++ objs2).
    now rewrite Hobjs2, Hobjs1, app_assoc.
  - now exists objs1.
Qed.

Lemma keeps_lift {A} (r : Exc + A) : keeps (lift r).
Proof. destruct r; now apply keeps_quiet. Qed.

Lemma keeps_create (req : ChatRequest) : keeps (create req).
Proof.
  apply keeps_quiet. intros st. unfold create, history, emit, lift, raise.
  unfold mbind, M_bind, mret, M_ret. cbn [fst snd].
  now destruct (chat_completions_create (events st) req).
Qed.

Lemma keeps_brochure_Website (u : Value) : keeps (BrochureMaker.Website u).
Proof.
  intros st. rewrite brochure_Website_run. cbv zeta.
  destruct (requests_get (events st) u user_agent) as [e | resp];
    [| destruct (status_code resp =? 200)%Z]; eexists; reflexivity.
Qed.

Lemma keeps_summarizer_Website (url : str) : keeps (Summarizer.Website url).
Proof.
  intros st. rewrite summarizer_Website_run. cbv zeta.
  destruct (requests_get (events st) (VStr url) user_agent) as [e | resp];
    [| destruct (status_code resp =? 200)%Z; [destruct (summarizer_title _) |]];
    eexists; reflexivity.
Qed.

Lemma keeps_get_contents (self : nat) : keeps (BrochureMaker.get_contents self).
Proof.
  unfold BrochureMaker.get_contents.
  apply keeps_bind; [now apply keeps_quiet | intros t].
  apply keeps_bind; [now apply keeps_quiet | intros x]. now apply keeps_quiet.
Qed.

Lemma keeps_for_each {A B} (body : B -> A -> M B) (l : list A) :
  (forall acc x, keeps (body acc x)) -> forall acc, keeps (for_each l body acc).
Proof.
  intros Hbody. induction l as [| x l IH]; intros acc; cbn [for_each].
  - now apply keeps_quiet.
  - apply keeps_bind; [apply Hbody | apply IH].
Qed.

Lemma keeps_create_brochure (company_name url : str) :
  keeps (BrochureMaker.create_brochure company_name url).
Proof.
  unfold BrochureMaker.create_brochure, BrochureMaker.get_brochure_user_prompt,
    BrochureMaker.get_all_details. cbv zeta.
  apply keeps_bind; [| intros user; apply keeps_create].
  apply keeps_bind; [| intros details; now apply keeps_quiet].
  apply keeps_bind; [apply keeps_brochure_Website | intros landing].
  apply keeps_bind; [apply keeps_get_contents | intros c].
  apply keeps_bind.
  { unfold BrochureMaker.get_links, BrochureMaker.get_links_user_prompt.
    apply keeps_bind; [apply keeps_brochure_Website | intros website].
    apply keeps_bind.
    { apply keeps_bind; [now apply keeps_quiet | intros u].
      apply keeps_bind; [now apply keeps_quiet | intros ls]. now apply keeps_quiet. }
    intros user. apply keeps_bind; [apply keeps_create |].
    intros [s |]; [| now apply keeps_quiet].
    destruct (json_loads s); now apply keeps_quiet. }
  intros links. apply keeps_bind; [now apply keeps_quiet | intros []].
  apply keeps_bind; [apply keeps_lift | intros selected].
  apply keeps_bind; [apply keeps_lift | intros items].
  apply keeps_for_each. intros acc link. unfold BrochureMaker.add_link.
  apply keeps_bind; [apply keeps_lift | intros ty].
  apply keeps_bind; [apply keeps_lift | intros u].
  apply keeps_bind; [apply keeps_brochure_Website | intros page].
  apply keeps_bind; [apply keeps_get_contents | intros pc]. now apply keeps_quiet.
Qed.

Lemma keeps_summarize (url : str) : keeps (Summarizer.summarize url).
Proof.
  unfold Summarizer.summarize, Summarizer.messages_for, Summarizer.user_prompt_for.
  apply keeps_bind; [apply keeps_summarizer_Website | intros website].
  apply keeps_bind; [| intros msgs; apply keeps_create].
  apply keeps_bind; [| intros user; now apply keeps_quiet].
  apply keeps_bind; [now apply keeps_quiet | intros t].
  apply keeps_bind; [now apply keeps_quiet | intros x]. now apply keeps_quiet.
Qed.

(** X14.  A [Website] object is never changed once its constructor is
    done: whatever objects there are before [create_brochure] or
    [summarize] runs are the same after it, at the same addresses; a run
    only adds objects. *)
Theorem objects_are_kept (company_name url : str) (st : State) (a : nat)
    (o : Attrs) :
  heap st !! a = Some o ->
  heap (snd (BrochureMaker.create_brochure company_name url st)) !! a = Some o
  /\ heap (snd (Summarizer.summarize url st)) !! a = Some o.
Proof.
  intros Ho. split.
  - destruct (keeps_create_brochure company_name url st) as (objs & ->).
    now apply lookup_app_l_Some.
  - destruct (keeps_summarize url st) as (objs & ->).
    now apply lookup_app_l_Some.
Qed.

End Objects.

(** ** The further properties at concrete inputs *)

Lemma Website_transport_error_witness :
  requests_get (World := offline) (events initial) (VStr acme_url) user_agent
  = inl (LibraryError "ConnectionError")
  /\ BrochureMaker.Website (H := offline) (VStr acme_url) initial
     = (Raise (LibraryError "ConnectionError"),
        fetched initial (VStr acme_url) (inl (LibraryError "ConnectionError"))
          (with_url (VStr acme_url) no_attrs))
  /\ Summarizer.Website (H := offline) acme_url initial
     = (Raise (LibraryError "ConnectionError"),
        fetched initial (VStr acme_url) (inl (LibraryError "ConnectionError"))
          (with_url (VStr acme_url) no_attrs)).
Proof.
  split; [reflexivity |].
  destruct (Website_transport_error (H := offline) initial (VStr acme_url)
              (LibraryError "ConnectionError") eq_refl) as (Hb & Hs & _).
  split; [exact Hb | exact (Hs acme_url eq_refl)].
Defined.

Lemma links_are_a_subsequence_witness :
  map target_of (anchors_with_target odd_page) = [lit "/a"; lit "/hidden"; lit "/b"]
  /\ exists a st' o ls,
       BrochureMaker.Website (H := odd_world) (VStr acme_url) initial = (Return a, st')
       /\ heap st' !! a = Some o /\ links o = Some ls
       /\ Forall (fun l => l <> []) ls
       /\ sublist ls (map target_of (anchors_with_target odd_page)).
Proof.
  split; [vm_compute; reflexivity |].
  apply (links_are_a_subsequence (H := odd_world) initial (VStr acme_url)
           {| status_code := 200; content := [] |}); reflexivity.
Defined.

Lemma Website_text_is_stripped_witness :
  exists st' o,
    BrochureMaker.Website (H := acme) (VStr example_url) initial = (Return 0, st')
    /\ heap st' !! 0 = Some o
    /\ text o = Some (lit "Hello" ++ nl ++ lit "World")
    /\ strip (lit "Hello" ++ nl ++ lit "World") = lit "Hello" ++ nl ++ lit "World".
Proof.
  pose (built := BrochureMaker.Website (H := acme) (VStr example_url) initial).
  pose (o := brochure_page (VStr example_url) example_page).
  assert (Hrun : BrochureMaker.Website (H := acme) (VStr example_url) initial
                 = (Return 0, snd built)) by (vm_compute; reflexivity).
  assert (Ho : heap (snd built) !! 0 = Some o) by (vm_compute; reflexivity).
  assert (Htext : text o = Some (lit "Hello" ++ nl ++ lit "World"))
    by (vm_compute; reflexivity).
  exists (snd built), o.
  split; [exact Hrun |]. split; [exact Ho |]. split; [exact Htext |].
  exact (Website_text_is_stripped (H := acme) initial (snd built) (VStr example_url)
           0 o _ (or_introl Hrun) Ho Htext).
Defined.

Lemma Websites_agree_witness :
  exists st2 st1 o1 o2 t,
    Summarizer.Website (H := acme) example_url initial = (Return 0, st2)
    /\ BrochureMaker.Website (H := acme) (VStr example_url) initial = (Return 0, st1)
    /\ events st1 = events st2
    /\ heap st1 !! 0 = Some o1 /\ heap st2 !! 0 = Some o2
    /\ url o1 = url o2
    /\ text o1 = text o2
    /\ title o1 = Some (Some t) /\ title o2 = Some (Some (strip t)).
Proof.
  pose (built := Summarizer.Website (H := acme) example_url initial).
  assert (Hrun : Summarizer.Website (H := acme) example_url initial
                 = (Return 0, snd built)) by (vm_compute; reflexivity).
  destruct (Websites_agree (H := acme) initial (snd built) example_url 0 Hrun)
    as (st1 & o1 & o2 & t & Hagree).
  exists (snd built), st1, o1, o2, t. split; [exact Hrun | exact Hagree].
Defined.

Lemma untitled_page_reads_None_witness :
  find (lit "title") two_titles
  = Some (Demo.elem "title" [Demo.txt "Acme"; Str Comment (lit "draft")])
  /\ exists a st' o x,
       BrochureMaker.Website (H := titles_world) (VStr acme_url) initial
       = (Return a, st')
       /\ heap st' !! a = Some o
       /\ title o = Some None /\ text o = Some x
       /\ BrochureMaker.get_contents a st'
          = (Return (lit "Webpage Title:" ++ nl ++ lit "None" ++ nl
                     ++ lit "Webpage Contents:" ++ nl ++ x ++ nl ++ nl), st').
Proof.
  split; [vm_compute; reflexivity |].
  apply (untitled_page_reads_None (H := titles_world) initial (VStr acme_url)
           {| status_code := 200; content := [] |}
           (Demo.elem "title" [Demo.txt "Acme"; Str Comment (lit "draft")]));
    vm_compute; reflexivity.
Defined.

Lemma failed_fetch_is_the_error_witness :
  fetch_failed (EvGet (VStr careers_url) user_agent not_found) = true
  /\ In (EvGet (VStr careers_url) user_agent not_found)
        (new_events initial
           (snd (BrochureMaker.get_all_details (H := acme_broken_link) acme_url initial)))
  /\ fst (BrochureMaker.get_all_details (H := acme_broken_link) acme_url initial)
     = Raise (Exception ([10060%N] ++ lit " Failed to fetch "
                         ++ lit "https://acme.test/careers"
                         ++ lit ". Status code: " ++ lit "404")).
Proof.
  assert (Hfailed : fetch_failed (EvGet (VStr careers_url) user_agent not_found) = true)
    by reflexivity.
  assert (Hin : In (EvGet (VStr careers_url) user_agent not_found)
                   (new_events initial
                      (snd (BrochureMaker.get_all_details (H := acme_broken_link)
                              acme_url initial))))
    by (vm_compute; do 4 right; left; reflexivity).
  split; [exact Hfailed |]. split; [exact Hin |].
  rewrite (proj1 (failed_fetch_is_the_error (H := acme_broken_link) [] acme_url
                    initial (VStr careers_url) user_agent not_found Hfailed) Hin).
  vm_compute. reflexivity.
Defined.

Lemma aggregated_document_witness :
  exists doc st' r1 r2 req reply links line items tail,
    BrochureMaker.get_all_details (H := acme) acme_url initial = (Return doc, st')
    /\ new_events initial st'
       = [EvGet (VStr acme_url) user_agent r1; EvGet (VStr acme_url) user_agent r2;
          EvChat req (inr (Some reply)); EvPrint [line; links]] ++ tail
    /\ json_loads (World := acme) reply = Some links
    /\ selected_items links = inr items
    /\ Forall2 entry_fetch items tail
    /\ doc = lit "Landing page:" ++ nl
             ++ page_of (H := acme) (EvGet (VStr acme_url) user_agent r1)
             ++ sections (H := acme) items tail.
Proof.
  pose (run := BrochureMaker.get_all_details (H := acme) acme_url initial).
  destruct (fst run) as [doc | e] eqn:Hdoc; [| vm_compute in Hdoc; discriminate].
  assert (Hrun : BrochureMaker.get_all_details (H := acme) acme_url initial
                 = (Return doc, snd run))
    by (rewrite <- Hdoc; apply surjective_pairing).
  destruct (aggregated_document (H := acme) acme_url initial (snd run) doc Hrun)
    as (r1 & r2 & req & reply & links & line & items & tail & Hshape).
  exists doc, (snd run), r1, r2, req, reply, links, line, items, tail.
  split; [exact Hrun | exact Hshape].
Defined.

Lemma unusable_selection_witness :
  exists out st' req links,
    BrochureMaker.get_all_details (H := misnamed) acme_url initial = (out, st')
    /\ In (EvChat req (inr (Some (lit "{pages}")))) (new_events initial st')
    /\ json_loads (World := misnamed) (lit "{pages}") = Some links
    /\ selected_items links = inl (KeyError (lit "links"))
    /\ out = Raise (KeyError (lit "links"))
    /\ gets (new_events initial st') = [VStr acme_url; VStr acme_url].
Proof.
  pose (run := BrochureMaker.get_all_details (H := misnamed) acme_url initial).
  pose (links := VDict [(lit "pages",
                         VList [link_entry "about page" "https://acme.test/about"])]).
  pose (req := links_request (H := misnamed)
                 (brochure_page (VStr acme_url) landing_page)).
  assert (Hrun : BrochureMaker.get_all_details (H := misnamed) acme_url initial
                 = (fst run, snd run)) by apply surjective_pairing.
  assert (Hin : In (EvChat req (inr (Some (lit "{pages}"))))
                   (new_events initial (snd run)))
    by (vm_compute; right; right; left; reflexivity).
  assert (Hloads : json_loads (World := misnamed) (lit "{pages}") = Some links)
    by (vm_compute; reflexivity).
  assert (Hitems : selected_items links = inl (KeyError (lit "links")))
    by (vm_compute; reflexivity).
  destruct (unusable_selection (H := misnamed) acme_url initial (snd run) (fst run)
              req (lit "{pages}") links _ Hrun Hin Hloads Hitems)
    as (Hout & r1 & r2 & line & Htrace).
  exists (fst run), (snd run), req, links.
  split; [exact Hrun |]. split; [exact Hin |]. split; [exact Hloads |].
  split; [exact Hitems |]. split; [exact Hout |].
  rewrite Htrace. reflexivity.
Defined.

Lemma summarize_sends_the_page_witness :
  exists st1 o,
    Summarizer.Website (H := acme) example_url initial = (Return 0, st1)
    /\ heap st1 !! 0 = Some o
    /\ title o = Some (Some (lit "Example"))
    /\ text o = Some (lit "Hello" ++ nl ++ lit "World")
    /\ Summarizer.summarize (H := acme) example_url initial
       = (Return (Some (lit "# Acme")),
          answered st1
            (summary_request (Some (lit "Example"))
               (lit "Hello" ++ nl ++ lit "World"))
            (inr (Some (lit "# Acme")))).
Proof.
  pose (built := Summarizer.Website (H := acme) example_url initial).
  pose (o := summarizer_page example_url (lit "Example") example_page).
  exists (snd built), o.
  assert (HWebsite : Summarizer.Website (H := acme) example_url initial
                     = (Return 0, snd built)) by (vm_compute; reflexivity).
  assert (Ho : heap (snd built) !! 0 = Some o) by (vm_compute; reflexivity).
  assert (Htitle : title o = Some (Some (lit "Example"))) by reflexivity.
  assert (Htext : text o = Some (lit "Hello" ++ nl ++ lit "World"))
    by (vm_compute; reflexivity).
  destruct (summarize_sends_the_page (H := acme) example_url initial (snd built) 0 o
              _ _ HWebsite Ho Htitle Htext) as (Hrun & _ & _).
  split; [exact HWebsite |]. split; [exact Ho |]. split; [exact Htitle |].
  split; [exact Htext |]. rewrite Hrun. vm_compute. reflexivity.
Defined.

Lemma display_summary_prints_last_witness :
  exists out st' st1,
    Summarizer.display_summary (H := acme) example_url initial = (out, st')
    /\ Summarizer.summarize (H := acme) example_url initial
       = (Return (Some (lit "# Acme")), st1)
    /\ out = Return tt
    /\ new_events initial st'
       = new_events initial st1 ++ summary_display example_url (Some (lit "# Acme")).
Proof.
  pose (run := Summarizer.display_summary (H := acme) example_url initial).
  assert (Hrun : Summarizer.display_summary (H := acme) example_url initial
                 = (fst run, snd run)) by apply surjective_pairing.
  destruct (display_summary_prints_last (H := acme) example_url initial (snd run)
              (fst run) Hrun)
    as [(e & Hfail & _) | (summary & st1 & Hsum & Hout & Hnew & _)].
  - exfalso. vm_compute in Hfail. discriminate.
  - assert (summary = Some (lit "# Acme")) as ->
      by (pose proof Hsum as Hvalue; vm_compute in Hvalue;
          injection Hvalue as <- _; reflexivity).
    exists (fst run), (snd run), st1.
    split; [exact Hrun |]. split; [exact Hsum |]. split; [exact Hout | exact Hnew].
Defined.

Lemma get_links_shows_the_links_witness :
  parser_shaped landing_page = true
  /\ exists req answer st' head,
       BrochureMaker.get_links (H := acme) acme_url initial
       = (selection (H := acme) answer, st')
       /\ new_events initial st'
          = [EvGet (VStr acme_url) user_agent (ok 1); EvChat req answer]
       /\ response_format req = Some (lit "json_object")
       /\ messages req
          = [(lit "system", BrochureMaker.link_system_prompt);
             (lit "user",
              head ++ join nl (map target_of (anchors_with_target landing_page)))].
Proof.
  split; [vm_compute; reflexivity |].
  apply (get_links_shows_the_links (H := acme) acme_url initial
           {| status_code := 200; content := [1%N] |});
    vm_compute; reflexivity.
Defined.

Lemma brochure_prompt_budget_witness :
  exists prompt st' details,
    BrochureMaker.get_brochure_user_prompt (H := acme) (lit "Acme") acme_url initial
    = (Return prompt, st')
    /\ BrochureMaker.get_all_details (H := acme) acme_url initial
       = (Return details, st')
    /\ prompt = BrochureMaker.brochure_prompt_head (lit "Acme")
                ++ take (5000 - length (BrochureMaker.brochure_prompt_head (lit "Acme")))
                     details.
Proof.
  pose (run := BrochureMaker.get_brochure_user_prompt (H := acme) (lit "Acme")
                 acme_url initial).
  destruct (fst run) as [prompt | e] eqn:Hprompt; [| vm_compute in Hprompt; discriminate].
  assert (Hrun : BrochureMaker.get_brochure_user_prompt (H := acme) (lit "Acme")
                   acme_url initial = (Return prompt, snd run))
    by (rewrite <- Hprompt; apply surjective_pairing).
  destruct (brochure_prompt_budget (H := acme) (lit "Acme") acme_url initial (snd run)
              prompt Hrun) as (details & Hdetails & Hshort & _).
  exists prompt, (snd run), details.
  split; [exact Hrun |]. split; [exact Hdetails |]. apply Hshort.
  apply Nat.leb_le. vm_compute. reflexivity.
Defined.

Lemma objects_are_kept_witness :
  let st := snd (BrochureMaker.Website (H := acme) (VStr example_url) initial) in
  let o := brochure_page (VStr example_url) example_page in
  heap st !! 0 = Some o
  /\ heap (snd (BrochureMaker.create_brochure (H := acme) (lit "Acme") acme_url st)) !! 0
     = Some o
  /\ heap (snd (Summarizer.summarize (H := acme) acme_url st)) !! 0 = Some o.
Proof.
  intros st o.
  assert (Ho : heap st !! 0 = Some o) by (vm_compute; reflexivity).
  split; [exact Ho |].
  exact (objects_are_kept (H := acme) (lit "Acme") acme_url st 0 o Ho).
Defined.
